(** * Leancon IFC backend: bounding boxes, level classification, quantity
      tables and the geometry merge

    A shallow embedding of [backend/geometry_extractor.py],
    [backend/ifc_processor.py] and [backend/main.py].

    Python [float] is IEEE-754 binary64.  It is modelled by the Standard
    Library's executable specification of binary64 ([spec_float] with
    [prec = 53], [emax = 1024]), so NaN, the infinities, signed zeros and
    rounding behave as they do in CPython and numpy.  Python [int] is [Z],
    [str] is [string] (bytes of the UTF-8 encoding), [None] is the [None] of
    an [option] or a constructor of its own. *)

From Stdlib Require Import ZArith Lia List Bool String Ascii.
From Stdlib Require Import DecimalString DecimalZ Sorting.Sorted Sorting.Permutation.
From Stdlib Require Import Floats.SpecFloat Floats.FloatOps Floats.PrimFloat.
From stdpp Require Import base option list sorting gmap strings.
Import ListNotations.

Set Warnings "-inexact-float".

(* ===================================================================== *)
(** * Binary64 arithmetic *)
(* ===================================================================== *)

Module Float64.

Definition float := spec_float.

Definition fadd : float -> float -> float := SFadd prec emax.
Definition fsub : float -> float -> float := SFsub prec emax.
Definition fmul : float -> float -> float := SFmul prec emax.
Definition fdiv : float -> float -> float := SFdiv prec emax.
Definition fabs : float -> float := SFabs.

(** Python's [x < y], [x <= y], [x > y], [x >= y] on floats. *)
Definition flt (x y : float) : bool := SFltb x y.
Definition fle (x y : float) : bool := SFleb x y.
Definition fgt (x y : float) : bool := SFltb y x.
Definition fge (x y : float) : bool := SFleb y x.

(** Python's [x == y] on floats. *)
Definition feq (x y : float) : bool := SFeqb x y.

Definition isnan (x : float) : bool :=
  match x with S754_nan => true | _ => false end.

(** Neither NaN nor an infinity ([math.isfinite]). *)
Definition isfinite (x : float) : bool :=
  match x with
  | S754_zero _ | S754_finite _ _ _ => true
  | S754_infinity _ | S754_nan => false
  end.

(** A float literal of the source: the binary64 value nearest to the decimal. *)
Definition lit (f : PrimFloat.float) : float := Prim2SF f.

Definition nan : float := S754_nan.
Definition zero : float := S754_zero false.

(** The order of the numbers among the floats, read off their
    representation: sign class, then exponent, then mantissa.  (A NaN has
    no place in the order; its value here is never used.) *)
Definition rank (x : float) : Z * Z * Z :=
  match x with
  | S754_nan => (0, 0, 0)
  | S754_infinity true => (-2, 0, 0)
  | S754_infinity false => (2, 0, 0)
  | S754_zero _ => (0, 0, 0)
  | S754_finite true m e => (-1, - e, Zneg m)
  | S754_finite false m e => (1, e, Zpos m)
  end%Z.

Definition rank_lt (a b : Z * Z * Z) : Prop :=
  let '(a1, a2, a3) := a in
  let '(b1, b2, b3) := b in
  (a1 < b1 \/ (a1 = b1 /\ (a2 < b2 \/ (a2 = b2 /\ a3 < b3))))%Z.
Definition one : float := Eval vm_compute in lit 1.
Definition two : float := Eval vm_compute in lit 2.
Definition three : float := Eval vm_compute in lit 3.
Definition six : float := Eval vm_compute in lit 6.
Definition ten : float := Eval vm_compute in lit 10.
Definition minus_three : float := Eval vm_compute in lit (-3).

End Float64.
Import Float64.

(* ===================================================================== *)
(** * Python built-ins used by the backend *)
(* ===================================================================== *)

Module Py.

Local Open Scope Z_scope.

(** ** Strings *)

(** [str(i)] for an [int]. *)
Definition str_of_Z (z : Z) : string := NilZero.string_of_int (Z.to_int z).

(** [int(s)] on an optional sign followed by decimal digits; [None] is
    [ValueError].  (Python also accepts surrounding blanks and underscores
    between digits; no string built by the backend has them.) *)
Definition py_int (s : string) : option Z :=
  match s with
  | String "+" r => option_map (fun u => Z.of_int (Decimal.Pos u)) (NilZero.uint_of_string r)
  | _ => option_map Z.of_int (NilZero.int_of_string s)
  end.

(** Truth value of a [str]. *)
Definition str_truthy (s : string) : bool :=
  match s with EmptyString => false | _ => true end.

(** [x or default] where [x] is [None] or a [str]. *)
Definition str_or (x : option string) (default : string) : string :=
  match x with
  | Some s => if str_truthy s then s else default
  | None => default
  end.

(** [sep.join(parts)]. *)
Fixpoint join (sep : string) (parts : list string) : string :=
  match parts with
  | [] => EmptyString
  | [p] => p
  | p :: rest => p +:+ sep +:+ join sep rest
  end.

(** [s.split(c)] for a one-character separator. *)
Fixpoint split (sep : ascii) (s : string) : list string :=
  match s with
  | EmptyString => [EmptyString]
  | String c r =>
      if Ascii.eqb c sep then EmptyString :: split sep r
      else match split sep r with
           | h :: t => String c h :: t
           | [] => [String c EmptyString]
           end
  end.

Definition startswith (s p : string) : bool := String.prefix p s.

Fixpoint rev_string (s acc : string) : string :=
  match s with
  | EmptyString => acc
  | String c r => rev_string r (String c acc)
  end.

Definition endswith (s p : string) : bool :=
  String.prefix (rev_string p EmptyString) (rev_string s EmptyString).

(** [s.lower()] on ASCII letters (IFC entity names are ASCII). *)
Definition lower_ascii (c : ascii) : ascii :=
  let n := N_of_ascii c in
  if ((65 <=? n) && (n <=? 90))%N then ascii_of_N (n + 32) else c.

Fixpoint lower (s : string) : string :=
  match s with
  | EmptyString => EmptyString
  | String c r => String (lower_ascii c) (lower r)
  end.

(** [s.replace(old, new)] for a non-empty [old]: occurrences are replaced
    from the left, without overlap.  [skip] counts the characters of a
    match still to be dropped. *)
Fixpoint replace_go (old new : string) (skip : nat) (s : string) : string :=
  match s with
  | EmptyString => EmptyString
  | String c r =>
      match skip with
      | S k => replace_go old new k r
      | O =>
          if String.prefix old s
          then new +:+ replace_go old new (Nat.pred (String.length old)) r
          else String c (replace_go old new O r)
      end
  end.

Definition replace (old new s : string) : string := replace_go old new O s.

(** ** [repr] of a float: the shortest decimal string that reads back as the
    same binary64 value (CPython's [float_repr_style = 'short']), which is
    also what an f-string prints for a float. *)

(** Compare [a * 2^ea] with [b * 10^kb]. *)
Definition cmp_bin_dec (a ea b kb : Z) : comparison :=
  Z.compare (a * 2 ^ Z.max ea 0 * 10 ^ Z.max (- kb) 0)
            (b * 10 ^ Z.max kb 0 * 2 ^ Z.max (- ea) 0).

(** [floor (a * 2^ea / 10^k)]. *)
Definition floor_bin_dec (a ea k : Z) : Z :=
  (a * 2 ^ Z.max ea 0 * 10 ^ Z.max (- k) 0) / (2 ^ Z.max (- ea) 0 * 10 ^ Z.max k 0).

Fixpoint log10_adjust (fuel : nat) (m e p : Z) : Z :=
  match fuel with
  | O => p
  | S f =>
      match cmp_bin_dec m e 1 p with
      | Lt => log10_adjust f m e (p - 1)
      | _ => match cmp_bin_dec m e 1 (p + 1) with
             | Lt => p
             | _ => log10_adjust f m e (p + 1)
             end
      end
  end.

(** [floor (log10 (m * 2^e))], from a binary estimate corrected by search. *)
Definition floor_log10 (m e : Z) : Z :=
  log10_adjust 8 m e ((Z.log2 m + e) * 30103 / 100000).

(** Is [d * 10^k] inside the rounding interval [lo * 2^w, hi * 2^w] of the
    float (the ends count when the mantissa is even)? *)
Definition in_interval (incl : bool) (lo hi w d k : Z) : bool :=
  match cmp_bin_dec lo w d k, cmp_bin_dec hi w d k with
  | Lt, Gt => true
  | Eq, _ => incl
  | _, Eq => incl
  | _, _ => false
  end.

(** Try [n], [n+1], ... significant digits until a decimal [d * 10^k] falls
    in the rounding interval of [m * 2^e]; of two that do, the nearer. *)
Fixpoint shortest_go (fuel : nat) (n m e p : Z) : Z * Z :=
  let w := e - 2 in
  let x4 := 4 * m in
  let hi := x4 + 2 in
  let lo := if (m =? 2 ^ 52) && (-1074 <? e) then x4 - 1 else x4 - 2 in
  let incl := Z.even m in
  let k := p - n + 1 in
  let dlo := floor_bin_dec m e k in
  let dhi := dlo + 1 in
  let oklo := in_interval incl lo hi w dlo k in
  let okhi := in_interval incl lo hi w dhi k in
  let closer_lo :=
    match cmp_bin_dec (2 * m) e (dlo + dhi) k with
    | Lt => true
    | Gt => false
    | Eq => Z.even dlo
    end in
  match fuel with
  | O => (dlo, k)
  | S f =>
      if oklo && okhi then (if closer_lo then (dlo, k) else (dhi, k))
      else if oklo then (dlo, k)
      else if okhi then (dhi, k)
      else shortest_go f (n + 1) m e p
  end.

Fixpoint strip_zeros (fuel : nat) (d k : Z) : Z * Z :=
  match fuel with
  | O => (d, k)
  | S f =>
      if (d mod 10 =? 0) && negb (d =? 0) then strip_zeros f (d / 10) (k + 1)
      else (d, k)
  end.

Definition shortest_digits (m : positive) (e : Z) : Z * Z :=
  let p := floor_log10 (Zpos m) e in
  let '(d, k) := shortest_go 18 1 (Zpos m) e p in
  strip_zeros 20 d k.

Fixpoint zeros (n : nat) : string :=
  match n with O => EmptyString | S n' => String "0" (zeros n') end.

Definition pad2 (s : string) : string :=
  if (String.length s <? 2)%nat then String "0" s else s.

(** The digits [d] scaled by [10^k], laid out as [repr] does: exponent
    notation when the decimal point falls left of [0.0001] or right of 16
    digits, a trailing [.0] on integers. *)
Definition format_digits (d k : Z) : string :=
  let ds := str_of_Z d in
  let L := Z.of_nat (String.length ds) in
  let decpt := L + k in
  if (decpt <=? -4) || (16 <? decpt) then
    let ex := decpt - 1 in
    let mant :=
      match ds with
      | String c EmptyString => ds
      | String c r => String c (String "." r)
      | EmptyString => ds
      end in
    mant +:+ "e" +:+ (if ex <? 0 then "-" else "+") +:+ pad2 (str_of_Z (Z.abs ex))
  else if decpt <=? 0 then "0." +:+ zeros (Z.to_nat (- decpt)) +:+ ds
  else if L <=? decpt then ds +:+ zeros (Z.to_nat (decpt - L)) +:+ ".0"
  else substring 0 (Z.to_nat decpt) ds +:+ "."
       +:+ substring (Z.to_nat decpt) (Z.to_nat (L - decpt)) ds.

Definition float_repr (x : float) : string :=
  match x with
  | S754_nan => "nan"
  | S754_infinity s => if s then "-inf" else "inf"
  | S754_zero s => if s then "-0.0" else "0.0"
  | S754_finite s m e =>
      let '(d, k) := shortest_digits m e in
      (if s then "-" else "") +:+ format_digits d k
  end.

(** ** [round(x, 2)] on a float: the decimal with two fractional digits
    nearest to the exact value of [x] (ties to even), read back as the
    nearest binary64. *)
Definition round_half_even_div (a b : Z) : Z :=
  let q := a / b in
  let r := a mod b in
  match Z.compare (2 * r) b with
  | Lt => q
  | Gt => q + 1
  | Eq => if Z.even q then q else q + 1
  end.

Definition round2 (x : float) : float :=
  match x with
  | S754_finite s m e =>
      match round_half_even_div (Zpos m * 100 * 2 ^ Z.max e 0) (2 ^ Z.max (- e) 0) with
      | Zpos n => fdiv (S754_finite s n 0) (S754_finite false 100 0)
      | _ => S754_zero s
      end
  | _ => x
  end.

(** ** Numbers: an [int] or a [float] *)
Inductive pynum :=
  | NInt (z : Z)
  | NFloat (f : float).

(** [value > 0]. *)
Definition num_gt0 (v : pynum) : bool :=
  match v with
  | NInt z => 0 <? z
  | NFloat f => fgt f zero
  end.

(** [f"{value}"]. *)
Definition num_str (v : pynum) : string :=
  match v with
  | NInt z => str_of_Z z
  | NFloat f => float_repr f
  end.

(** ** [min(iterable, key=...)] and [sorted(iterable, key=...)] *)
Section KeyFunctions.
Context {A K : Type} (lt : K -> K -> bool) (key : A -> K).

(** CPython keeps the first item and replaces it only by an item whose key
    is strictly smaller. *)
Fixpoint min_loop (best : A) (l : list A) : A :=
  match l with
  | [] => best
  | x :: r => if lt (key x) (key best) then min_loop x r else min_loop best r
  end.

(** [None] is the [ValueError] of an empty iterable. *)
Definition py_min (l : list A) : option A :=
  match l with
  | [] => None
  | x :: r => Some (min_loop x r)
  end.

(** [sorted(l, key=key)] and [l.sort(key=key)].  The sort is stable and
    compares keys with [<] only.  CPython sorts a list of fewer than 64
    items as written here: it takes the run at the head of the list
    ([count_run]: the longest prefix in which no item is smaller than the
    one before it or, when the second item is smaller than the first, the
    longest prefix in which every item is smaller than the one before it,
    which it reverses), and inserts the remaining items one by one at the
    place a binary search gives ([binarysort]).  From 64 items on it cuts
    the list into runs of this kind and merges them, which gives the same
    list whenever [<] orders the keys (no NaN among floats). *)

(** The items that continue a run whose last item is [prev], and the rest. *)
Fixpoint ascending_run (prev : A) (l : list A) : list A * list A :=
  match l with
  | [] => ([], [])
  | x :: r =>
      if lt (key x) (key prev) then ([], l)
      else let '(run, rest) := ascending_run x r in (x :: run, rest)
  end.

Fixpoint descending_run (prev : A) (l : list A) : list A * list A :=
  match l with
  | [] => ([], [])
  | x :: r =>
      if lt (key x) (key prev)
      then let '(run, rest) := descending_run x r in (x :: run, rest)
      else ([], l)
  end.

(** The run at the head of the list, put in ascending order, and the rest. *)
Definition count_run (l : list A) : list A * list A :=
  match l with
  | [] => ([], [])
  | [x] => ([x], [])
  | x :: y :: r =>
      if lt (key y) (key x)
      then let '(run, rest) := descending_run y r in (rev (x :: y :: run), rest)
      else let '(run, rest) := ascending_run y r in (x :: y :: run, rest)
  end.

(** The binary search of [binarysort] for the place of [pivot] among the
    items [a[l:r]]: [p = l + ((r - l) >> 1)], then [r = p] if
    [pivot < a[p]] and [l = p + 1] otherwise, until [l = r].  An interval
    of [fuel] items is searched in at most [fuel] rounds. *)
Fixpoint bisect (fuel : nat) (pivot : A) (a : list A) (l r : nat) : nat :=
  match fuel with
  | O => l
  | S fuel =>
      if (l <? r)%nat then
        let p := (l + (r - l) / 2)%nat in
        match a !! p with
        | Some x =>
            if lt (key pivot) (key x) then bisect fuel pivot a l p
            else bisect fuel pivot a (S p) r
        | None => l
        end
      else l
  end.

(** One round of [binarysort]: [pivot] is put at the place found, the items
    from there on move up by one. *)
Definition binary_insert (a : list A) (pivot : A) : list A :=
  let l := bisect (length a) pivot a 0%nat (length a) in
  take l a ++ pivot :: drop l a.

Definition py_sorted (l : list A) : list A :=
  let '(run, rest) := count_run l in
  fold_left binary_insert rest run.

End KeyFunctions.

(** ** More strings *)

(** [c in s] for a one-character [c]. *)
Fixpoint contains_char (c : ascii) (s : string) : bool :=
  match s with
  | EmptyString => false
  | String a r => Ascii.eqb a c || contains_char c r
  end.

(** [s.rsplit(c, 1)]: at most one split, at the last [c]; the whole string
    when [c] does not occur. *)
Fixpoint rsplit1 (sep : ascii) (s : string) : list string :=
  match s with
  | EmptyString => [EmptyString]
  | String c r =>
      match rsplit1 sep r with
      | [before; after] => [String c before; after]
      | _ => if Ascii.eqb c sep then [EmptyString; r] else [String c r]
      end
  end.

(** ** More numbers *)

(** [a / b] on [int]s: the binary64 nearest to the quotient; [None] is
    [ZeroDivisionError].  (A quotient too large for a float raises
    [OverflowError]; the quotient of two list lengths is not.) *)
Definition int_truediv (a b : Z) : option float :=
  match a, b with
  | _, Z0 => None
  | Z0, _ => Some (S754_zero (b <? 0))
  | _, _ =>
      Some (fdiv (S754_finite (a <? 0) (Z.to_pos (Z.abs a)) 0)
                 (S754_finite (b <? 0) (Z.to_pos (Z.abs b)) 0))
  end.

(** [round(x, 1)] on a float, as [round2] with one fractional digit. *)
Definition round1 (x : float) : float :=
  match x with
  | S754_finite s m e =>
      match round_half_even_div (Zpos m * 10 * 2 ^ Z.max e 0) (2 ^ Z.max (- e) 0) with
      | Zpos n => fdiv (S754_finite s n 0) (S754_finite false 10 0)
      | _ => S754_zero s
      end
  | _ => x
  end.

End Py.

(* ===================================================================== *)
(** * Python dicts whose iteration order matters *)
(* ===================================================================== *)

Module PyDict.
Section Dict.
Context {K V : Type} `{EqDecision K}.

(** A dict is the list of its items in insertion order; a key occurs once. *)

Fixpoint get (k : K) (d : list (K * V)) : option V :=
  match d with
  | [] => None
  | (k', v) :: r => if decide (k = k') then Some v else get k r
  end.

(** [d[k] = v]: a present key keeps its place, a new key goes last. *)
Fixpoint set (k : K) (v : V) (d : list (K * V)) : list (K * V) :=
  match d with
  | [] => [(k, v)]
  | (k', v') :: r => if decide (k = k') then (k, v) :: r else (k', v') :: set k v r
  end.

Definition get_default (k : K) (default : V) (d : list (K * V)) : V :=
  match get k d with Some v => v | None => default end.

Definition keys (d : list (K * V)) : list K := map fst d.
Definition values (d : list (K * V)) : list V := map snd d.

End Dict.
End PyDict.

(* ===================================================================== *)
(** * The numpy operations of the bounding-box builder *)
(* ===================================================================== *)

Module Np.

(** A row of an [n x 3] array. *)
Definition vec3 := (float * float * float)%type.

(** [np.array(verts).reshape(-1, 3)]: [None] is the [ValueError] numpy raises
    when the length of the flat array is not a multiple of 3. *)
Fixpoint reshape3 (flat : list float) : option (list vec3) :=
  match flat with
  | [] => Some []
  | x :: y :: z :: rest =>
      match reshape3 rest with
      | Some rows => Some ((x, y, z) :: rows)
      | None => None
      end
  | _ => None
  end.

(** [a[:, [1, 2]] = a[:, [2, 1]]] on one row. *)
Definition swap12 (v : vec3) : vec3 := let '(x, y, z) := v in (x, z, y).

(** numpy's [minimum] and [maximum] on two floats, the first being the
    accumulator in a reduction: a NaN first operand is the result; else the
    first operand when it is strictly smaller (greater), and the second
    otherwise.  So a NaN on either side is the result, and of two operands
    that compare equal (0.0 and -0.0) the second is: a reduction returns the
    zero listed last. *)
Definition minimum (a b : float) : float :=
  if isnan a then a else if flt a b then a else b.
Definition maximum (a b : float) : float :=
  if isnan a then a else if fgt a b then a else b.

Definition vmap2 (f : float -> float -> float) (a b : vec3) : vec3 :=
  let '(a0, a1, a2) := a in
  let '(b0, b1, b2) := b in
  (f a0 b0, f a1 b1, f a2 b2).

Definition vmap (f : float -> float) (a : vec3) : vec3 :=
  let '(a0, a1, a2) := a in (f a0, f a1, f a2).

(** [a.min(axis=0)] and [a.max(axis=0)]: a reduction over the rows; numpy
    raises [ValueError] on zero rows ([None]). *)
Definition min_axis0 (rows : list vec3) : option vec3 :=
  match rows with
  | [] => None
  | r :: rs => Some (fold_left (vmap2 minimum) rs r)
  end.

Definition max_axis0 (rows : list vec3) : option vec3 :=
  match rows with
  | [] => None
  | r :: rs => Some (fold_left (vmap2 maximum) rs r)
  end.

End Np.

(* ===================================================================== *)
(** * The IFC model as ifcopenshell presents it *)
(* ===================================================================== *)

(** What the backend reads of an opened file.  Calls into ifcopenshell are
    recorded by their outcome: a value, [None], or an exception. *)
Module Ifc.

(** [entity.ObjectPlacement] followed by
    [placement_util.get_local_placement(placement)]. *)
Inductive PlacementOutcome :=
  | PlacementAbsent               (* no ObjectPlacement *)
  | PlacementRaises               (* the attribute or the call raises *)
  | PlacementNoMatrix             (* get_local_placement returns None *)
  | PlacementMatrix (z : float).  (* matrix[2][3] *)

(** [element_util.get_container(element)]. *)
Inductive ContainerOutcome :=
  | ContainerRaises
  | ContainerNone
  | Container (is_storey : bool) (container_id : Z).

(** A property value of a property set. *)
Inductive PropValue :=
  | PInt (z : Z)
  | PFloat (f : float)
  | PBool (b : bool)
  | POther.                       (* str, None, ...: not an int or a float *)

(** [element_util.get_psets(element)]: property sets in iteration order,
    each with its properties in iteration order. *)
Inductive PsetsOutcome :=
  | PsetsRaise
  | Psets (psets : list (string * list (string * PropValue))).

(** [ifcopenshell.geom.create_shape(settings, product)]. *)
Inductive ShapeOutcome :=
  | ShapeRaises
  | ShapeEmpty                    (* no shape, or no geometry *)
  | Shape (verts : list float).   (* shape.geometry.verts *)

(** An [IfcProduct] (a building storey is one). *)
Record Product := {
  id : Z;
  GlobalId : string;
  Name : option string;
  is_a : string;
  Representation : bool;          (* present and truthy *)
  ObjectPlacement : PlacementOutcome;
  get_container : ContainerOutcome;
  get_psets : PsetsOutcome;
  create_shape : ShapeOutcome
}.

Record Project := {
  project_Name : option string;
  project_Description : option string
}.

(** [by_type] of the three entity types the backend asks for. *)
Record File := {
  IfcBuildingStorey : list Product;
  IfcProduct : list Product;
  IfcProject : list Project;
  schema : string
}.

End Ifc.

(* ===================================================================== *)
(** * geometry_extractor.py: bounding boxes and the geometry payload *)
(* ===================================================================== *)

Module GeometryExtractor.
Import Np.

(** The dict with keys ['min'], ['max'], ['center'], ['size'].  The [int]
    literals [0], [2] and [10] of the source stand among floats and are the
    floats [zero], [two] and [ten] here. *)
Record BoundingBox := {
  bmin : vec3;
  bmax : vec3;
  center : vec3;
  size : vec3
}.

Definition MIN_SIZE_THRESHOLD : float := Eval vm_compute in lit 0.001.

Definition _default_bbox : BoundingBox :=
  let default_size := fmul MIN_SIZE_THRESHOLD ten in
  {| bmin := (zero, zero, zero);
     bmax := (default_size, default_size, default_size);
     center := (fdiv default_size two, fdiv default_size two, fdiv default_size two);
     size := (default_size, default_size, default_size) |}.

(** [shape.geometry.verts] is the flat tuple of coordinates.  Every exception
    of the [try] block ends in [_default_bbox]. *)
Definition _calculate_bounding_box (verts_flat : list float) : BoundingBox :=
  match reshape3 verts_flat with
  | None => _default_bbox
  | Some verts =>
      if (length verts =? 0)%nat then _default_bbox
      else
        let transformed_verts := map swap12 verts in
        match min_axis0 transformed_verts, max_axis0 transformed_verts with
        | Some min_coords, Some max_coords =>
            let size :=
              vmap (fun d => maximum d MIN_SIZE_THRESHOLD)
                   (vmap2 fsub max_coords min_coords) in
            let center :=
              vmap (fun s => fdiv s two) (vmap2 fadd min_coords max_coords) in
            {| bmin := min_coords; bmax := max_coords;
               center := center; size := size |}
        | _, _ => _default_bbox
        end
  end.

Definition vec_to_list (v : vec3) : list float := let '(a, b, c) := v in [a; b; c].

(** [all(s >= self.MIN_SIZE_THRESHOLD for s in size)]. *)
Definition _is_valid_geometry (bbox : BoundingBox) : bool :=
  forallb (fun s => fge s MIN_SIZE_THRESHOLD) (vec_to_list (size bbox)).

(** A value of a geometry record. *)
Inductive pyval :=
  | VNone
  | VStr (s : string)
  | VInt (z : Z)
  | VBBox (b : BoundingBox).

(** [element_data]: a dict with string keys. *)
Definition element_data (product : Ifc.Product) (bbox : BoundingBox)
  : gmap string pyval :=
  let is_a := Ifc.is_a product in
  <["type" := VStr (Py.replace "ifc" "" (Py.lower is_a))]>
  (<["id" := VStr (Ifc.GlobalId product)]>
  (<["name" := VStr (Py.str_or (Ifc.Name product)
                       (is_a +:+ "_" +:+ Py.str_of_Z (Ifc.id product)))]>
  (<["boundingBox" := VBBox bbox]>
  (<["ifcType" := VStr is_a]> ∅)))).

Record Metadata := {
  totalInFile : Z;
  withGeometry : Z;
  processed : Z;
  elementTypes : list (string * Z);
  projectName : string
}.

(** The payload: ['type'], ['elements'], ['totalElements'], ['metadata']. *)
Record GeometryData := {
  gd_type : string;
  elements : list (gmap string pyval);
  totalElements : Z;
  metadata : Metadata
}.

Definition _get_project_name (ifc_file : Ifc.File) : string :=
  match Ifc.IfcProject ifc_file with
  | p :: _ => Py.str_or (Ifc.project_Name p) "IFC Project"
  | [] => "IFC Project"
  end.

(** The loop state: [elements], [total_processed], [element_type_counts]. *)
Definition LoopState := (list (gmap string pyval) * Z * list (string * Z))%type.

(** One round of the loop over [products_with_geometry]; the three
    [continue]s leave the state as it is. *)
Definition extract_product (st : LoopState) (product : Ifc.Product) : LoopState :=
  let '(elements, total_processed, element_type_counts) := st in
  match Ifc.create_shape product with
  | Ifc.ShapeRaises => st
  | Ifc.ShapeEmpty => st
  | Ifc.Shape verts =>
      let bbox := _calculate_bounding_box verts in
      if negb (_is_valid_geometry bbox) then st
      else
        let ifc_type := Ifc.is_a product in
        (elements ++ [element_data product bbox],
         (total_processed + 1)%Z,
         PyDict.set ifc_type
           (PyDict.get_default ifc_type 0%Z element_type_counts + 1)%Z
           element_type_counts)
  end.

Definition extract_simple_geometry (ifc_file : Ifc.File) : GeometryData :=
  let all_products := Ifc.IfcProduct ifc_file in
  let products_with_geometry := filter (fun p => Ifc.Representation p = true) all_products in
  let '(elements, total_processed, element_type_counts) :=
    fold_left extract_product products_with_geometry ([], 0%Z, []) in
  {| gd_type := "SimpleIFCModel";
     elements := elements;
     totalElements := Z.of_nat (length elements);
     metadata :=
       {| totalInFile := Z.of_nat (length all_products);
          withGeometry := Z.of_nat (length products_with_geometry);
          processed := total_processed;
          elementTypes := element_type_counts;
          projectName := _get_project_name ifc_file |} |}.

Definition MATERIAL_COLORS : list (string * string) :=
  [("IfcWall", "#cccccc"); ("IfcSlab", "#e0e0e0"); ("IfcColumn", "#888888");
   ("IfcBeam", "#996633"); ("IfcDoor", "#8B4513"); ("IfcWindow", "#87CEEB");
   ("IfcStair", "#696969"); ("IfcStairFlight", "#556B2F"); ("IfcRailing", "#CD853F");
   ("IfcRamp", "#808080"); ("IfcRoof", "#654321"); ("IfcCurtainWall", "#B0C4DE");
   ("IfcMember", "#778899"); ("IfcPlate", "#A0A0A0"); ("IfcCovering", "#F5F5DC");
   ("IfcFlowTerminal", "#FF6347"); ("IfcBuildingElementProxy", "#DDA0DD");
   ("IfcFurnishingElement", "#F0E68C"); ("IfcSpace", "#E6E6FA")].

(** [self.MATERIAL_COLORS.get(ifc_type, '#999999')]. *)
Definition get_material_color (ifc_type : string) : string :=
  PyDict.get_default ifc_type "#999999" MATERIAL_COLORS.

(** The dict [extract_geometry_statistics] returns when nothing raises. *)
Record GeometryStatistics := {
  total_elements : Z;
  elements_with_geometry : Z;
  geometry_percentage : Py.pynum;
  element_types : list (string * Z);
  schema_version : string;
  project_name : string
}.

(** [type_counts[ptype] = type_counts.get(ptype, 0) + 1]. *)
Definition count_type (type_counts : list (string * Z)) (product : Ifc.Product)
  : list (string * Z) :=
  let ptype := Ifc.is_a product in
  PyDict.set ptype (PyDict.get_default ptype 0%Z type_counts + 1)%Z type_counts.

Definition hundred : float := Eval vm_compute in lit 100.

(** [None] is the [{'error': ...}] of the [except] branch.  The percentage
    is the [int] 0 on a file without products, else
    [round(len(with_geometry) / len(all) * 100, 1)]. *)
Definition extract_geometry_statistics (ifc_file : Ifc.File)
  : option GeometryStatistics :=
  let all_products := Ifc.IfcProduct ifc_file in
  let products_with_geometry := filter (fun p => Ifc.Representation p = true) all_products in
  let type_counts := fold_left count_type products_with_geometry [] in
  geometry_percentage ←
    match all_products with
    | [] => Some (Py.NInt 0)
    | _ =>
        q ← Py.int_truediv (Z.of_nat (length products_with_geometry))
                           (Z.of_nat (length all_products));
        Some (Py.NFloat (Py.round1 (fmul q hundred)))
    end;
  Some {| total_elements := Z.of_nat (length all_products);
          elements_with_geometry := Z.of_nat (length products_with_geometry);
          geometry_percentage := geometry_percentage;
          element_types := type_counts;
          schema_version := Ifc.schema ifc_file;
          project_name := _get_project_name ifc_file |}.

End GeometryExtractor.

(* ===================================================================== *)
(** * ifc_processor.py: levels, element keys and the quantity table *)
(* ===================================================================== *)

Module IFCProcessor.
Import Py.

Definition RELEVANT_ELEMENT_TYPES : list string :=
  ["IfcWall"; "IfcSlab"; "IfcColumn"; "IfcBeam"; "IfcDoor"; "IfcWindow";
   "IfcStair"; "IfcStairFlight"; "IfcRailing"; "IfcRamp"; "IfcRoof";
   "IfcCurtainWall"; "IfcMember"; "IfcPlate"; "IfcCovering";
   "IfcFlowTerminal"; "IfcBuildingElementProxy"; "IfcFurnishingElement"; "IfcSpace"].

Definition UNIT_MAPPINGS : list (string * string) :=
  [("IfcWall", "m²"); ("IfcSlab", "m²"); ("IfcColumn", "units"); ("IfcBeam", "m");
   ("IfcDoor", "units"); ("IfcWindow", "units"); ("IfcStair", "units");
   ("IfcStairFlight", "units"); ("IfcRailing", "m"); ("IfcRamp", "m²");
   ("IfcRoof", "m²"); ("IfcCurtainWall", "m²"); ("IfcMember", "m");
   ("IfcPlate", "m²"); ("IfcCovering", "m²"); ("IfcFlowTerminal", "units");
   ("IfcBuildingElementProxy", "units"); ("IfcFurnishingElement", "units");
   ("IfcSpace", "m³")].

(** [level_data]: ['id'], ['name'], ['elevation'], ['global_id']. *)
Record Level := {
  lv_id : Z;
  lv_name : string;
  elevation : float;
  lv_global_id : string
}.

(** [element_info]. *)
Record Element := {
  el_id : Z;
  global_id : string;
  el_type : string;
  el_name : string;
  level_id : option Z;
  dimensions : gmap string pynum;
  quantities : list (string * float);
  element_key : string
}.

(** The processor's two mutable attributes. *)
Record State := {
  levels_data : list (Z * Level);
  quantity_table : list (string * list (string * Z))
}.

(** [__init__]. *)
Definition init : State := {| levels_data := []; quantity_table := [] |}.

(** [matrix[2][3]] when the placement resolves, else [0.0]. *)
Definition _get_level_elevation (storey : Ifc.Product) : float :=
  match Ifc.ObjectPlacement storey with
  | Ifc.PlacementMatrix z => z
  | Ifc.PlacementAbsent | Ifc.PlacementRaises | Ifc.PlacementNoMatrix => zero
  end.

Definition level_of_storey (storey : Ifc.Product) : Level :=
  {| lv_id := Ifc.id storey;
     lv_name := str_or (Ifc.Name storey) ("Level " +:+ str_of_Z (Ifc.id storey));
     elevation := _get_level_elevation storey;
     lv_global_id := Ifc.GlobalId storey |}.

(** [{level['id']: level for level in levels}]. *)
Definition cache_levels (levels : list Level) : list (Z * Level) :=
  fold_left (fun d level => PyDict.set (lv_id level) level d) levels [].

(** Returns the sorted list and caches it in [levels_data]. *)
Definition get_building_levels (ifc_file : Ifc.File) (st : State)
  : list Level * State :=
  let levels := map level_of_storey (Ifc.IfcBuildingStorey ifc_file) in
  let levels := py_sorted flt elevation levels in
  (levels, {| levels_data := cache_levels levels;
              quantity_table := quantity_table st |}).

(** [None] when the cache is empty, else the id of [min(..., key=...)]. *)
Definition _find_closest_level (st : State) (z_coordinate : float) : option Z :=
  match levels_data st with
  | [] => None
  | _ =>
      option_map lv_id
        (py_min flt (fun level => fabs (fsub z_coordinate (elevation level)))
                (PyDict.values (levels_data st)))
  end.

(** First the container, if it is a storey; else the nearest level to the
    Z of the placement; every exception is swallowed. *)
Definition _get_element_level (st : State) (element : Ifc.Product) : option Z :=
  match Ifc.get_container element with
  | Ifc.Container true container_id => Some container_id
  | _ =>
      match Ifc.ObjectPlacement element with
      | Ifc.PlacementMatrix z_coordinate => _find_closest_level st z_coordinate
      | _ => None
      end
  end.

Definition dimension_props : list string :=
  ["Length"; "Width"; "Height"; "Thickness"; "Area"; "Volume"; "Depth"].

(** [isinstance(v, (int, float)) and v > 0], then [round(v, 2)]: rounding
    an [int] (a [bool] is one) to two places gives that [int]. *)
Definition rounded_dimension (prop_value : Ifc.PropValue) : option pynum :=
  match prop_value with
  | Ifc.PInt z => if (0 <? z)%Z then Some (NInt z) else None
  | Ifc.PBool b => if b then Some (NInt 1) else None
  | Ifc.PFloat f => if fgt f zero then Some (NFloat (round2 f)) else None
  | Ifc.POther => None
  end.

Definition add_dimension (dimensions : gmap string pynum)
  (prop : string * Ifc.PropValue) : gmap string pynum :=
  let '(prop_name, prop_value) := prop in
  if bool_decide (prop_name ∈ dimension_props) then
    match rounded_dimension prop_value with
    | Some v => <[prop_name := v]> dimensions
    | None => dimensions
    end
  else dimensions.

(** The recognised properties of all property sets, later sets overwriting
    earlier ones; an empty dict when [get_psets] raises. *)
Definition _get_element_dimensions (element : Ifc.Product) : gmap string pynum :=
  match Ifc.get_psets element with
  | Ifc.PsetsRaise => ∅
  | Ifc.Psets psets =>
      fold_left (fun dimensions pset => fold_left add_dimension (snd pset) dimensions)
                psets ∅
  end.

(** [sorted(dimensions.items())]: the keys of a dict differ, so the tuples
    are ordered by their names. *)
Definition sorted_items (dimensions : gmap string pynum) : list (string * pynum) :=
  py_sorted String.ltb fst (map_to_list dimensions).

(** The comprehension keeps the entries with [value > 0]; without any, the
    key is the default one. *)
Definition _create_element_key (element_type : string)
  (dimensions : gmap string pynum) : string :=
  if bool_decide (dimensions = ∅) then element_type +:+ "_default"
  else
    let dim_parts :=
      map (fun kv => fst kv +:+ ":" +:+ num_str (snd kv))
          (List.filter (fun kv => num_gt0 (snd kv)) (sorted_items dimensions)) in
    match dim_parts with
    | [] => element_type +:+ "_default"
    | _ => element_type +:+ "_" +:+ join "-" dim_parts
    end.

(** [table[k][f] += 1] on a [defaultdict(lambda: defaultdict(int))]. *)
Definition increment (element_key field : string)
  (table : list (string * list (string * Z))) : list (string * list (string * Z)) :=
  let inner := PyDict.get_default element_key [] table in
  PyDict.set element_key
    (PyDict.set field (PyDict.get_default field 0 inner + 1)%Z inner) table.

(** [if level_id:] is false for [None] and for [0]. *)
Definition level_truthy (level_id : option Z) : bool :=
  match level_id with
  | Some i => negb (i =? 0)%Z
  | None => false
  end.

Definition level_key (level_id : Z) : string :=
  "level_" +:+ str_of_Z level_id +:+ "_count".

Definition _update_quantity_table (element_key : string) (level_id : option Z)
  (table : list (string * list (string * Z))) : list (string * list (string * Z)) :=
  let table := increment element_key "total_count" table in
  match level_id with
  | Some i => if level_truthy level_id then increment element_key (level_key i) table
              else table
  | None => table
  end.

(** Returns [element_info] and updates the quantity table.  With the
    outcomes of the ifcopenshell calls recorded in the product, nothing in
    the body raises. *)
Definition _process_single_element (st : State) (element : Ifc.Product)
  : Element * State :=
  let level := _get_element_level st element in
  let dims := _get_element_dimensions element in
  let key := _create_element_key (Ifc.is_a element) dims in
  ({| el_id := Ifc.id element;
      global_id := Ifc.GlobalId element;
      el_type := Ifc.is_a element;
      el_name := str_or (Ifc.Name element)
                   (Ifc.is_a element +:+ "_" +:+ str_of_Z (Ifc.id element));
      level_id := level;
      dimensions := dims;
      quantities := [("Count", one)];
      element_key := key |},
   {| levels_data := levels_data st;
      quantity_table := _update_quantity_table key level (quantity_table st) |}).

Definition is_relevant (product : Ifc.Product) : bool :=
  Ifc.Representation product
  && bool_decide (Ifc.is_a product ∈ RELEVANT_ELEMENT_TYPES).

(** The loop over [relevant_elements]: [element_data] is a non-empty dict,
    so every element is appended; the [except] branch has nothing to catch
    (see [_process_single_element]). *)
Definition process_elements (ifc_file : Ifc.File) (st : State)
  : list Element * State :=
  let relevant_elements := List.filter is_relevant (Ifc.IfcProduct ifc_file) in
  fold_left
    (fun acc element =>
       let '(processed_elements, st) := acc in
       let '(element_data, st') := _process_single_element st element in
       (processed_elements ++ [element_data], st'))
    relevant_elements ([], st).

(** A row of ['table_data']. *)
Record Row := {
  row_element_key : string;
  element_type : string;
  unit_of_measure : string;
  total_quantity : Z;
  level_quantities : list (Z * Z)
}.

(** The loop over [quantities.items()]; [None] is the exception [int] or the
    index [1] raises on a name that is not [level_<int>_count]. *)
Definition add_level_quantity (acc : option (list (Z * Z))) (item : string * Z)
  : option (list (Z * Z)) :=
  let '(qty_name, qty_value) := item in
  level_quantities ← acc;
  if startswith qty_name "level_" && endswith qty_name "_count" then
    part ← split "_" qty_name !! 1%nat;
    level_id ← py_int part;
    Some (PyDict.set level_id qty_value level_quantities)
  else Some level_quantities.

Definition row_of (item : string * list (string * Z)) : option Row :=
  let '(element_key, quantities) := item in
  let element_type := List.hd EmptyString (split "_" element_key) in
  level_quantities ← fold_left add_level_quantity quantities (Some []);
  Some {| row_element_key := element_key;
          element_type := element_type;
          unit_of_measure := PyDict.get_default element_type "units" UNIT_MAPPINGS;
          total_quantity := PyDict.get_default "total_count" 0%Z quantities;
          level_quantities := level_quantities |}.

Record QuantityData := {
  table_data : list Row;
  levels : list Level
}.

(** [None] when the function raises. *)
Definition generate_quantity_table_data (st : State) : option QuantityData :=
  match quantity_table st with
  | [] => Some {| table_data := []; levels := PyDict.values (levels_data st) |}
  | _ =>
      table_data ← mapM row_of (quantity_table st);
      Some {| table_data := py_sorted String.ltb element_type table_data;
              levels := py_sorted flt elevation (PyDict.values (levels_data st)) |}
  end.

Record ProjectInfo := {
  pi_name : string;
  pi_description : option string;
  pi_schema : string
}.

Definition get_project_info (ifc_file : Ifc.File) : ProjectInfo :=
  match Ifc.IfcProject ifc_file with
  | project :: _ =>
      {| pi_name := str_or (Ifc.project_Name project) "Unnamed Project";
         pi_description := Ifc.project_Description project;
         pi_schema := Ifc.schema ifc_file |}
  | [] =>
      {| pi_name := "IFC Project"; pi_description := None;
         pi_schema := Ifc.schema ifc_file |}
  end.

(** The successful result of [process_ifc_file]. *)
Record Result := {
  res_levels : list Level;
  res_elements : list Element;
  res_quantity_table : QuantityData;
  res_project_info : ProjectInfo
}.

(** A fresh processor per call; [None] is [{'success': False, ...}]. *)
Definition process_ifc_file (ifc_file : Ifc.File) : option Result :=
  let processor := init in
  let '(levels, processor) := get_building_levels ifc_file processor in
  let '(elements, processor) := process_elements ifc_file processor in
  quantity_data ← generate_quantity_table_data processor;
  Some {| res_levels := levels;
          res_elements := elements;
          res_quantity_table := quantity_data;
          res_project_info := get_project_info ifc_file |}.

End IFCProcessor.

(* ===================================================================== *)
(** * main.py: the merge of geometry records with element data *)
(* ===================================================================== *)

Module Main.
Import GeometryExtractor IFCProcessor.

(** [{e['global_id']: {...} for e in elements if e['global_id']}]: of two
    elements with one id the later stays. *)
Definition element_mapping (elements : list Element)
  : gmap string (string * option Z) :=
  fold_left
    (fun m element =>
       if Py.str_truthy (global_id element)
       then <[global_id element := (element_key element, level_id element)]> m
       else m)
    elements ∅.

(** [geom_id in element_mapping], with the entry found: the keys of the
    lookup are strings, so [None], an [int] or a missing id is not among
    them.  (An id that is a dict is not hashable and would make the test
    raise; the records built by [element_data] have a string id.) *)
Definition mapping_lookup (m : gmap string (string * option Z))
  (geom_id : option pyval) : option (string * option Z) :=
  match geom_id with
  | Some (VStr s) => m !! s
  | _ => None
  end.

Definition vec_repr (v : Np.vec3) : string :=
  let '(a, b, c) := v in
  "[" +:+ Py.float_repr a +:+ ", " +:+ Py.float_repr b +:+ ", "
      +:+ Py.float_repr c +:+ "]".

(** What an f-string prints for a value of a record.  (For a bounding box
    it is the [repr] of the dict; the [int] zeros of the default box print
    as floats here.) *)
Definition val_str (v : pyval) : string :=
  match v with
  | VNone => "None"
  | VStr s => s
  | VInt z => Py.str_of_Z z
  | VBBox b =>
      "{'min': " +:+ vec_repr (bmin b) +:+ ", 'max': " +:+ vec_repr (bmax b)
      +:+ ", 'center': " +:+ vec_repr (center b)
      +:+ ", 'size': " +:+ vec_repr (size b) +:+ "}"
  end.

Definition level_val (level_id : option Z) : pyval :=
  match level_id with
  | Some i => VInt i
  | None => VNone
  end.

(** The body of the loop over the geometry elements. *)
Definition enhance_element (m : gmap string (string * option Z))
  (geom_element : gmap string pyval) : gmap string pyval :=
  let geom_id := geom_element !! "id" in
  match mapping_lookup m geom_id with
  | Some mapping =>
      <["level_id" := level_val (snd mapping)]>
        (<["element_key" := VStr (fst mapping)]> geom_element)
  | None =>
      let ifc_type :=
        match geom_element !! "ifcType" with
        | Some v => val_str v
        | None => "Unknown"
        end in
      <["level_id" := VNone]>
        (<["element_key" := VStr (ifc_type +:+ "_default")]> geom_element)
  end.

Definition _enhance_geometry_with_element_data (geometry_data : GeometryData)
  (elements : list Element) : GeometryData :=
  let m := element_mapping elements in
  {| gd_type := gd_type geometry_data;
     GeometryExtractor.elements :=
       map (enhance_element m) (GeometryExtractor.elements geometry_data);
     totalElements := totalElements geometry_data;
     metadata := metadata geometry_data |}.

Definition ALLOWED_EXTENSIONS : list string := ["ifc"].

(** ['.' in filename and filename.rsplit('.', 1)[1].lower() in
    ALLOWED_EXTENSIONS]; [None] is the [IndexError] of the index [1].  (No
    character outside ASCII has ['i'], ['f'] or ['c'] as its lower case, so
    the verdict is that of [str.lower].) *)
Definition is_allowed_file (filename : string) : option bool :=
  if Py.contains_char "." filename then
    extension ← Py.rsplit1 "." filename !! 1%nat;
    Some (bool_decide (Py.lower extension ∈ ALLOWED_EXTENSIONS))
  else Some false.

End Main.

(* ===================================================================== *)
(** * Reference definitions, after the specification's wording *)
(* ===================================================================== *)

Module Reference.
Import Np GeometryExtractor.

(** ** Orders *)

(** In ascending order of the keys, by the order [le]. *)
Definition ascending {A K : Type} (le : K -> K -> bool) (key : A -> K)
  : list A -> Prop :=
  StronglySorted (fun a b => le (key a) (key b) = true).

(** ** Strings *)

(** [c] does not occur in [s]. *)
Fixpoint no_char (c : ascii) (s : string) : Prop :=
  match s with
  | EmptyString => True
  | String a r => a <> c /\ no_char c r
  end.

(** [c] is neither a digit nor the minus sign. *)
Definition not_int_char (c : ascii) : Prop :=
  Forall (fun d => d <> c)
    ["-"; "0"; "1"; "2"; "3"; "4"; "5"; "6"; "7"; "8"; "9"]%char.

(** ** Bounding boxes *)

(** The coordinates of a vertex sequence as [shape.geometry.verts] lists them. *)
Definition flatten (V : list vec3) : list float := concat (map vec_to_list V).

Definition axis0 (v : vec3) : float := fst (fst v).
Definition axis1 (v : vec3) : float := snd (fst v).
Definition axis2 (v : vec3) : float := snd v.

(** A vertex of finite coordinates. *)
Definition vfinite (v : vec3) : Prop :=
  isfinite (axis0 v) = true /\ isfinite (axis1 v) = true /\ isfinite (axis2 v) = true.

(** A vertex none of whose coordinates is a NaN. *)
Definition vnumber (v : vec3) : Prop :=
  isnan (axis0 v) = false /\ isnan (axis1 v) = false /\ isnan (axis2 v) = false.

(** "Per-axis min and max over all transformed vertices": [m] is one of the
    coordinates [xs], and none of them is below (above) it. *)
Definition least (m : float) (xs : list float) : Prop :=
  In m xs /\ Forall (fun x => fle m x = true) xs.
Definition greatest (m : float) (xs : list float) : Prop :=
  In m xs /\ Forall (fun x => fle x m = true) xs.

(** "Elementwise max with the scalar threshold - this means a degenerate
    axis is widened to exactly the threshold, non-degenerate axes are
    unaffected". *)
Definition widened (extent : float) : float :=
  if flt extent MIN_SIZE_THRESHOLD then MIN_SIZE_THRESHOLD else extent.

(** "A cube of side 10 times the minimum-size threshold, positioned with one
    corner at the origin". *)
Definition default_box : BoundingBox :=
  let side := fmul ten MIN_SIZE_THRESHOLD in
  let half := fdiv (fadd zero side) two in
  {| bmin := (zero, zero, zero);
     bmax := (side, side, side);
     center := (half, half, half);
     size := (side, side, side) |}.

(** Steps 1 to 5 of the bounding-box builder, as what they require of the
    box built for the vertices [V]: the default box when there is no vertex;
    otherwise, on each axis, 'min' and 'max' are the least and the greatest
    coordinate of the vertices with components 1 and 2 swapped, 'size' is
    their difference widened to the threshold, and 'center' is half their
    sum. *)
Definition builds (V : list vec3) (box : BoundingBox) : Prop :=
  match V with
  | [] => box = default_box
  | _ :: _ =>
      Forall (fun axis : vec3 -> float =>
                least (axis (bmin box)) (map (fun v => axis (swap12 v)) V)
                /\ greatest (axis (bmax box)) (map (fun v => axis (swap12 v)) V)
                /\ axis (size box)
                   = widened (fsub (axis (bmax box)) (axis (bmin box)))
                /\ axis (center box)
                   = fdiv (fadd (axis (bmin box)) (axis (bmax box))) two)
             [axis0; axis1; axis2]
  end.

(** The eight corners of the box (0,0,0)-(1,2,3). *)
Definition cube_0_123 : list vec3 :=
  let o := zero in
  let a := one in
  let b := two in
  let c := three in
  [(o, o, o); (a, o, o); (o, b, o); (o, o, c);
   (a, b, o); (a, o, c); (o, b, c); (a, b, c)].

(** A vertex with a NaN coordinate, and the vertex (1, 0, 0). *)
Definition nan_and_unit_vertex : list vec3 :=
  [(nan, zero, zero); (one, zero, zero)].

(** A product whose shape is the single vertex (NaN, 0, 0). *)
Definition nan_product : Ifc.Product :=
  {| Ifc.id := 1;
     Ifc.GlobalId := "2O2Fr$t4X7Zf8NOew3FLOH";
     Ifc.Name := Some "Wall";
     Ifc.is_a := "IfcWall";
     Ifc.Representation := true;
     Ifc.ObjectPlacement := Ifc.PlacementAbsent;
     Ifc.get_container := Ifc.ContainerNone;
     Ifc.get_psets := Ifc.PsetsRaise;
     Ifc.create_shape := Ifc.Shape [nan; zero; zero] |}.

(** ** Levels *)
Import IFCProcessor.

(** The key of the nearest-level search: [abs(z - level['elevation'])]. *)
Definition distance (z : float) (level : Level) : float :=
  fabs (fsub z (elevation level)).

(** No placement, or a placement whose transform does not resolve. *)
Definition unresolved (storey : Ifc.Product) : bool :=
  match Ifc.ObjectPlacement storey with
  | Ifc.PlacementMatrix _ => false
  | Ifc.PlacementAbsent | Ifc.PlacementRaises | Ifc.PlacementNoMatrix => true
  end.

Definition with_placement (p : Ifc.PlacementOutcome) (storey : Ifc.Product)
  : Ifc.Product :=
  {| Ifc.id := Ifc.id storey;
     Ifc.GlobalId := Ifc.GlobalId storey;
     Ifc.Name := Ifc.Name storey;
     Ifc.is_a := Ifc.is_a storey;
     Ifc.Representation := Ifc.Representation storey;
     Ifc.ObjectPlacement := p;
     Ifc.get_container := Ifc.get_container storey;
     Ifc.get_psets := Ifc.get_psets storey;
     Ifc.create_shape := Ifc.create_shape storey |}.

(** The same storey, placed at height zero when its placement is unresolved. *)
Definition at_height_zero (storey : Ifc.Product) : Ifc.Product :=
  if unresolved storey then with_placement (Ifc.PlacementMatrix zero) storey
  else storey.

Definition with_storeys (storeys : list Ifc.Product) (f : Ifc.File) : Ifc.File :=
  {| Ifc.IfcBuildingStorey := storeys;
     Ifc.IfcProduct := Ifc.IfcProduct f;
     Ifc.IfcProject := Ifc.IfcProject f;
     Ifc.schema := Ifc.schema f |}.

(** "Sorted by elevation ascending". *)
Definition sorted_by_elevation : list Level -> Prop := ascending fle elevation.

(** The states a processor goes through on a file: [__init__], then
    [get_building_levels] and [process_elements] in any order and number. *)
Inductive reachable (f : Ifc.File) : State -> Prop :=
  | reach_init : reachable f init
  | reach_levels (st : State) :
      reachable f st -> reachable f (snd (get_building_levels f st))
  | reach_elements (st : State) :
      reachable f st -> reachable f (snd (process_elements f st)).

(** ** Element keys *)

Definition dimension_part (kv : string * Py.pynum) : string :=
  fst kv +:+ ":" +:+ Py.num_str (snd kv).

(** The key deriver of the specification: ["{type}_default"] on the empty
    mapping, else the type, ["_"], and the ["name:value"] pairs in ascending
    order of their names, joined by ["-"]. *)
Definition derive (type : string) (dimensions : gmap string Py.pynum) : string :=
  if bool_decide (dimensions = ∅) then type +:+ "_default"
  else type +:+ "_" +:+ Py.join "-" (map dimension_part (sorted_items dimensions)).

(** The entries of a mapping whose value is strictly positive. *)
Definition positive_part (dimensions : gmap string Py.pynum) : gmap string Py.pynum :=
  filter (fun kv => Py.num_gt0 (snd kv) = true) dimensions.

(** Ascending by name, no name twice. *)
Definition sorted_by_name : list (string * Py.pynum) -> Prop :=
  StronglySorted (fun a b => String.ltb (fst a) (fst b) = true).

(** ** The quantity table *)

(** The count stored under [field] of [element_key]; a missing entry counts
    as zero, as the [defaultdict] reads it. *)
Definition count_in (table : list (string * list (string * Z)))
  (element_key field : string) : Z :=
  match PyDict.get element_key table with
  | Some inner => PyDict.get_default field 0%Z inner
  | None => 0%Z
  end.

(** What one processed element, given by its key and level, adds to [field]
    of [element_key]. *)
Definition contribution (element_key field : string) (e : string * option Z) : Z :=
  if decide (fst e = element_key) then
    ((if decide (field = "total_count") then 1 else 0)
     + match snd e with
       | Some i => if decide (i <> 0%Z /\ field = level_key i) then 1 else 0
       | None => 0
       end)%Z
  else 0%Z.

Definition tally (element_key field : string) (es : list (string * option Z)) : Z :=
  foldr (fun e n => (contribution element_key field e + n)%Z) 0%Z es.

(** The accumulation steps of a run, in order. *)
Definition accumulate (es : list (string * option Z))
  (table : list (string * list (string * Z))) : list (string * list (string * Z)) :=
  fold_left (fun t e => _update_quantity_table (fst e) (snd e) t) es table.

(** The fields the accumulator writes. *)
Definition field_ok (field : string) : Prop :=
  field = "total_count" \/ exists i : Z, field = level_key i.

Definition wf_inner (inner : list (string * Z)) : Prop :=
  NoDup (PyDict.keys inner)
  /\ Forall (fun kv => field_ok (fst kv) /\ (1 <= snd kv)%Z) inner.

(** The shape of every table the accumulator builds. *)
Definition wf_table (table : list (string * list (string * Z))) : Prop :=
  NoDup (PyDict.keys table) /\ Forall (fun kv => wf_inner (snd kv)) table.

(** Rows with the same content: the level quantities are compared as
    mappings, not by the order of their entries. *)
Definition same_row (r1 r2 : Row) : Prop :=
  row_element_key r1 = row_element_key r2
  /\ element_type r1 = element_type r2
  /\ unit_of_measure r1 = unit_of_measure r2
  /\ total_quantity r1 = total_quantity r2
  /\ forall i : Z, PyDict.get i (level_quantities r1) = PyDict.get i (level_quantities r2).

(** Tables with the same rows, whatever their order: every row of one has
    its like in the other, and no key has two rows. *)
Definition same_rows (rows1 rows2 : list Row) : Prop :=
  NoDup (map row_element_key rows1)
  /\ NoDup (map row_element_key rows2)
  /\ length rows1 = length rows2
  /\ Forall (fun r1 => Exists (same_row r1) rows2) rows1
  /\ Forall (fun r2 => Exists (fun r1 => same_row r1 r2) rows1) rows2.

(** "Sorted by element_type". *)
Definition sorted_by_type : list Row -> Prop := ascending String.leb element_type.

(** The key and the level a run assigns to a product. *)
Definition key_and_level (st : State) (product : Ifc.Product) : string * option Z :=
  (_create_element_key (Ifc.is_a product) (_get_element_dimensions product),
   _get_element_level st product).

(** What a rendered row says, in counts of the table. *)
Definition row_matches (table : list (string * list (string * Z))) (row : Row)
  : Prop :=
  row_element_key row ∈ PyDict.keys table
  /\ element_type row = List.hd EmptyString (Py.split "_" (row_element_key row))
  /\ unit_of_measure row
     = PyDict.get_default (element_type row) "units" UNIT_MAPPINGS
  /\ total_quantity row = count_in table (row_element_key row) "total_count"
  /\ forall i,
       PyDict.get i (level_quantities row)
       = if (count_in table (row_element_key row) (level_key i) =? 0)%Z then None
         else Some (count_in table (row_element_key row) (level_key i)).

(** The quantity table a run of the pipeline builds and renders. *)
Definition run_table (f : Ifc.File) : option QuantityData :=
  generate_quantity_table_data
    (snd (process_elements f (snd (get_building_levels f init)))).

(** ** The merge *)

(** The element a lookup by global id finds: the last one with that id. *)
Fixpoint last_with_id (g : string) (es : list Element) : option Element :=
  match es with
  | [] => None
  | e :: rest =>
      match last_with_id g rest with
      | Some e' => Some e'
      | None => if decide (global_id e = g) then Some e else None
      end
  end.

(** ["{ifcType}"] of a geometry record. *)
Definition ifc_type_of (r : gmap string GeometryExtractor.pyval) : string :=
  match r !! "ifcType" with
  | Some v => Main.val_str v
  | None => "Unknown"
  end.

(** ** Example models *)

Definition example_product (id : Z) (type : string) (c : Ifc.ContainerOutcome)
  : Ifc.Product :=
  {| Ifc.id := id;
     Ifc.GlobalId := "product-" +:+ Py.str_of_Z id;
     Ifc.Name := None;
     Ifc.is_a := type;
     Ifc.Representation := true;
     Ifc.ObjectPlacement := Ifc.PlacementAbsent;
     Ifc.get_container := c;
     Ifc.get_psets := Ifc.Psets [];
     Ifc.create_shape := Ifc.ShapeEmpty |}.

(** A column in no storey, placed at Z = 3.4. *)
Definition floating_column : Ifc.Product :=
  with_placement (Ifc.PlacementMatrix (lit 3.4))
    (example_product 104 "IfcColumn" Ifc.ContainerNone).

Definition with_psets (psets : Ifc.PsetsOutcome) (product : Ifc.Product)
  : Ifc.Product :=
  {| Ifc.id := Ifc.id product;
     Ifc.GlobalId := Ifc.GlobalId product;
     Ifc.Name := Ifc.Name product;
     Ifc.is_a := Ifc.is_a product;
     Ifc.Representation := Ifc.Representation product;
     Ifc.ObjectPlacement := Ifc.ObjectPlacement product;
     Ifc.get_container := Ifc.get_container product;
     Ifc.get_psets := psets;
     Ifc.create_shape := Ifc.create_shape product |}.

(** A wall with a shape and two dimensions in the ground storey, an opening
    with a shape (a type the processing pipeline leaves out), and a door
    without shape in the first storey. *)
Definition wall_opening_door : list Ifc.Product :=
  [{| Ifc.id := 201;
      Ifc.GlobalId := "0wall";
      Ifc.Name := Some "Wall A";
      Ifc.is_a := "IfcWall";
      Ifc.Representation := true;
      Ifc.ObjectPlacement := Ifc.PlacementMatrix zero;
      Ifc.get_container := Ifc.Container true 11;
      Ifc.get_psets :=
        Ifc.Psets [("Pset_WallCommon",
                    [("Width", Ifc.PFloat (lit 0.2)); ("Height", Ifc.PInt 3);
                     ("IsExternal", Ifc.PBool true); ("Reference", Ifc.POther)])];
      Ifc.create_shape := Ifc.Shape [zero; zero; zero; one; two; three] |};
   {| Ifc.id := 202;
      Ifc.GlobalId := "1opening";
      Ifc.Name := None;
      Ifc.is_a := "IfcOpeningElement";
      Ifc.Representation := true;
      Ifc.ObjectPlacement := Ifc.PlacementAbsent;
      Ifc.get_container := Ifc.ContainerNone;
      Ifc.get_psets := Ifc.PsetsRaise;
      Ifc.create_shape := Ifc.Shape [one; one; one] |};
   example_product 203 "IfcDoor" (Ifc.Container true 12)].

(** A wall and a door in the ground storey, a wall in the first. *)
Definition wall_door_wall : list Ifc.Product :=
  [example_product 101 "IfcWall" (Ifc.Container true 11);
   example_product 102 "IfcDoor" (Ifc.Container true 11);
   example_product 103 "IfcWall" (Ifc.Container true 12)].

(** The same products, enumerated in another order. *)
Definition wall_wall_door : list Ifc.Product :=
  [example_product 103 "IfcWall" (Ifc.Container true 12);
   example_product 101 "IfcWall" (Ifc.Container true 11);
   example_product 102 "IfcDoor" (Ifc.Container true 11)].


Definition example_storey (id : Z) (name : string) (p : Ifc.PlacementOutcome)
  : Ifc.Product :=
  {| Ifc.id := id;
     Ifc.GlobalId := "storey-" +:+ Py.str_of_Z id;
     Ifc.Name := Some name;
     Ifc.is_a := "IfcBuildingStorey";
     Ifc.Representation := false;
     Ifc.ObjectPlacement := p;
     Ifc.get_container := Ifc.ContainerNone;
     Ifc.get_psets := Ifc.PsetsRaise;
     Ifc.create_shape := Ifc.ShapeEmpty |}.

Definition example_file (storeys products : list Ifc.Product) : Ifc.File :=
  {| Ifc.IfcBuildingStorey := storeys;
     Ifc.IfcProduct := products;
     Ifc.IfcProject := [];
     Ifc.schema := "IFC4" |}.

(** Storeys at elevations 0.0, 3.0 and 6.0. *)
Definition three_storeys : list Ifc.Product :=
  [example_storey 11 "Ground" (Ifc.PlacementMatrix zero);
   example_storey 12 "First" (Ifc.PlacementMatrix three);
   example_storey 13 "Second" (Ifc.PlacementMatrix six)].

(** A storey without placement between two placed ones. *)
Definition storeys_with_unplaced : list Ifc.Product :=
  [example_storey 21 "Upper" (Ifc.PlacementMatrix three);
   example_storey 22 "Unplaced" Ifc.PlacementAbsent;
   example_storey 23 "Basement" (Ifc.PlacementMatrix minus_three)].

(** A storey whose elevation is NaN, before one at 0.0. *)
Definition storeys_with_nan : list Ifc.Product :=
  [example_storey 31 "Broken" (Ifc.PlacementMatrix nan);
   example_storey 32 "Ground" (Ifc.PlacementMatrix zero)].

End Reference.

(* ===================================================================== *)
(** * Notions used to state further properties of the code *)
(* ===================================================================== *)

Module Notions.
Import Np GeometryExtractor IFCProcessor Reference.

(** ** Bounding boxes *)

(** The reductions of the builder over a non-empty run of coordinates of
    one axis. *)
Definition min_of (first : float) (others : list float) : float :=
  fold_left minimum others first.
Definition max_of (first : float) (others : list float) : float :=
  fold_left maximum others first.

(** What [_calculate_bounding_box] computes on the coordinates of [V],
    written one axis at a time. *)
Definition box_by_axis (V : list vec3) : BoundingBox :=
  match map swap12 V with
  | [] => _default_bbox
  | v :: vs =>
      let lo (axis : vec3 -> float) := min_of (axis v) (map axis vs) in
      let hi (axis : vec3 -> float) := max_of (axis v) (map axis vs) in
      let extent (axis : vec3 -> float) :=
        maximum (fsub (hi axis) (lo axis)) MIN_SIZE_THRESHOLD in
      let middle (axis : vec3 -> float) :=
        fdiv (fadd (lo axis) (hi axis)) two in
      {| bmin := (lo axis0, lo axis1, lo axis2);
         bmax := (hi axis0, hi axis1, hi axis2);
         center := (middle axis0, middle axis1, middle axis2);
         size := (extent axis0, extent axis1, extent axis2) |}
  end.

(** [v] lies between the corners [lo] and [hi], on every axis. *)
Definition within (lo v hi : vec3) : Prop :=
  Forall (fun axis : vec3 -> float =>
            fle (axis lo) (axis v) = true /\ fle (axis v) (axis hi) = true)
         [axis0; axis1; axis2].

(** The same number, but for the sign of a zero. *)
Definition same_number (x y : float) : Prop :=
  x = y \/ exists sx sy : bool, x = S754_zero sx /\ y = S754_zero sy.

Definition same_vec (a b : vec3) : Prop :=
  Forall (fun axis : vec3 -> float => same_number (axis a) (axis b))
         [axis0; axis1; axis2].

(** Boxes with the same numbers in every field. *)
Definition same_box (a b : BoundingBox) : Prop :=
  same_vec (bmin a) (bmin b) /\ same_vec (bmax a) (bmax b)
  /\ same_vec (center a) (center b) /\ same_vec (size a) (size b).

(** ** The geometry payload *)

(** The record of a product in the payload, if it gets one: the product has
    a representation, a shape with geometry, and a box that passes the
    validity check. *)
Definition extracted_record (product : Ifc.Product) : option (gmap string pyval) :=
  if Ifc.Representation product then
    match Ifc.create_shape product with
    | Ifc.Shape verts =>
        if _is_valid_geometry (_calculate_bounding_box verts)
        then Some (element_data product (_calculate_bounding_box verts))
        else None
    | Ifc.ShapeRaises | Ifc.ShapeEmpty => None
    end
  else None.

(** The record's ['ifcType'] is the string [t]. *)
Definition has_ifc_type (t : string) (r : gmap string pyval) : bool :=
  match r !! "ifcType" with
  | Some (VStr s) => bool_decide (s = t)
  | _ => false
  end.

(** The type counter of the loop, fed with the records it appends. *)
Definition count_record (counts : list (string * Z)) (r : gmap string pyval)
  : list (string * Z) :=
  PyDict.set (ifc_type_of r)
    (PyDict.get_default (ifc_type_of r) 0 counts + 1)%Z counts.

(** ** Levels *)

(** The last level of a list that has the id [i]. *)
Fixpoint last_level (i : Z) (levels : list Level) : option Level :=
  match levels with
  | [] => None
  | l :: rest =>
      match last_level i rest with
      | Some l' => Some l'
      | None => if decide (lv_id l = i) then Some l else None
      end
  end.

(** The storey that directly contains the element, if a storey does. *)
Definition containing_storey (element : Ifc.Product) : option Z :=
  match Ifc.get_container element with
  | Ifc.Container true container_id => Some container_id
  | _ => None
  end.

(** The Z of the element's placement, if the placement resolves. *)
Definition placement_z (element : Ifc.Product) : option float :=
  match Ifc.ObjectPlacement element with
  | Ifc.PlacementMatrix z => Some z
  | _ => None
  end.

(** ** Dimensions *)

(** The properties of an element, over all its property sets, in
    iteration order; none when [get_psets] raises. *)
Definition all_props (element : Ifc.Product) : list (string * Ifc.PropValue) :=
  match Ifc.get_psets element with
  | Ifc.PsetsRaise => []
  | Ifc.Psets psets => concat (map snd psets)
  end.

(** The rounded value of the last property named [k] that is recorded: [k]
    is a dimension name and the value is an [int] or a [float] greater than
    zero. *)
Fixpoint last_recorded (k : string) (props : list (string * Ifc.PropValue))
  : option Py.pynum :=
  match props with
  | [] => None
  | prop :: rest =>
      match last_recorded k rest with
      | Some v => Some v
      | None =>
          if decide (fst prop = k) then
            if bool_decide (k ∈ dimension_props) then rounded_dimension (snd prop)
            else None
          else None
      end
  end.

(** The dimension names in ascending order, and the items of a mapping
    taken in that order. *)
Definition dimension_order : list string :=
  ["Area"; "Depth"; "Height"; "Length"; "Thickness"; "Volume"; "Width"].

Definition items_in_order (dimensions : gmap string Py.pynum)
  : list (string * Py.pynum) :=
  omap (fun name => pair name <$> dimensions !! name) dimension_order.

(** What a stored dimension is: a positive [int], or a [float] that is a
    number and not negative. *)
Definition stored_dimension (v : Py.pynum) : Prop :=
  match v with
  | Py.NInt z => (0 < z)%Z
  | Py.NFloat x => fle zero x = true
  end.

(** ** Counting *)

(** How many items of [l] satisfy [f]. *)
Definition count_if {A : Type} (f : A -> bool) (l : list A) : Z :=
  Z.of_nat (length (List.filter f l)).

(** The sum of the values of a dict. *)
Definition sum_values {K : Type} (d : list (K * Z)) : Z :=
  fold_right Z.add 0%Z (map snd d).

(** The distinct items of a list, in the order of their first occurrence. *)
Fixpoint first_occurrences {A : Type} `{EqDecision A} (l : list A) : list A :=
  match l with
  | [] => []
  | x :: rest =>
      x :: List.filter (fun y => negb (bool_decide (y = x))) (first_occurrences rest)
  end.

(** ** The quantity table *)

(** The element has the key [k]. *)
Definition has_key (k : string) (e : Element) : bool :=
  bool_decide (element_key e = k).

(** The element is counted at level [i]: its level id is [i], and [i] is
    not 0. *)
Definition counted_at (i : Z) (e : Element) : bool :=
  match level_id e with
  | Some j => bool_decide (j = i) && level_truthy (level_id e)
  | None => false
  end.

(** The element is counted at no level: it has no level id, or the id 0. *)
Definition unassigned (e : Element) : bool := negb (level_truthy (level_id e)).

(** The element type a row gets from an element key. *)
Definition type_of_key (element_key : string) : string :=
  List.hd EmptyString (Py.split "_" element_key).

(** The key and the level of a processed element. *)
Definition key_level (e : Element) : string * option Z := (element_key e, level_id e).

(** The sum, over the keys of the table, of the count stored under [field]. *)
Definition sum_counts (field : string) (table : list (string * list (string * Z))) : Z :=
  fold_right Z.add 0%Z (map (fun kv => PyDict.get_default field 0%Z (snd kv)) table).

(** The sum, over the rows, of the quantity at level [i] (0 where a row has
    no entry for the level). *)
Definition sum_at_level (i : Z) (rows : list Row) : Z :=
  fold_right Z.add 0%Z
    (map (fun row => PyDict.get_default i 0%Z (level_quantities row)) rows).

(** The sum of the totals of the rows. *)
Definition sum_totals (rows : list Row) : Z :=
  fold_right Z.add 0%Z (map total_quantity rows).

End Notions.

(* ===================================================================== *)
(** * Properties of binary64 arithmetic *)
(* ===================================================================== *)

Section Float64Facts.

Local Open Scope Z_scope.

Lemma shr_1_nonneg (mrs : shr_record) :
  0 <= shr_m mrs -> 0 <= shr_m (shr_1 mrs).
Proof.
  destruct mrs as [m r s]; simpl.
  destruct m as [|[p|p|]|[p|p|]]; simpl; lia.
Qed.

Lemma iter_shr_1_nonneg (p : positive) (mrs : shr_record) :
  0 <= shr_m mrs -> 0 <= shr_m (SpecFloat.iter_pos shr_1 p mrs).
Proof.
  revert mrs; induction p as [p IH|p IH|]; simpl; intros mrs H.
  - apply IH, IH, shr_1_nonneg, H.
  - apply IH, IH, H.
  - apply shr_1_nonneg, H.
Qed.

Lemma shr_fexp_nonneg (m e : Z) (l : location) :
  0 <= m -> 0 <= shr_m (fst (shr_fexp prec emax m e l)).
Proof.
  intros Hm. unfold shr_fexp, shr.
  assert (H0 : 0 <= shr_m (shr_record_of_loc m l))
    by (destruct l as [|[]]; exact Hm).
  destruct (fexp prec emax (Zdigits2 m + e) - e); simpl; auto.
  apply iter_shr_1_nonneg, H0.
Qed.

Lemma round_nearest_even_nonneg (m : Z) (l : location) :
  0 <= m -> 0 <= round_nearest_even m l.
Proof.
  intros Hm. destruct l as [|[]]; simpl; try lia.
  destruct (Z.even m); lia.
Qed.

(** Rounding a non-negative mantissa gives a zero, a finite number or an
    infinity. *)
Lemma binary_round_aux_not_nan (sx : bool) (mx ex : Z) (lx : location) :
  0 <= mx -> isnan (binary_round_aux prec emax sx mx ex lx) = false.
Proof.
  intros Hm. unfold binary_round_aux.
  pose proof (shr_fexp_nonneg mx ex lx Hm) as H1.
  destruct (shr_fexp prec emax mx ex lx) as [mrs' e'] eqn:E1. simpl in H1.
  pose proof (shr_fexp_nonneg
                (round_nearest_even (shr_m mrs') (loc_of_shr_record mrs')) e' loc_Exact
                (round_nearest_even_nonneg _ _ H1)) as H2.
  destruct (shr_fexp prec emax _ e' loc_Exact) as [mrs'' e''] eqn:E2. simpl in H2.
  destruct (shr_m mrs'') as [|p|p]; [reflexivity | | lia].
  destruct (e'' <=? emax - prec); reflexivity.
Qed.

Lemma binary_normalize_not_nan (m e : Z) (szero : bool) :
  isnan (binary_normalize prec emax m e szero) = false.
Proof.
  destruct m as [|p|p]; simpl; [reflexivity | |];
    unfold binary_round;
    destruct (shl_align _ _ _) as [mz ez];
    apply binary_round_aux_not_nan; lia.
Qed.

(** The difference of two finite floats is a number (possibly an infinity,
    on overflow). *)
Lemma fsub_finite_not_nan (a b : float) :
  isfinite a = true -> isfinite b = true -> isnan (fsub a b) = false.
Proof.
  destruct a as [sa|sa| |sa ma ea], b as [sb|sb| |sb mb eb];
    simpl; try discriminate; intros _ _.
  - destruct sa, sb; reflexivity.
  - reflexivity.
  - reflexivity.
  - apply binary_normalize_not_nan.
Qed.

(** [<] and [<=] on floats are the order of the ranks, among numbers. *)
Lemma flt_spec (x y : float) :
  flt x y = true <-> isnan x = false /\ isnan y = false /\ rank_lt (rank x) (rank y).
Proof.
  unfold flt, SFltb, SFcompare, rank_lt, rank.
  destruct x as [sx|sx| |sx mx ex], y as [sy|sy| |sy my ey]; simpl;
    try destruct sx; try destruct sy; simpl;
    try (split; [intros; try discriminate; repeat split; try reflexivity; lia
                | intros (? & ? & ?); try discriminate; try reflexivity; lia]).
  - change (Pos.compare_cont Eq mx my) with (Pos.compare mx my).
    destruct (Z.compare_spec ex ey), (Pos.compare_spec mx my); simpl;
      (split; [intros; try discriminate; repeat split; try reflexivity; lia
              | intros (? & ? & ?); try discriminate; try reflexivity; lia]).
  - change (Pos.compare_cont Eq mx my) with (Pos.compare mx my).
    destruct (Z.compare_spec ex ey), (Pos.compare_spec mx my); simpl;
      (split; [intros; try discriminate; repeat split; try reflexivity; lia
              | intros (? & ? & ?); try discriminate; try reflexivity; lia]).
Qed.

Lemma fle_spec (x y : float) :
  fle x y = true <-> isnan x = false /\ isnan y = false /\ ~ rank_lt (rank y) (rank x).
Proof.
  unfold fle, SFleb, SFcompare, rank_lt, rank.
  destruct x as [sx|sx| |sx mx ex], y as [sy|sy| |sy my ey]; simpl;
    try destruct sx; try destruct sy; simpl;
    try (split; [intros; try discriminate; repeat split; try reflexivity; lia
                | intros (? & ? & ?); try discriminate; try reflexivity; lia]).
  - change (Pos.compare_cont Eq mx my) with (Pos.compare mx my).
    destruct (Z.compare_spec ex ey), (Pos.compare_spec mx my); simpl;
      (split; [intros; try discriminate; repeat split; try reflexivity; lia
              | intros (? & ? & ?); try discriminate; try reflexivity; lia]).
  - change (Pos.compare_cont Eq mx my) with (Pos.compare mx my).
    destruct (Z.compare_spec ex ey), (Pos.compare_spec mx my); simpl;
      (split; [intros; try discriminate; repeat split; try reflexivity; lia
              | intros (? & ? & ?); try discriminate; try reflexivity; lia]).
Qed.

Lemma flt_false (x y : float) :
  flt x y = false <->
  ~ (isnan x = false /\ isnan y = false /\ rank_lt (rank x) (rank y)).
Proof. rewrite <- flt_spec. symmetry. apply not_true_iff_false. Qed.

Lemma fle_false (x y : float) :
  fle x y = false <->
  ~ (isnan x = false /\ isnan y = false /\ ~ rank_lt (rank y) (rank x)).
Proof. rewrite <- fle_spec. symmetry. apply not_true_iff_false. Qed.

End Float64Facts.

(** Turns comparisons of floats into linear arithmetic on their ranks. *)
Ltac float_order :=
  repeat match goal with
         | H : flt _ _ = true |- _ => apply flt_spec in H
         | H : fle _ _ = true |- _ => apply fle_spec in H
         | H : flt _ _ = false |- _ => apply flt_false in H
         | H : fle _ _ = false |- _ => apply fle_false in H
         | |- flt _ _ = true => apply flt_spec
         | |- fle _ _ = true => apply fle_spec
         | |- flt _ _ = false => apply flt_false
         | |- fle _ _ = false => apply fle_false
         end;
  unfold rank_lt in *;
  repeat match goal with
         | |- context [rank ?x] => destruct (rank x) as [[? ?] ?]
         | H : context [rank ?x] |- _ => destruct (rank x) as [[? ?] ?]
         end;
  intuition (try congruence; try lia).

Section Float64Order.

Lemma flt_trans (a b c : float) :
  flt a b = true -> flt b c = true -> flt a c = true.
Proof. intros. float_order. Qed.

Lemma fle_flt_trans (a b c : float) :
  fle a b = true -> flt b c = true -> flt a c = true.
Proof. intros. float_order. Qed.

Lemma fle_trans (a b c : float) :
  fle a b = true -> fle b c = true -> fle a c = true.
Proof. intros. float_order. Qed.

Lemma flt_fle (a b : float) : flt a b = true -> fle a b = true.
Proof. intros. float_order. Qed.

Lemma flt_not_fle (a b : float) : flt a b = true -> fle b a = false.
Proof. intros. float_order. Qed.

(** Totality holds among numbers only. *)
Lemma fle_total (a b : float) :
  isnan a = false -> isnan b = false -> flt a b = false -> fle b a = true.
Proof. intros. float_order. Qed.

Lemma fle_refl (a : float) : isnan a = false -> fle a a = true.
Proof. intros. float_order. Qed.

End Float64Order.

(* ===================================================================== *)
(** * Properties of [min] and [sorted] with a key *)
(* ===================================================================== *)

Section MinFacts.
Context {A K : Type} (lt le : K -> K -> bool) (key : A -> K).
Hypothesis le_lt_trans : forall a b c, le a b = true -> lt b c = true -> lt a c = true.
Hypothesis lt_le : forall a b, lt a b = true -> le a b = true.
Hypothesis lt_not_le : forall a b, lt a b = true -> le b a = false.

(** The loop keeps an item [best] that no earlier item matches ([pre]) and
    no later item seen so far beats ([mid]). *)
Lemma min_loop_split (l : list A) :
  forall (best : A) (pre mid : list A),
    (forall x, x ∈ pre -> le (key x) (key best) = false) ->
    (forall x, x ∈ mid -> lt (key x) (key best) = false) ->
    exists pre' post',
      pre ++ best :: mid ++ l = pre' ++ Py.min_loop lt key best l :: post'
      /\ (forall x, x ∈ pre' -> le (key x) (key (Py.min_loop lt key best l)) = false)
      /\ (forall x, x ∈ post' -> lt (key x) (key (Py.min_loop lt key best l)) = false).
Proof.
  induction l as [|x l IH]; intros best pre mid Hpre Hmid; simpl.
  - exists pre, mid. rewrite app_nil_r. auto.
  - destruct (lt (key x) (key best)) eqn:Hx.
    + destruct (IH x (pre ++ best :: mid) []) as (pre' & post' & E & H1 & H2).
      * intros y Hy.
        destruct (le (key y) (key x)) eqn:Hyx; [|reflexivity].
        pose proof (le_lt_trans _ _ _ Hyx Hx) as Hlt.
        apply elem_of_app in Hy as [Hy|Hy].
        -- specialize (Hpre y Hy). rewrite (lt_le _ _ Hlt) in Hpre. discriminate.
        -- apply elem_of_cons in Hy as [->|Hy].
           ++ rewrite (lt_not_le _ _ Hx) in Hyx. discriminate.
           ++ specialize (Hmid y Hy). rewrite Hlt in Hmid. discriminate.
      * intros y Hy. apply elem_of_nil in Hy. contradiction.
      * exists pre', post'. split; [|auto].
        rewrite <- E. rewrite <- !app_assoc. reflexivity.
    + destruct (IH best pre (mid ++ [x])) as (pre' & post' & E & H1 & H2).
      * exact Hpre.
      * intros y Hy. apply elem_of_app in Hy as [Hy|Hy]; [auto|].
        apply list_elem_of_singleton in Hy as ->. exact Hx.
      * exists pre', post'. split; [|auto].
        rewrite <- E. rewrite <- !app_assoc. reflexivity.
Qed.

(** [min] returns the first of the items that no item beats. *)
Lemma py_min_first (l : list A) :
  l <> [] ->
  exists pre best post,
    l = pre ++ best :: post
    /\ Py.py_min lt key l = Some best
    /\ (forall x, x ∈ pre -> le (key x) (key best) = false)
    /\ (forall x, x ∈ post -> lt (key x) (key best) = false).
Proof.
  destruct l as [|x l]; [congruence|intros _].
  destruct (min_loop_split l x [] []) as (pre & post & E & H1 & H2).
  - intros y Hy. apply elem_of_nil in Hy. contradiction.
  - intros y Hy. apply elem_of_nil in Hy. contradiction.
  - exists pre, (Py.min_loop lt key x l), post. simpl in E. auto.
Qed.

End MinFacts.

Section ListFacts.

Lemma list_filter_perm {A : Type} (f : A -> bool) (l1 l2 : list A) :
  Permutation l1 l2 -> Permutation (List.filter f l1) (List.filter f l2).
Proof.
  intros H. induction H; simpl.
  - constructor.
  - destruct (f x); [constructor|]; assumption.
  - destruct (f x), (f y); first [apply perm_swap | reflexivity].
  - etransitivity; eassumption.
Qed.

End ListFacts.

Section SortedFacts.
Import Reference.
Context {A K : Type} (lt : K -> K -> bool) (key : A -> K).

Lemma ascending_run_app (l : list A) :
  forall prev : A,
    fst (Py.ascending_run lt key prev l) ++ snd (Py.ascending_run lt key prev l) = l.
Proof.
  induction l as [|x r IH]; intros prev; simpl; [reflexivity|].
  destruct (lt (key x) (key prev)); [reflexivity|].
  specialize (IH x). destruct (Py.ascending_run lt key x r) as [run rest].
  simpl in *. rewrite IH. reflexivity.
Qed.

Lemma descending_run_app (l : list A) :
  forall prev : A,
    fst (Py.descending_run lt key prev l) ++ snd (Py.descending_run lt key prev l) = l.
Proof.
  induction l as [|x r IH]; intros prev; simpl; [reflexivity|].
  destruct (lt (key x) (key prev)); [|reflexivity].
  specialize (IH x). destruct (Py.descending_run lt key x r) as [run rest].
  simpl in *. rewrite IH. reflexivity.
Qed.

(** The run and the rest are the items of the list. *)
Lemma count_run_perm (l : list A) :
  Permutation l (fst (Py.count_run lt key l) ++ snd (Py.count_run lt key l)).
Proof.
  destruct l as [|x [|y r]]; [reflexivity..|].
  unfold Py.count_run. destruct (lt (key y) (key x)).
  - pose proof (descending_run_app r y) as H.
    destruct (Py.descending_run lt key y r) as [run rest]. cbn [fst snd] in *.
    rewrite <- H at 1.
    change (x :: y :: run ++ rest) with ((x :: y :: run) ++ rest).
    apply Permutation_app_tail, Permutation_rev.
  - pose proof (ascending_run_app r y) as H.
    destruct (Py.ascending_run lt key y r) as [run rest]. cbn [fst snd] in *.
    rewrite <- H at 1. reflexivity.
Qed.

Lemma binary_insert_perm (a : list A) (pivot : A) :
  Permutation (pivot :: a) (Py.binary_insert lt key a pivot).
Proof.
  unfold Py.binary_insert.
  rewrite <- (take_drop (Py.bisect lt key (length a) pivot a 0 (length a)) a) at 1.
  apply Permutation_middle.
Qed.

Lemma fold_binary_insert_perm (rest run : list A) :
  Permutation (run ++ rest) (fold_left (Py.binary_insert lt key) rest run).
Proof.
  revert run; induction rest as [|x rest IH]; intros run; simpl.
  - rewrite app_nil_r. reflexivity.
  - rewrite <- IH, <- binary_insert_perm.
    symmetry. apply Permutation_middle.
Qed.

(** Sorting rearranges the items and loses none. *)
Lemma py_sorted_perm (l : list A) : Permutation l (Py.py_sorted lt key l).
Proof.
  unfold Py.py_sorted. rewrite (count_run_perm l) at 1.
  destruct (Py.count_run lt key l) as [run rest]. apply fold_binary_insert_perm.
Qed.

(** The binary search cuts the items in two: when an item greater than the
    pivot has only items [Hi] from it on, and an item not greater has only
    items [Lo] up to it, the items before the place found are [Lo] and the
    items from there on are [Hi]. *)
Lemma bisect_split (Lo Hi : A -> Prop) (pivot : A) (a : list A) :
  (forall p x, a !! p = Some x -> lt (key pivot) (key x) = true ->
               Forall Hi (drop p a)) ->
  (forall p x, a !! p = Some x -> lt (key pivot) (key x) = false ->
               Forall Lo (take (S p) a)) ->
  forall (fuel l r : nat),
    (l <= r <= length a)%nat -> (r - l <= fuel)%nat ->
    Forall Lo (take l a) -> Forall Hi (drop r a) ->
    Forall Lo (take (Py.bisect lt key fuel pivot a l r) a)
    /\ Forall Hi (drop (Py.bisect lt key fuel pivot a l r) a).
Proof.
  intros Hhi Hlo fuel.
  induction fuel as [|fuel IH]; intros l r Hlr Hf HL HR; cbn [Py.bisect].
  - replace l with r in * by lia. auto.
  - destruct (Nat.ltb_spec l r) as [Hlt|Hge];
      [|replace l with r in * by lia; auto].
    assert (Hp : (l <= l + (r - l) / 2 < r)%nat).
    { pose proof (Nat.Div0.div_lt_upper_bound (r - l) 2 (r - l)).
      split; [lia|]. assert ((r - l) / 2 < r - l)%nat; [|lia].
      apply Nat.div_lt; lia. }
    destruct (lookup_lt_is_Some_2 a (l + (r - l) / 2)) as [x Hx]; [lia|].
    rewrite Hx.
    destruct (lt (key pivot) (key x)) eqn:E.
    + apply IH; [lia|lia|exact HL|exact (Hhi _ _ Hx E)].
    + apply IH; [lia|lia|exact (Hlo _ _ Hx E)|exact HR].
Qed.

Lemma bisect_split_all (Lo Hi : A -> Prop) (pivot : A) (a : list A) :
  (forall p x, a !! p = Some x -> lt (key pivot) (key x) = true ->
               Forall Hi (drop p a)) ->
  (forall p x, a !! p = Some x -> lt (key pivot) (key x) = false ->
               Forall Lo (take (S p) a)) ->
  Forall Lo (take (Py.bisect lt key (length a) pivot a 0 (length a)) a)
  /\ Forall Hi (drop (Py.bisect lt key (length a) pivot a 0 (length a)) a).
Proof.
  intros Hhi Hlo. apply (bisect_split Lo Hi pivot a Hhi Hlo); [lia|lia| |].
  - constructor.
  - rewrite drop_all. constructor.
Qed.

(** When [lt] is the strict part of a total preorder [le] on the keys that
    satisfy [ok], the result is in ascending order. *)
Context (le : K -> K -> bool) (ok : K -> Prop).
Hypothesis le_total : forall a b, ok a -> ok b -> lt a b = false -> le b a = true.
Hypothesis lt_le : forall a b, lt a b = true -> le a b = true.
Hypothesis le_trans : forall a b c, le a b = true -> le b c = true -> le a c = true.

Lemma ascending_cons (x : A) (l : list A) :
  ascending le key l ->
  match l with
  | [] => True
  | y :: _ => le (key x) (key y) = true
  end ->
  ascending le key (x :: l).
Proof.
  intros Hl Hx. constructor; [exact Hl|].
  destruct Hl as [|y l Hl Hy]; constructor; [exact Hx|].
  eapply Forall_impl; [exact Hy|].
  intros z Hz. simpl in Hz. exact (le_trans _ _ _ Hx Hz).
Qed.

Lemma ascending_run_ascending (l : list A) :
  forall prev : A,
    ok (key prev) -> Forall (fun y => ok (key y)) l ->
    ascending le key (prev :: fst (Py.ascending_run lt key prev l)).
Proof.
  induction l as [|x r IH]; intros prev Hp Hl; simpl.
  - repeat constructor.
  - apply Forall_cons in Hl as [Hx Hl].
    destruct (lt (key x) (key prev)) eqn:E; [repeat constructor|].
    specialize (IH x Hx Hl).
    destruct (Py.ascending_run lt key x r) as [run rest]. cbn [fst] in *.
    apply ascending_cons; [exact IH|].
    apply le_total; assumption.
Qed.

Lemma descending_run_reversed (l : list A) :
  forall (prev : A) (acc : list A),
    ascending le key (prev :: acc) ->
    ascending le key (rev (fst (Py.descending_run lt key prev l)) ++ prev :: acc).
Proof.
  induction l as [|x r IH]; intros prev acc Hacc; simpl; [exact Hacc|].
  destruct (lt (key x) (key prev)) eqn:E; [|exact Hacc].
  specialize (IH x (prev :: acc)).
  destruct (Py.descending_run lt key x r) as [run rest]. cbn [fst] in *.
  simpl. rewrite <- app_assoc. apply IH.
  apply ascending_cons; [exact Hacc|apply lt_le, E].
Qed.

Lemma count_run_ascending (l : list A) :
  Forall (fun y => ok (key y)) l ->
  ascending le key (fst (Py.count_run lt key l)).
Proof.
  intros Hl. destruct l as [|x [|y r]]; [repeat constructor..|].
  unfold Py.count_run. destruct (lt (key y) (key x)) eqn:E.
  - pose proof (descending_run_reversed r y [x]) as H.
    destruct (Py.descending_run lt key y r) as [run rest]. cbn [fst] in *.
    change (rev (x :: y :: run)) with ((rev run ++ [y]) ++ [x]).
    rewrite <- app_assoc. apply H.
    apply ascending_cons; [repeat constructor|apply lt_le, E].
  - apply Forall_cons in Hl as [Hx Hl]. apply Forall_cons in Hl as [Hy Hl].
    pose proof (ascending_run_ascending r y Hy Hl) as H.
    destruct (Py.ascending_run lt key y r) as [run rest]. cbn [fst] in *.
    apply ascending_cons; [exact H|]. apply le_total; assumption.
Qed.

(** The parts of an ascending list around one of its items. *)
Lemma ascending_lookup (a : list A) (p : nat) (x : A) :
  ascending le key a -> a !! p = Some x ->
  Forall (fun z => le (key z) (key x) = true) (take p a)
  /\ Forall (fun z => le (key x) (key z) = true) (drop (S p) a).
Proof.
  intros Ha Hx.
  rewrite <- (take_drop p a), (drop_S _ _ _ Hx) in Ha.
  apply StronglySorted_app in Ha as (Hc & _ & Hr).
  split.
  - apply Forall_forall. intros z Hz. apply (Hc z x Hz). apply elem_of_cons. auto.
  - inversion Hr; subst. assumption.
Qed.

Lemma binary_insert_ascending (a : list A) (x : A) :
  ok (key x) -> Forall (fun y => ok (key y)) a ->
  ascending le key a -> ascending le key (Py.binary_insert lt key a x).
Proof.
  intros Hx Hok Ha. unfold Py.binary_insert.
  destruct (bisect_split_all
              (fun z => le (key z) (key x) = true)
              (fun z => le (key x) (key z) = true) x a) as [HL HR].
  - intros p y Hy E. rewrite (drop_S _ _ _ Hy).
    destruct (ascending_lookup a p y Ha Hy) as [_ H].
    constructor; [apply lt_le, E|].
    eapply Forall_impl; [exact H|]. intros z Hz. simpl in Hz.
    exact (le_trans _ _ _ (lt_le _ _ E) Hz).
  - intros p y Hy E. rewrite (take_S_r _ _ _ Hy).
    destruct (ascending_lookup a p y Ha Hy) as [H _].
    assert (Hyx : le (key y) (key x) = true).
    { apply le_total; [exact Hx| |exact E].
      rewrite Forall_forall in Hok. apply Hok. eapply list_elem_of_lookup_2, Hy. }
    apply Forall_app. split; [|repeat constructor; exact Hyx].
    eapply Forall_impl; [exact H|]. intros z Hz. simpl in Hz.
    exact (le_trans _ _ _ Hz Hyx).
  - set (k := Py.bisect lt key (length a) x a 0 (length a)) in *.
    rewrite <- (take_drop k a) in Ha.
    apply StronglySorted_app in Ha as (Hc & H1 & H2).
    apply StronglySorted_app. split; [|split; [exact H1|constructor; assumption]].
    intros z1 z2 Hz1 Hz2. apply elem_of_cons in Hz2 as [->|Hz2].
    + rewrite Forall_forall in HL. apply HL, Hz1.
    + apply Hc; assumption.
Qed.

Lemma fold_binary_insert_ascending (rest : list A) :
  forall run : list A,
    Forall (fun y => ok (key y)) rest -> Forall (fun y => ok (key y)) run ->
    ascending le key run ->
    ascending le key (fold_left (Py.binary_insert lt key) rest run).
Proof.
  induction rest as [|x rest IH]; intros run Hrest Hrun Hs; simpl; [exact Hs|].
  apply Forall_cons in Hrest as [Hx Hrest].
  apply IH; [exact Hrest| |apply binary_insert_ascending; assumption].
  rewrite <- binary_insert_perm. constructor; assumption.
Qed.

Lemma count_run_ok (P : A -> Prop) (l : list A) :
  Forall P l ->
  Forall P (fst (Py.count_run lt key l)) /\ Forall P (snd (Py.count_run lt key l)).
Proof.
  intros H. rewrite (count_run_perm l) in H. apply Forall_app in H. exact H.
Qed.

Lemma py_sorted_ascending (l : list A) :
  Forall (fun y => ok (key y)) l -> ascending le key (Py.py_sorted lt key l).
Proof.
  intros Hl. unfold Py.py_sorted.
  pose proof (count_run_ascending l Hl) as Hs.
  destruct (count_run_ok _ l Hl) as [H1 H2].
  destruct (Py.count_run lt key l) as [run rest]. cbn [fst snd] in *.
  apply fold_binary_insert_ascending; assumption.
Qed.

End SortedFacts.

(* ===================================================================== *)
(** * The bounding-box builder *)
(* ===================================================================== *)

Section BoundingBoxFacts.
Import Np GeometryExtractor Reference Notions.

Lemma reshape3_flatten (V : list vec3) : reshape3 (flatten V) = Some V.
Proof.
  induction V as [|[[x y] z] V IH]; [reflexivity|].
  unfold flatten in *. simpl. rewrite IH. reflexivity.
Qed.

Lemma reshape3_inv (flat : list float) :
  forall rows, reshape3 flat = Some rows -> flat = flatten rows.
Proof.
  induction flat as [flat IH] using (induction_ltof1 _ (@length float)).
  unfold ltof in IH. intros rows H.
  destruct flat as [|x [|y [|z rest]]]; simpl in H; try discriminate.
  - injection H as <-. reflexivity.
  - destruct (reshape3 rest) as [rows'|] eqn:E; [|discriminate].
    injection H as <-.
    rewrite (IH rest) with (rows := rows'); [reflexivity|simpl; lia|exact E].
Qed.

(** A reduction over the rows is three reductions, one per axis. *)
Lemma fold_vmap2_axes (f : float -> float -> float) (rows : list vec3) :
  forall r : vec3,
    fold_left (vmap2 f) rows r
    = (fold_left f (map axis0 rows) (axis0 r),
       fold_left f (map axis1 rows) (axis1 r),
       fold_left f (map axis2 rows) (axis2 r)).
Proof.
  induction rows as [|[[x y] z] rows IH]; intros [[a b] c]; simpl.
  - reflexivity.
  - rewrite IH. reflexivity.
Qed.

Lemma default_bbox_is_default_box : _default_bbox = default_box.
Proof. vm_compute. reflexivity. Qed.

Lemma calculate_bounding_box_flatten (V : list vec3) :
  _calculate_bounding_box (flatten V) = box_by_axis V.
Proof.
  unfold _calculate_bounding_box, box_by_axis. rewrite reshape3_flatten.
  destruct V as [|v V]; simpl.
  - reflexivity.
  - rewrite !fold_vmap2_axes. reflexivity.
Qed.

(** A flat array whose length is not a multiple of three makes [reshape]
    raise, and the [except] branch answers with the default box. *)
Lemma calculate_bounding_box_malformed (flat : list float) :
  reshape3 flat = None -> _calculate_bounding_box flat = _default_bbox.
Proof. intros H. unfold _calculate_bounding_box. rewrite H. reflexivity. Qed.

(** ** The size bound *)

Lemma minimum_cases (a b : float) : minimum a b = a \/ minimum a b = b.
Proof. unfold minimum. destruct (isnan a), (flt a b); auto. Qed.

Lemma maximum_cases (a b : float) : maximum a b = a \/ maximum a b = b.
Proof. unfold maximum. destruct (isnan a), (fgt a b); auto. Qed.

Lemma fold_choice_finite (f : float -> float -> float) :
  (forall a b, f a b = a \/ f a b = b) ->
  forall (l : list float) (a : float),
    isfinite a = true -> Forall (fun c => isfinite c = true) l ->
    isfinite (fold_left f l a) = true.
Proof.
  intros Hf l. induction l as [|x l IH]; intros a Ha Hl; simpl; [exact Ha|].
  apply Forall_cons in Hl as [Hx Hl]. apply IH; [|exact Hl].
  destruct (Hf a x) as [->| ->]; assumption.
Qed.

Lemma flatten_finite (rows : list vec3) :
  Forall (fun c => isfinite c = true) (flatten rows) -> Forall vfinite rows.
Proof.
  induction rows as [|[[x y] z] rows IH]; intros H; [constructor|].
  unfold flatten in H. simpl in H.
  apply Forall_cons in H as [Hx H].
  apply Forall_cons in H as [Hy H].
  apply Forall_cons in H as [Hz H].
  constructor; [repeat split; assumption|apply IH, H].
Qed.

Lemma axis_finite (axis : vec3 -> float) (rows : list vec3) :
  (forall v, vfinite v -> isfinite (axis v) = true) ->
  Forall vfinite rows -> Forall (fun c => isfinite c = true) (map axis rows).
Proof.
  intros Hax H. induction H; simpl; constructor; auto.
Qed.

Lemma swap12_finite (v : vec3) : vfinite v -> vfinite (swap12 v).
Proof. destruct v as [[x y] z]. unfold vfinite. simpl. tauto. Qed.

(** The clamp: a number comes out at least as large as the threshold. *)
Lemma maximum_threshold (d : float) :
  isnan d = false -> fge (maximum d MIN_SIZE_THRESHOLD) MIN_SIZE_THRESHOLD = true.
Proof.
  intros Hd. unfold maximum. rewrite Hd.
  destruct (fgt d MIN_SIZE_THRESHOLD) eqn:E.
  - apply flt_fle, E.
  - vm_compute. reflexivity.
Qed.

(** Whatever the extent, the clamp gives a NaN or at least the threshold. *)
Lemma maximum_nan_or_threshold (d : float) :
  isnan (maximum d MIN_SIZE_THRESHOLD) = true
  \/ fge (maximum d MIN_SIZE_THRESHOLD) MIN_SIZE_THRESHOLD = true.
Proof.
  destruct (isnan d) eqn:Hd.
  - left. unfold maximum. rewrite Hd. exact Hd.
  - right. apply maximum_threshold, Hd.
Qed.

Lemma extent_valid (lo hi : float) :
  isfinite lo = true -> isfinite hi = true ->
  fge (maximum (fsub hi lo) MIN_SIZE_THRESHOLD) MIN_SIZE_THRESHOLD = true.
Proof.
  intros Hlo Hhi. apply maximum_threshold, fsub_finite_not_nan; assumption.
Qed.

Lemma box_by_axis_size_valid (V : list vec3) :
  Forall vfinite V ->
  Forall (fun s => fge s MIN_SIZE_THRESHOLD = true)
         (vec_to_list (size (box_by_axis V))).
Proof.
  intros HV. unfold box_by_axis.
  destruct V as [|v V]; simpl.
  - repeat constructor.
  - apply Forall_cons in HV as [Hv HV].
    apply swap12_finite in Hv.
    assert (HS : Forall vfinite (map swap12 V)).
    { clear -HV. induction HV; simpl; constructor; auto using swap12_finite. }
    assert (A0 : forall w, vfinite w -> isfinite (axis0 w) = true) by (intros w H; apply H).
    assert (A1 : forall w, vfinite w -> isfinite (axis1 w) = true) by (intros w H; apply H).
    assert (A2 : forall w, vfinite w -> isfinite (axis2 w) = true) by (intros w H; apply H).
    unfold min_of, max_of.
    repeat constructor; apply extent_valid;
      apply fold_choice_finite;
      auto using minimum_cases, maximum_cases, axis_finite.
Qed.

Lemma is_valid_geometry_Forall (box : BoundingBox) :
  _is_valid_geometry box = true <->
  Forall (fun s => fge s MIN_SIZE_THRESHOLD = true) (vec_to_list (size box)).
Proof.
  unfold _is_valid_geometry. rewrite forallb_forall, List.Forall_forall. reflexivity.
Qed.

Lemma calculate_bounding_box_valid (verts : list float) :
  Forall (fun c => isfinite c = true) verts ->
  Forall (fun s => fge s MIN_SIZE_THRESHOLD = true)
         (vec_to_list (size (_calculate_bounding_box verts))).
Proof.
  intros H. destruct (reshape3 verts) as [rows|] eqn:E.
  - apply reshape3_inv in E. subst verts.
    rewrite calculate_bounding_box_flatten.
    apply box_by_axis_size_valid, flatten_finite, H.
  - rewrite calculate_bounding_box_malformed by exact E.
    vm_compute. repeat constructor.
Qed.

(** On every input, malformed or not, a component of the size is a NaN or
    at least the threshold: the validity gate rejects exactly the boxes with
    a NaN in their size. *)
Lemma calculate_bounding_box_nan_or_valid (verts : list float) :
  Forall (fun s => isnan s = true \/ fge s MIN_SIZE_THRESHOLD = true)
         (vec_to_list (size (_calculate_bounding_box verts))).
Proof.
  destruct (reshape3 verts) as [rows|] eqn:E.
  - apply reshape3_inv in E. subst verts.
    rewrite calculate_bounding_box_flatten. unfold box_by_axis.
    destruct (map swap12 rows); simpl.
    + repeat apply List.Forall_cons; try apply List.Forall_nil;
        right; vm_compute; reflexivity.
    + repeat apply List.Forall_cons; try apply List.Forall_nil;
        apply maximum_nan_or_threshold.
  - rewrite calculate_bounding_box_malformed by exact E.
    repeat apply List.Forall_cons; try apply List.Forall_nil;
      right; vm_compute; reflexivity.
Qed.

(** ** Least and greatest coordinates *)

Lemma same_number_refl (x : float) : same_number x x.
Proof. left. reflexivity. Qed.

(** Numbers that compare equal are the same, but for the sign of a zero. *)
Lemma fle_antisym (x y : float) :
  fle x y = true -> fle y x = true -> same_number x y.
Proof.
  intros H1 H2.
  assert (Hr : isnan x = false /\ isnan y = false /\ rank x = rank y).
  { apply fle_spec in H1 as (Hx & Hy & H1). apply fle_spec in H2 as (_ & _ & H2).
    split; [exact Hx|]. split; [exact Hy|].
    unfold rank_lt in *.
    destruct (rank x) as [[a1 a2] a3], (rank y) as [[b1 b2] b3].
    assert (a1 = b1 /\ a2 = b2 /\ a3 = b3) by lia.
    destruct H as (-> & -> & ->). reflexivity. }
  destruct Hr as (Hx & Hy & Hr).
  destruct x as [sx|sx| |sx mx ex], y as [sy|sy| |sy my ey];
    try discriminate; try destruct sx; try destruct sy;
    simpl in Hr; try (injection Hr as ?; try lia; discriminate);
    try (left; reflexivity); try (right; eauto; fail).
  - injection Hr as He Hm. left. f_equal; lia.
  - injection Hr as He Hm. left. f_equal; lia.
Qed.

Lemma fold_minimum_least (l : list float) :
  forall a : float,
    isnan a = false -> Forall (fun x => isnan x = false) l ->
    isnan (fold_left minimum l a) = false
    /\ Forall (fun x => fle (fold_left minimum l a) x = true) (a :: l)
    /\ In (fold_left minimum l a) (a :: l).
Proof.
  induction l as [|x l IH]; intros a Ha Hl; simpl.
  - split; [exact Ha|]. split; [|auto].
    constructor; [apply fle_refl, Ha|constructor].
  - apply Forall_cons in Hl as [Hx Hl].
    assert (Hm : isnan (minimum a x) = false
                 /\ fle (minimum a x) a = true /\ fle (minimum a x) x = true).
    { unfold minimum. rewrite Ha.
      destruct (flt a x) eqn:E.
      - split; [exact Ha|]. split; [apply fle_refl, Ha|apply flt_fle, E].
      - split; [exact Hx|]. split; [|apply fle_refl, Hx].
        apply fle_total; assumption. }
    destruct Hm as (Hn & Hma & Hmx).
    destruct (IH (minimum a x) Hn Hl) as (H1 & H2 & H3).
    apply Forall_cons in H2 as [H2 H2'].
    split; [exact H1|]. split.
    + constructor; [exact (fle_trans _ _ _ H2 Hma)|].
      constructor; [exact (fle_trans _ _ _ H2 Hmx)|exact H2'].
    + destruct H3 as [H3|H3]; [|auto].
      rewrite <- H3. destruct (minimum_cases a x) as [-> | ->]; auto.
Qed.

Lemma fold_maximum_greatest (l : list float) :
  forall a : float,
    isnan a = false -> Forall (fun x => isnan x = false) l ->
    isnan (fold_left maximum l a) = false
    /\ Forall (fun x => fle x (fold_left maximum l a) = true) (a :: l)
    /\ In (fold_left maximum l a) (a :: l).
Proof.
  induction l as [|x l IH]; intros a Ha Hl; simpl.
  - split; [exact Ha|]. split; [|auto].
    constructor; [apply fle_refl, Ha|constructor].
  - apply Forall_cons in Hl as [Hx Hl].
    assert (Hm : isnan (maximum a x) = false
                 /\ fle a (maximum a x) = true /\ fle x (maximum a x) = true).
    { unfold maximum. rewrite Ha. change (fgt a x) with (flt x a).
      destruct (flt x a) eqn:E.
      - split; [exact Ha|]. split; [apply fle_refl, Ha|apply flt_fle, E].
      - split; [exact Hx|]. split; [|apply fle_refl, Hx].
        apply fle_total; assumption. }
    destruct Hm as (Hn & Hma & Hmx).
    destruct (IH (maximum a x) Hn Hl) as (H1 & H2 & H3).
    apply Forall_cons in H2 as [H2 H2'].
    split; [exact H1|]. split.
    + constructor; [exact (fle_trans _ _ _ Hma H2)|].
      constructor; [exact (fle_trans _ _ _ Hmx H2)|exact H2'].
    + destruct H3 as [H3|H3]; [|auto].
      rewrite <- H3. destruct (maximum_cases a x) as [-> | ->]; auto.
Qed.

Lemma axis_numbers (axis : vec3 -> float) (rows : list vec3) :
  (forall v, vnumber v -> isnan (axis (swap12 v)) = false) ->
  Forall vnumber rows ->
  Forall (fun x => isnan x = false) (map (fun v => axis (swap12 v)) rows).
Proof. intros Hax H. induction H; simpl; constructor; auto. Qed.

(** The bounds of one axis of the box. *)
Lemma build_axis_bounds (axis : vec3 -> float) (v : vec3) (vs : list vec3) :
  (forall w, vnumber w -> isnan (axis (swap12 w)) = false) ->
  Forall vnumber (v :: vs) ->
  let lo := min_of (axis (swap12 v)) (map axis (map swap12 vs)) in
  let hi := max_of (axis (swap12 v)) (map axis (map swap12 vs)) in
  Forall (fun w => fle lo (axis (swap12 w)) = true
                   /\ fle (axis (swap12 w)) hi = true) (v :: vs)
  /\ In lo (map (fun w => axis (swap12 w)) (v :: vs))
  /\ In hi (map (fun w => axis (swap12 w)) (v :: vs)).
Proof.
  intros Hax HV lo hi. apply Forall_cons in HV as [Hv HV].
  pose proof (axis_numbers axis vs Hax HV) as Hl.
  unfold lo, hi, min_of, max_of. rewrite map_map.
  destruct (fold_minimum_least _ _ (Hax v Hv) Hl) as (_ & L1 & L2).
  destruct (fold_maximum_greatest _ _ (Hax v Hv) Hl) as (_ & G1 & G2).
  split; [|split; assumption].
  change (axis (swap12 v) :: map (fun w => axis (swap12 w)) vs)
    with (map (fun w => axis (swap12 w)) (v :: vs)) in L1, G1.
  rewrite List.Forall_map in L1, G1.
  rewrite List.Forall_forall in *. intros w Hw. split; [apply L1|apply G1]; exact Hw.
Qed.

Ltac same_cases :=
  repeat match goal with
         | b : bool |- _ => destruct b
         end;
  simpl; first [left; reflexivity | right; eauto].

Lemma fsub_same (a a' b b' : float) :
  same_number a a' -> same_number b b' -> same_number (fsub a b) (fsub a' b').
Proof.
  intros [->|(s1 & s1' & -> & ->)] [->|(s2 & s2' & -> & ->)].
  - left. reflexivity.
  - destruct a' as [s|s| |s m e]; unfold fsub; same_cases.
  - destruct b' as [s|s| |s m e]; unfold fsub; same_cases.
  - unfold fsub. same_cases.
Qed.

Lemma fadd_same (a a' b b' : float) :
  same_number a a' -> same_number b b' -> same_number (fadd a b) (fadd a' b').
Proof.
  intros [->|(s1 & s1' & -> & ->)] [->|(s2 & s2' & -> & ->)].
  - left. reflexivity.
  - destruct a' as [s|s| |s m e]; unfold fadd; same_cases.
  - destruct b' as [s|s| |s m e]; unfold fadd; same_cases.
  - unfold fadd. same_cases.
Qed.

Lemma half_same (a a' : float) :
  same_number a a' -> same_number (fdiv a two) (fdiv a' two).
Proof.
  intros [->|(s1 & s1' & -> & ->)]; [left; reflexivity|].
  right. exists (xorb s1 false), (xorb s1' false). split; reflexivity.
Qed.

Lemma clamp_same (a a' : float) :
  same_number a a' ->
  same_number (maximum a MIN_SIZE_THRESHOLD) (maximum a' MIN_SIZE_THRESHOLD).
Proof.
  intros [->|(s1 & s1' & -> & ->)]; [left; reflexivity|].
  left. destruct s1, s1'; reflexivity.
Qed.

Lemma widened_same (a a' : float) :
  same_number a a' -> same_number (widened a) (widened a').
Proof.
  intros [->|(s1 & s1' & -> & ->)]; [left; reflexivity|].
  left. destruct s1, s1'; reflexivity.
Qed.

Lemma least_same (m m' : float) (xs : list float) :
  least m xs -> least m' xs -> same_number m m'.
Proof.
  intros [I H] [I' H']. rewrite List.Forall_forall in H, H'.
  apply fle_antisym; auto.
Qed.

Lemma greatest_same (m m' : float) (xs : list float) :
  greatest m xs -> greatest m' xs -> same_number m m'.
Proof.
  intros [I H] [I' H']. rewrite List.Forall_forall in H, H'.
  apply fle_antisym; auto.
Qed.

Lemma same_box_refl (box : BoundingBox) : same_box box box.
Proof.
  repeat split; repeat apply List.Forall_cons; try apply List.Forall_nil;
    apply same_number_refl.
Qed.

(** The reference definition describes one box, but for the sign of zeros. *)
Lemma builds_same (V : list vec3) (box box' : BoundingBox) :
  builds V box -> builds V box' -> same_box box box'.
Proof.
  unfold builds. destruct V as [|v vs].
  - intros -> ->. apply same_box_refl.
  - intros H H'.
    apply Forall_cons in H as [(La0 & Ga0 & Sa0 & Ca0) H].
    apply Forall_cons in H as [(La1 & Ga1 & Sa1 & Ca1) H].
    apply Forall_cons in H as [(La2 & Ga2 & Sa2 & Ca2) _].
    apply Forall_cons in H' as [(Lb0 & Gb0 & Sb0 & Cb0) H'].
    apply Forall_cons in H' as [(Lb1 & Gb1 & Sb1 & Cb1) H'].
    apply Forall_cons in H' as [(Lb2 & Gb2 & Sb2 & Cb2) _].
    assert (L0 := least_same _ _ _ La0 Lb0).
    assert (L1 := least_same _ _ _ La1 Lb1).
    assert (L2 := least_same _ _ _ La2 Lb2).
    assert (G0 := greatest_same _ _ _ Ga0 Gb0).
    assert (G1 := greatest_same _ _ _ Ga1 Gb1).
    assert (G2 := greatest_same _ _ _ Ga2 Gb2).
    unfold same_box, same_vec.
    split; [|split; [|split]];
      repeat apply List.Forall_cons; try apply List.Forall_nil;
      try assumption.
    + rewrite Ca0, Cb0. apply half_same, fadd_same; assumption.
    + rewrite Ca1, Cb1. apply half_same, fadd_same; assumption.
    + rewrite Ca2, Cb2. apply half_same, fadd_same; assumption.
    + rewrite Sa0, Sb0. apply widened_same, fsub_same; assumption.
    + rewrite Sa1, Sb1. apply widened_same, fsub_same; assumption.
    + rewrite Sa2, Sb2. apply widened_same, fsub_same; assumption.
Qed.

(** The clamp is the widening of the specification: on an extent below the
    threshold it gives the threshold, and otherwise the extent (a NaN
    included). *)
Lemma maximum_widened (d : float) :
  maximum d MIN_SIZE_THRESHOLD = widened d.
Proof.
  unfold maximum, widened.
  change (fgt d MIN_SIZE_THRESHOLD) with (flt MIN_SIZE_THRESHOLD d).
  destruct (isnan d) eqn:Hd.
  - destruct d; try discriminate. reflexivity.
  - destruct (flt MIN_SIZE_THRESHOLD d) eqn:E1, (flt d MIN_SIZE_THRESHOLD) eqn:E2;
      try reflexivity.
    + exfalso. clear Hd. float_order.
    + assert (Ht : isnan MIN_SIZE_THRESHOLD = false) by reflexivity.
      destruct (fle_antisym d MIN_SIZE_THRESHOLD) as [E|(sx & sy & _ & E)].
      * apply fle_total; assumption.
      * apply fle_total; assumption.
      * symmetry. exact E.
      * discriminate E.
Qed.

(** The least and the greatest coordinate of one axis. *)
Lemma axis_least_greatest (axis : vec3 -> float) (v : vec3) (vs : list vec3) :
  (forall w, vnumber w -> isnan (axis (swap12 w)) = false) ->
  Forall vnumber (v :: vs) ->
  least (min_of (axis (swap12 v)) (map axis (map swap12 vs)))
        (map (fun w => axis (swap12 w)) (v :: vs))
  /\ greatest (max_of (axis (swap12 v)) (map axis (map swap12 vs)))
              (map (fun w => axis (swap12 w)) (v :: vs)).
Proof.
  intros Hax HV.
  destruct (build_axis_bounds axis v vs Hax HV) as (B & L & G).
  unfold least, greatest. rewrite !List.Forall_map.
  repeat split; try assumption.
  - eapply List.Forall_impl; [|exact B]. intros w [H _]. exact H.
  - eapply List.Forall_impl; [|exact B]. intros w [_ H]. exact H.
Qed.


End BoundingBoxFacts.

(* ===================================================================== *)
(** * Claims about the bounding-box builder *)
(* ===================================================================== *)

Section BoundingBoxClaims.
Import Np GeometryExtractor Reference Notions.

(** C1, as stated, fails on a vertex with a NaN coordinate: numpy's [min]
    and [max] answer NaN on the axis of that coordinate, and a NaN is not
    the least of the coordinates (no comparison with it holds); of the
    vertices (NaN, 0, 0) and (1, 0, 0) the 'min' and 'max' on the first axis
    are NaN, not 1. *)
Lemma nan_coordinate_is_not_a_minimum :
  axis0 (bmin (_calculate_bounding_box (flatten nan_and_unit_vertex))) = nan
  /\ axis0 (bmax (_calculate_bounding_box (flatten nan_and_unit_vertex))) = nan
  /\ ~ least (axis0 (bmin (_calculate_bounding_box (flatten nan_and_unit_vertex))))
             (map (fun v => axis0 (swap12 v)) nan_and_unit_vertex)
  /\ ~ greatest (axis0 (bmax (_calculate_bounding_box (flatten nan_and_unit_vertex))))
                (map (fun v => axis0 (swap12 v)) nan_and_unit_vertex)
  /\ ~ builds nan_and_unit_vertex
              (_calculate_bounding_box (flatten nan_and_unit_vertex)).
Proof.
  assert (L : ~ least (axis0 (bmin (_calculate_bounding_box
                                      (flatten nan_and_unit_vertex))))
                      (map (fun v => axis0 (swap12 v)) nan_and_unit_vertex)).
  { intros [_ H]. apply Forall_cons in H as [H _]. vm_compute in H. discriminate. }
  split; [vm_compute; reflexivity|]. split; [vm_compute; reflexivity|].
  split; [exact L|]. split.
  - intros [_ H]. apply Forall_cons in H as [H _]. vm_compute in H. discriminate.
  - intros H. unfold builds, nan_and_unit_vertex in H.
    apply Forall_cons in H as [[H _] _]. exact (L H).
Qed.

(** C1, amended.  For every vertex sequence without a NaN coordinate the
    builder returns the box of the reference definition: the default box
    (a cube of side 10 x 0.001 = 0.01 with its minimum corner at the origin)
    on the empty sequence; otherwise, with components 1 and 2 of every
    vertex swapped, 'min' and 'max' are on each axis the least and the
    greatest coordinate of the vertices, 'size' is the elementwise maximum
    of max - min and the threshold, and 'center' is (min + max) / 2, from
    the unclamped minimum and maximum.  The reference definition describes
    no other box: every box that meets it has the numbers of the builder's
    box in every field (a zero may have the other sign).  On the cube
    (0,0,0)-(1,2,3) the maximum is (1,3,2). *)
Theorem calculate_bounding_box_meets_reference (V : list vec3) :
  Forall vnumber V ->
  builds V (_calculate_bounding_box (flatten V))
  /\ (forall box : BoundingBox,
        builds V box -> same_box box (_calculate_bounding_box (flatten V)))
  /\ bmin default_box = (zero, zero, zero)
  /\ size default_box = (lit 0.01, lit 0.01, lit 0.01)
  /\ bmax default_box = (lit 0.01, lit 0.01, lit 0.01)
  /\ center default_box = (lit 0.005, lit 0.005, lit 0.005)
  /\ bmax (_calculate_bounding_box (flatten cube_0_123)) = (one, three, two).
Proof.
  intros HV.
  assert (HB : builds V (_calculate_bounding_box (flatten V)));
    [|split; [exact HB|];
      split; [intros box H; exact (builds_same V _ _ H HB)|];
      repeat split; vm_compute; reflexivity].
  rewrite calculate_bounding_box_flatten.
  destruct V as [|v vs]; [exact default_bbox_is_default_box|].
  assert (A0 : forall w, vnumber w -> isnan (axis0 (swap12 w)) = false)
    by (intros [[x y] z] H; apply H).
  assert (A1 : forall w, vnumber w -> isnan (axis1 (swap12 w)) = false)
    by (intros [[x y] z] H; apply H).
  assert (A2 : forall w, vnumber w -> isnan (axis2 (swap12 w)) = false)
    by (intros [[x y] z] H; apply H).
  destruct (axis_least_greatest axis0 v vs A0 HV) as [L0 G0].
  destruct (axis_least_greatest axis1 v vs A1 HV) as [L1 G1].
  destruct (axis_least_greatest axis2 v vs A2 HV) as [L2 G2].
  unfold builds, box_by_axis. cbn [map bmin bmax center size].
  repeat apply List.Forall_cons; try apply List.Forall_nil;
    cbn [axis0 axis1 axis2 fst snd];
    (split; [assumption|]); (split; [assumption|]);
    (split; [apply maximum_widened|reflexivity]).
Qed.

Lemma calculate_bounding_box_meets_reference_witness :
  Forall vnumber cube_0_123
  /\ builds cube_0_123 (_calculate_bounding_box (flatten cube_0_123)).
Proof.
  assert (H : Forall vnumber cube_0_123).
  { repeat apply List.Forall_cons; try apply List.Forall_nil;
      repeat split; reflexivity. }
  split; [exact H|].
  apply (calculate_bounding_box_meets_reference cube_0_123 H).
Defined.

(** C2, as stated, fails on a vertex with a NaN coordinate: the extent of
    that axis is NaN, the clamp keeps the NaN, the size is not at least the
    threshold, [_is_valid_geometry] answers false and the loop of
    [extract_simple_geometry] skips the product. *)
Lemma nan_vertex_box_is_invalid :
  fge (fst (fst (size (_calculate_bounding_box (flatten [(nan, zero, zero)])))))
      MIN_SIZE_THRESHOLD = false
  /\ _is_valid_geometry (_calculate_bounding_box (flatten [(nan, zero, zero)])) = false
  /\ extract_product ([], 0%Z, []) nan_product = ([], 0%Z, []).
Proof. repeat split; vm_compute; reflexivity. Qed.

(** C2, amended.  For every flat coordinate array whose entries are all
    finite (empty, degenerate and of a length that is no multiple of three
    included), every component of the size of the box is at least the
    threshold, [_is_valid_geometry] answers true on it, and the loop of
    [extract_simple_geometry] does not take the skip branch: it appends the
    record of the product. *)
Theorem finite_vertices_give_valid_box (verts : list float) :
  Forall (fun c => isfinite c = true) verts ->
  Forall (fun s => fge s MIN_SIZE_THRESHOLD = true)
         (vec_to_list (size (_calculate_bounding_box verts)))
  /\ _is_valid_geometry (_calculate_bounding_box verts) = true
  /\ forall (product : Ifc.Product) (elements : list (gmap string pyval))
            (total_processed : Z) (element_type_counts : list (string * Z)),
       Ifc.create_shape product = Ifc.Shape verts ->
       extract_product (elements, total_processed, element_type_counts) product
       = (elements ++ [element_data product (_calculate_bounding_box verts)],
          (total_processed + 1)%Z,
          PyDict.set (Ifc.is_a product)
            (PyDict.get_default (Ifc.is_a product) 0%Z element_type_counts + 1)%Z
            element_type_counts).
Proof.
  intros H.
  pose proof (calculate_bounding_box_valid verts H) as Hs.
  pose proof (proj2 (is_valid_geometry_Forall _) Hs) as Hv.
  split; [exact Hs|]. split; [exact Hv|].
  intros product elements total_processed element_type_counts Hshape.
  unfold extract_product. rewrite Hshape, Hv. reflexivity.
Qed.

Lemma finite_vertices_give_valid_box_witness :
  Forall (fun c => isfinite c = true) [zero; one; two]
  /\ _is_valid_geometry (_calculate_bounding_box [zero; one; two]) = true.
Proof.
  split.
  - repeat constructor.
  - apply (finite_vertices_give_valid_box [zero; one; two]).
    repeat constructor.
Defined.

End BoundingBoxClaims.

(* ===================================================================== *)
(** * Properties of insertion-ordered dicts *)
(* ===================================================================== *)

Section PyDictFacts.
Context {K V : Type} `{EqDecision K}.
Implicit Types (d : list (K * V)) (k : K) (v : V).

Lemma get_set_eq d k v : PyDict.get k (PyDict.set k v d) = Some v.
Proof.
  induction d as [|[k' v'] d IH]; simpl.
  - rewrite decide_True by reflexivity. reflexivity.
  - destruct (decide (k = k')) as [->|Hne]; simpl.
    + rewrite decide_True by reflexivity. reflexivity.
    + rewrite decide_False by exact Hne. exact IH.
Qed.

Lemma get_set_ne d k k' v : k <> k' -> PyDict.get k' (PyDict.set k v d) = PyDict.get k' d.
Proof.
  intros Hne. induction d as [|[k0 v0] d IH]; simpl.
  - rewrite decide_False by congruence. reflexivity.
  - destruct (decide (k = k0)) as [->|Hne0]; simpl.
    + rewrite !decide_False by congruence. reflexivity.
    + destruct (decide (k' = k0)); [reflexivity|exact IH].
Qed.

Lemma get_None_keys d k : PyDict.get k d = None <-> k ∉ PyDict.keys d.
Proof.
  unfold PyDict.keys. induction d as [|[k' v'] d IH]; simpl.
  - split; [intros _; apply not_elem_of_nil|reflexivity].
  - rewrite not_elem_of_cons. destruct (decide (k = k')) as [->|Hne].
    + split; [discriminate|intros [Hk _]; congruence].
    + rewrite IH. tauto.
Qed.

Lemma get_Some_elem d k v : PyDict.get k d = Some v -> (k, v) ∈ d.
Proof.
  induction d as [|[k' v'] d IH]; simpl; [discriminate|].
  destruct (decide (k = k')) as [->|Hne].
  - intros [= ->]. apply elem_of_cons. auto.
  - intros H'. apply elem_of_cons. auto.
Qed.

(** A new key goes last. *)
Lemma set_fresh d k v : k ∉ PyDict.keys d -> PyDict.set k v d = d ++ [(k, v)].
Proof.
  unfold PyDict.keys. induction d as [|[k' v'] d IH]; simpl; intros Hk; [reflexivity|].
  apply not_elem_of_cons in Hk as [Hne Hk].
  rewrite decide_False by exact Hne. rewrite IH by exact Hk. reflexivity.
Qed.

(** A present key keeps its place: the keys do not move. *)
Lemma keys_set_present d k v :
  k ∈ PyDict.keys d -> PyDict.keys (PyDict.set k v d) = PyDict.keys d.
Proof.
  unfold PyDict.keys. induction d as [|[k' v'] d IH]; simpl; intros Hk.
  - apply elem_of_nil in Hk. contradiction.
  - destruct (decide (k = k')) as [->|Hne]; simpl; [reflexivity|].
    apply elem_of_cons in Hk as [Hk|Hk]; [contradiction|].
    rewrite IH by exact Hk. reflexivity.
Qed.

Lemma keys_set d k v :
  PyDict.keys (PyDict.set k v d)
  = if decide (k ∈ PyDict.keys d) then PyDict.keys d else PyDict.keys d ++ [k].
Proof.
  destruct (decide (k ∈ PyDict.keys d)) as [Hin|Hnin].
  - apply keys_set_present, Hin.
  - rewrite set_fresh by exact Hnin. unfold PyDict.keys.
    rewrite map_app. reflexivity.
Qed.

Lemma NoDup_keys_set d k v :
  NoDup (PyDict.keys d) -> NoDup (PyDict.keys (PyDict.set k v d)).
Proof.
  intros Hd. rewrite keys_set. destruct (decide (k ∈ PyDict.keys d)); [exact Hd|].
  apply NoDup_app. split; [exact Hd|]. split.
  - intros x Hx Hx'. apply list_elem_of_singleton in Hx'. subst. contradiction.
  - apply NoDup_singleton.
Qed.

(** Building a dict from items with distinct keys keeps their order. *)
Lemma fold_set_distinct (key : V -> K) (l : list V) :
  forall d,
    NoDup (PyDict.keys d ++ map key l) ->
    fold_left (fun d x => PyDict.set (key x) x d) l d
    = d ++ map (fun x => (key x, x)) l.
Proof.
  induction l as [|x l IH]; intros d Hnd; simpl.
  - rewrite app_nil_r. reflexivity.
  - assert (Hx : key x ∉ PyDict.keys d).
    { apply NoDup_app in Hnd as (_ & Hdis & _). intros Hin.
      apply (Hdis _ Hin). simpl. apply elem_of_cons. auto. }
    rewrite set_fresh by exact Hx. rewrite IH.
    + rewrite <- app_assoc. reflexivity.
    + unfold PyDict.keys. rewrite map_app. simpl. rewrite <- app_assoc. exact Hnd.
Qed.

Lemma get_of_distinct (key : V -> K) (l : list V) (x : V) :
  NoDup (map key l) -> x ∈ l ->
  PyDict.get (key x) (map (fun x => (key x, x)) l) = Some x.
Proof.
  induction l as [|y l IH]; intros Hnd Hx; simpl.
  - apply elem_of_nil in Hx. contradiction.
  - apply NoDup_cons in Hnd as [Hy Hnd].
    apply elem_of_cons in Hx as [->|Hx].
    + rewrite decide_True by reflexivity. reflexivity.
    + destruct (decide (key x = key y)) as [E|_].
      * exfalso. apply Hy. rewrite <- E. apply list_elem_of_fmap_2. exact Hx.
      * apply IH; assumption.
Qed.

Lemma values_of_distinct (key : V -> K) (l : list V) :
  PyDict.values (map (fun x => (key x, x)) l) = l.
Proof.
  unfold PyDict.values. rewrite map_map. simpl. apply map_id.
Qed.

End PyDictFacts.

(* ===================================================================== *)
(** * Levels: elevation, cache and nearest level *)
(* ===================================================================== *)

Section LevelFacts.
Import IFCProcessor Reference.

Lemma level_of_storey_at_height_zero (storey : Ifc.Product) :
  level_of_storey (at_height_zero storey) = level_of_storey storey.
Proof.
  unfold at_height_zero, unresolved, level_of_storey, _get_level_elevation.
  destruct storey as [i g n t r p c ps sh]. simpl.
  destruct p; reflexivity.
Qed.

Lemma get_building_levels_fst (f : Ifc.File) (st : State) :
  fst (get_building_levels f st)
  = Py.py_sorted flt elevation (map level_of_storey (Ifc.IfcBuildingStorey f)).
Proof. reflexivity. Qed.

Lemma get_building_levels_cache (f : Ifc.File) (st : State) :
  levels_data (snd (get_building_levels f st))
  = cache_levels (fst (get_building_levels f st)).
Proof. reflexivity. Qed.

Lemma sorted_levels_perm (f : Ifc.File) (st : State) :
  Permutation (map level_of_storey (Ifc.IfcBuildingStorey f))
              (fst (get_building_levels f st)).
Proof. rewrite get_building_levels_fst. apply py_sorted_perm. Qed.

Lemma lv_id_level_of_storey (storeys : list Ifc.Product) :
  map lv_id (map level_of_storey storeys) = map Ifc.id storeys.
Proof. rewrite map_map. reflexivity. Qed.

Lemma sorted_levels_NoDup (f : Ifc.File) (st : State) :
  NoDup (map Ifc.id (Ifc.IfcBuildingStorey f)) ->
  NoDup (map lv_id (fst (get_building_levels f st))).
Proof.
  intros H. rewrite <- lv_id_level_of_storey in H.
  rewrite <- (Permutation_map lv_id (sorted_levels_perm f st)). exact H.
Qed.

(** With distinct storey ids the cache lists the levels as they were sorted. *)
Lemma cache_levels_distinct (levels : list Level) :
  NoDup (map lv_id levels) ->
  cache_levels levels = map (fun l => (lv_id l, l)) levels.
Proof.
  intros H. unfold cache_levels.
  rewrite (fold_set_distinct lv_id levels []); [reflexivity|exact H].
Qed.

Lemma cache_values_distinct (levels : list Level) :
  NoDup (map lv_id levels) -> PyDict.values (cache_levels levels) = levels.
Proof.
  intros H. rewrite cache_levels_distinct by exact H.
  apply (values_of_distinct lv_id).
Qed.

Lemma sorted_levels_ascending (f : Ifc.File) (st : State) :
  Forall (fun s => isnan (_get_level_elevation s) = false) (Ifc.IfcBuildingStorey f) ->
  sorted_by_elevation (fst (get_building_levels f st)).
Proof.
  intros H. rewrite get_building_levels_fst.
  apply (py_sorted_ascending flt elevation fle (fun e => isnan e = false)).
  - intros a b Ha Hb Hab. apply fle_total; assumption.
  - apply flt_fle.
  - apply fle_trans.
  - induction H; simpl; constructor; auto.
Qed.

(** The nearest-level search, for any cache. *)
Lemma find_closest_level_nonempty (st : State) (z : float) :
  levels_data st <> [] ->
  exists pre best post,
    PyDict.values (levels_data st) = pre ++ best :: post
    /\ _find_closest_level st z = Some (lv_id best)
    /\ Forall (fun l => fle (distance z l) (distance z best) = false) pre
    /\ Forall (fun l => flt (distance z l) (distance z best) = false) post.
Proof.
  intros Hne.
  destruct (py_min_first flt fle (distance z) fle_flt_trans flt_fle flt_not_fle
              (PyDict.values (levels_data st)))
    as (pre & best & post & E & Hmin & Hpre & Hpost).
  - destruct (levels_data st); [congruence|discriminate].
  - exists pre, best, post. split; [exact E|]. split.
    + unfold _find_closest_level. destruct (levels_data st); [congruence|].
      unfold distance in Hmin. rewrite Hmin. reflexivity.
    + split; apply List.Forall_forall; intros l Hl;
        [apply Hpre|apply Hpost]; apply list_elem_of_In; exact Hl.
Qed.

End LevelFacts.

Section LevelClaims.
Import IFCProcessor Reference.

(** C5, as stated, fails when a cached elevation is NaN: [min] keeps its
    first item unless a later key is strictly smaller, and no comparison
    with a NaN holds.  With the storey of NaN elevation cached before the
    one at 0.0, an element at Z = 0.1 gets the level of NaN elevation,
    whose difference to Z is NaN, although the other level is at a
    difference of 0.1. *)
Lemma nan_elevation_level_is_returned :
  map (fun l => (lv_id l, distance (lit 0.1) l))
      (PyDict.values
         (levels_data
            (snd (get_building_levels (example_file storeys_with_nan []) init))))
  = [(31%Z, nan); (32%Z, lit 0.1)]
  /\ _find_closest_level
       (snd (get_building_levels (example_file storeys_with_nan []) init))
       (lit 0.1) = Some 31%Z
  /\ fle nan (lit 0.1) = false.
Proof. repeat split; vm_compute; reflexivity. Qed.

(** C5, amended.  When none of the absolute differences between the
    element's Z and the cached elevations is a NaN, the geometric step
    returns the id of the cached level [best] whose difference is the
    smallest: it is at most the difference of every cached level, and
    strictly less than that of every level before [best] in iteration order
    (of several nearest levels the first wins).  With an empty cache the
    step returns [None] and does not raise, whatever Z is.  With levels at
    0.0, 3.0 and 6.0 an element at Z = 3.4 is assigned the level at 3.0,
    also through [_get_element_level] when the element is in no storey. *)
Theorem find_closest_level_first_nearest (st : State) (z : float) :
  Forall (fun l => isnan (distance z l) = false) (PyDict.values (levels_data st)) ->
  match levels_data st with
  | [] => _find_closest_level st z = None
  | _ :: _ =>
      exists pre best post,
        PyDict.values (levels_data st) = pre ++ best :: post
        /\ _find_closest_level st z = Some (lv_id best)
        /\ Forall (fun l => fle (distance z best) (distance z l) = true)
                  (pre ++ best :: post)
        /\ Forall (fun l => flt (distance z best) (distance z l) = true) pre
  end
  /\ (forall (st0 : State) (z0 : float),
        levels_data st0 = [] -> _find_closest_level st0 z0 = None)
  /\ _find_closest_level
       (snd (get_building_levels (example_file three_storeys []) init))
       (lit 3.4) = Some 12%Z
  /\ _get_element_level
       (snd (get_building_levels (example_file three_storeys []) init))
       floating_column = Some 12%Z
  /\ _find_closest_level init (lit 3.4) = None.
Proof.
  intros Hn.
  split; [|split; [|repeat split; vm_compute; reflexivity]].
  - destruct (levels_data st) as [|kv d] eqn:Hd.
    + unfold _find_closest_level. rewrite Hd. reflexivity.
    + destruct (find_closest_level_nonempty st z)
        as (pre & best & post & E & Hr & Hpre & Hpost).
      { rewrite Hd. discriminate. }
      rewrite Hd in E. rewrite E in Hn.
      apply Forall_app in Hn as [Hn1 Hn2].
      apply Forall_cons in Hn2 as [Hb Hn2].
      exists pre, best, post. split; [exact E|]. split; [exact Hr|]. split.
      * apply Forall_app. split; [|constructor].
        -- rewrite List.Forall_forall in *. intros l Hl.
           specialize (Hpre l Hl). specialize (Hn1 l Hl). simpl in Hpre, Hn1.
           clear -Hpre Hn1 Hb. float_order.
        -- apply fle_refl, Hb.
        -- rewrite List.Forall_forall in *. intros l Hl.
           specialize (Hpost l Hl). specialize (Hn2 l Hl). simpl in Hpost, Hn2.
           apply fle_total; assumption.
      * rewrite List.Forall_forall in *. intros l Hl.
        specialize (Hpre l Hl). specialize (Hn1 l Hl). simpl in Hpre, Hn1.
        clear -Hpre Hn1 Hb. float_order.
  - intros st0 z0 H. unfold _find_closest_level. rewrite H. reflexivity.
Qed.

Lemma find_closest_level_first_nearest_witness :
  Forall (fun l => isnan (distance (lit 3.4) l) = false)
         (PyDict.values
            (levels_data
               (snd (get_building_levels (example_file three_storeys []) init))))
  /\ _find_closest_level
       (snd (get_building_levels (example_file three_storeys []) init))
       (lit 3.4) = Some 12%Z.
Proof.
  assert (H : Forall (fun l => isnan (distance (lit 3.4) l) = false)
                (PyDict.values
                   (levels_data
                      (snd (get_building_levels (example_file three_storeys [])
                              init))))).
  { repeat apply List.Forall_cons; try apply List.Forall_nil;
      vm_compute; reflexivity. }
  split; [exact H|].
  exact (proj1 (proj2 (proj2
           (find_closest_level_first_nearest
              (snd (get_building_levels (example_file three_storeys []) init))
              (lit 3.4) H)))).
Defined.

(** C9.  A storey whose placement is absent, raises or does not resolve
    has elevation 0.0: it is not left out and nothing is raised.  Its level
    is in the list [get_building_levels] returns, with elevation 0.0, the
    cache holds that level under the storey's id, and the levels and the
    processor state are those of the file in which the storey is placed at
    height zero, so that sorting and the nearest-level search treat it as a
    storey at height zero. *)
Theorem unresolved_storey_counts_as_height_zero
  (f : Ifc.File) (st : State) (storey : Ifc.Product) :
  NoDup (map Ifc.id (Ifc.IfcBuildingStorey f)) ->
  storey ∈ Ifc.IfcBuildingStorey f ->
  unresolved storey = true ->
  _get_level_elevation storey = zero
  /\ length (fst (get_building_levels f st)) = length (Ifc.IfcBuildingStorey f)
  /\ level_of_storey storey ∈ fst (get_building_levels f st)
  /\ PyDict.get (Ifc.id storey) (levels_data (snd (get_building_levels f st)))
     = Some (level_of_storey storey)
  /\ elevation (level_of_storey storey) = zero
  /\ get_building_levels
       (with_storeys (map at_height_zero (Ifc.IfcBuildingStorey f)) f) st
     = get_building_levels f st
  /\ forall z : float,
       _find_closest_level
         (snd (get_building_levels
                 (with_storeys (map at_height_zero (Ifc.IfcBuildingStorey f)) f) st)) z
       = _find_closest_level (snd (get_building_levels f st)) z.
Proof.
  intros Hnd Hin Hun.
  assert (Hz : _get_level_elevation storey = zero).
  { unfold unresolved in Hun. unfold _get_level_elevation.
    destruct (Ifc.ObjectPlacement storey); [reflexivity..|discriminate]. }
  assert (Hsame : get_building_levels
                    (with_storeys (map at_height_zero (Ifc.IfcBuildingStorey f)) f) st
                  = get_building_levels f st).
  { unfold get_building_levels. simpl. rewrite map_map.
    rewrite (map_ext _ level_of_storey level_of_storey_at_height_zero).
    reflexivity. }
  assert (Hmem : level_of_storey storey ∈ fst (get_building_levels f st)).
  { rewrite <- (sorted_levels_perm f st). apply list_elem_of_fmap_2. exact Hin. }
  split; [exact Hz|]. split.
  { rewrite <- (Permutation_length (sorted_levels_perm f st)). apply length_map. }
  split; [exact Hmem|]. split.
  { rewrite get_building_levels_cache.
    rewrite cache_levels_distinct by (apply sorted_levels_NoDup, Hnd).
    apply (get_of_distinct lv_id (fst (get_building_levels f st)) (level_of_storey storey)).
    - apply sorted_levels_NoDup, Hnd.
    - exact Hmem. }
  split; [exact Hz|]. split; [exact Hsame|].
  intros z. rewrite Hsame. reflexivity.
Qed.

Lemma unresolved_storey_counts_as_height_zero_witness :
  _get_level_elevation (example_storey 22 "Unplaced" Ifc.PlacementAbsent) = zero
  /\ map lv_id (fst (get_building_levels (example_file storeys_with_unplaced []) init))
     = [23; 22; 21]%Z.
Proof.
  split.
  - apply (unresolved_storey_counts_as_height_zero
             (example_file storeys_with_unplaced []) init
             (example_storey 22 "Unplaced" Ifc.PlacementAbsent)).
    + apply (bool_decide_unpack _). vm_compute. exact I.
    + apply elem_of_cons. right. apply elem_of_cons. left. reflexivity.
    + reflexivity.
  - vm_compute. reflexivity.
Defined.

End LevelClaims.

(* ===================================================================== *)
(** * Properties of the strings the quantity table is keyed by *)
(* ===================================================================== *)

Section StringFacts.
Import Py Reference.

Lemma string_of_uint_no_char (c : ascii) (d : Decimal.uint) :
  not_int_char c -> no_char c (NilEmpty.string_of_uint d).
Proof.
  unfold not_int_char. intros H.
  repeat (apply Forall_cons in H as [? H]).
  induction d; simpl; auto.
Qed.

Lemma str_of_Z_no_char (c : ascii) (z : Z) :
  not_int_char c -> no_char c (str_of_Z z).
Proof.
  intros H. pose proof (string_of_uint_no_char c) as Hu.
  assert (Hz : forall d, no_char c (NilZero.string_of_uint d)).
  { intros d. unfold NilZero.string_of_uint. destruct d; try (apply Hu, H).
    simpl. split; [|exact I]. unfold not_int_char in H.
    apply Forall_cons in H as [_ H]. apply Forall_cons in H as [H0 _]. exact H0. }
  unfold str_of_Z, NilZero.string_of_int. destruct (Z.to_int z) as [d|d].
  - apply Hz.
  - simpl. split; [|apply Hz]. unfold not_int_char in H.
    apply Forall_cons in H as [H0 _]. exact H0.
Qed.

Lemma underscore_not_int_char : not_int_char "_".
Proof. unfold not_int_char. repeat constructor; discriminate. Qed.

Lemma plus_not_int_char : not_int_char "+".
Proof. unfold not_int_char. repeat constructor; discriminate. Qed.

Lemma split_no_sep (c : ascii) (s : string) :
  no_char c s -> split c s = [s].
Proof.
  induction s as [|a s IH]; simpl; [reflexivity|].
  intros [Ha Hs]. rewrite (proj2 (Ascii.eqb_neq a c) Ha).
  rewrite IH by exact Hs. reflexivity.
Qed.

Lemma split_app_sep (c : ascii) (a b : string) :
  no_char c a -> split c (a +:+ String c b) = a :: split c b.
Proof.
  induction a as [|x a IH]; simpl.
  - intros _. rewrite Ascii.eqb_refl. reflexivity.
  - intros [Hx Ha]. rewrite (proj2 (Ascii.eqb_neq x c) Hx).
    rewrite IH by exact Ha. reflexivity.
Qed.

(** [int(str(i)) == i]. *)
Lemma py_int_not_plus (s : string) :
  match s with String c _ => c <> "+"%char | EmptyString => True end ->
  py_int s = option_map Z.of_int (NilZero.int_of_string s).
Proof.
  destruct s as [|c r]; [reflexivity|].
  intros Hc. unfold py_int.
  destruct c as [[] [] [] [] [] [] [] []]; try reflexivity.
  congruence.
Qed.

Lemma py_int_str_of_Z (z : Z) : py_int (str_of_Z z) = Some z.
Proof.
  rewrite py_int_not_plus.
  - unfold str_of_Z. rewrite NilZero.isi.
    + simpl. rewrite DecimalZ.of_to. reflexivity.
    + destruct z; simpl; try discriminate.
      intros [= E]. exact (DecimalPos.Unsigned.to_uint_nonnil _ E).
    + destruct z; simpl; try discriminate.
      intros [= E]. exact (DecimalPos.Unsigned.to_uint_nonnil _ E).
  - pose proof (str_of_Z_no_char "+" z plus_not_int_char) as H.
    destruct (str_of_Z z); [exact I|apply H].
Qed.

Lemma str_of_Z_inj (a b : Z) : str_of_Z a = str_of_Z b -> a = b.
Proof.
  intros E. pose proof (py_int_str_of_Z a) as Ha.
  rewrite E, py_int_str_of_Z in Ha. congruence.
Qed.

Lemma append_assoc (a b c : string) : (a +:+ b) +:+ c = a +:+ (b +:+ c).
Proof.
  induction a as [|x a IH]; [reflexivity|].
  change (String x ((a +:+ b) +:+ c) = String x (a +:+ (b +:+ c))).
  rewrite IH. reflexivity.
Qed.

Lemma rev_string_app (a b acc : string) :
  rev_string (a +:+ b) acc = rev_string b (rev_string a acc).
Proof.
  revert acc. induction a as [|x a IH]; intros acc; simpl; [reflexivity|apply IH].
Qed.

Lemma prefix_empty (s : string) : String.prefix EmptyString s = true.
Proof. destruct s; reflexivity. Qed.

Lemma endswith_count (a : string) : endswith (a +:+ "_count") "_count" = true.
Proof. unfold endswith. rewrite rev_string_app. simpl. apply prefix_empty. Qed.

(** The three parts of a level field. *)
Lemma split_level_key (i : Z) :
  split "_" (IFCProcessor.level_key i) = ["level"; str_of_Z i; "count"].
Proof.
  unfold IFCProcessor.level_key.
  change ("level_" +:+ str_of_Z i +:+ "_count")
    with ("level" +:+ String "_" (str_of_Z i +:+ String "_" "count")).
  rewrite split_app_sep by (simpl; repeat split; discriminate).
  rewrite split_app_sep by (apply str_of_Z_no_char, underscore_not_int_char).
  reflexivity.
Qed.

Lemma level_key_inj (i j : Z) :
  IFCProcessor.level_key i = IFCProcessor.level_key j -> i = j.
Proof.
  intros E. pose proof (split_level_key i) as Hi.
  rewrite E, split_level_key in Hi.
  injection Hi as Hs. symmetry. apply str_of_Z_inj, Hs.
Qed.

Lemma level_key_not_total (i : Z) : IFCProcessor.level_key i <> "total_count".
Proof. unfold IFCProcessor.level_key. simpl. discriminate. Qed.

Lemma level_key_is_level_field (i : Z) :
  startswith (IFCProcessor.level_key i) "level_" = true
  /\ endswith (IFCProcessor.level_key i) "_count" = true.
Proof.
  split; [unfold startswith, IFCProcessor.level_key; simpl; apply prefix_empty|].
  unfold IFCProcessor.level_key. rewrite <- append_assoc.
  apply endswith_count.
Qed.

End StringFacts.

(* ===================================================================== *)
(** * The quantity accumulator *)
(* ===================================================================== *)

Section TableFacts.
Import Py IFCProcessor Reference.
Implicit Types (table : list (string * list (string * Z))) (inner : list (string * Z)).

Local Open Scope Z_scope.

Lemma Forall_set {K V : Type} `{EqDecision K} (P : K * V -> Prop)
  (d : list (K * V)) (k : K) (v : V) :
  Forall P d -> P (k, v) -> Forall P (PyDict.set k v d).
Proof.
  intros Hd Hkv. induction Hd as [|[k' v'] d Hx Hd IH]; simpl.
  - repeat constructor. exact Hkv.
  - destruct (decide (k = k')); constructor; auto.
Qed.

Lemma inner_of_wf table k :
  wf_table table -> wf_inner (PyDict.get_default k [] table).
Proof.
  intros [_ Hall]. unfold PyDict.get_default.
  destruct (PyDict.get k table) as [inner|] eqn:E.
  - apply get_Some_elem in E. rewrite List.Forall_forall in Hall.
    apply (Hall (k, inner)). apply list_elem_of_In. exact E.
  - split; [constructor|constructor].
Qed.

Lemma get_default_nonneg inner f :
  wf_inner inner -> 0 <= PyDict.get_default f 0 inner.
Proof.
  intros [_ Hall]. unfold PyDict.get_default.
  destruct (PyDict.get f inner) as [v|] eqn:E; [|lia].
  apply get_Some_elem in E. rewrite List.Forall_forall in Hall.
  apply list_elem_of_In in E. apply Hall in E as [_ E]. simpl in E. lia.
Qed.

Lemma wf_increment table k f :
  wf_table table -> field_ok f -> wf_table (increment k f table).
Proof.
  intros Hwf Hf. pose proof (inner_of_wf table k Hwf) as Hin.
  destruct Hwf as [Hnd Hall]. unfold increment. split.
  - apply NoDup_keys_set, Hnd.
  - apply Forall_set; [exact Hall|]. simpl. split.
    + apply NoDup_keys_set, Hin.
    + apply Forall_set; [apply Hin|]. simpl. split; [exact Hf|].
      pose proof (get_default_nonneg _ f Hin). lia.
Qed.

Lemma wf_update table k lvl :
  wf_table table -> wf_table (_update_quantity_table k lvl table).
Proof.
  intros Hwf. unfold _update_quantity_table.
  assert (H1 : wf_table (increment k "total_count" table))
    by (apply wf_increment; [exact Hwf|left; reflexivity]).
  destruct lvl as [i|]; [|exact H1].
  destruct (level_truthy (Some i)); [|exact H1].
  apply wf_increment; [exact H1|right; exists i; reflexivity].
Qed.

Lemma wf_accumulate es table : wf_table table -> wf_table (accumulate es table).
Proof.
  revert table. induction es as [|e es IH]; intros table Hwf; simpl; [exact Hwf|].
  apply IH, wf_update, Hwf.
Qed.

Lemma wf_empty : wf_table [].
Proof. split; constructor. Qed.

(** One increment adds one to its field and touches no other count. *)
Lemma count_in_increment table k f k' f' :
  count_in (increment k f table) k' f'
  = count_in table k' f' + (if decide (k = k' /\ f = f') then 1 else 0).
Proof.
  unfold count_in, increment.
  destruct (decide (k = k')) as [<-|Hk].
  - rewrite get_set_eq. unfold PyDict.get_default at 1.
    destruct (decide (f = f')) as [<-|Hf].
    + rewrite get_set_eq. rewrite decide_True by auto.
      unfold PyDict.get_default. destruct (PyDict.get k table); reflexivity.
    + rewrite get_set_ne by exact Hf. rewrite decide_False by tauto.
      unfold PyDict.get_default. destruct (PyDict.get k table); simpl; lia.
  - rewrite get_set_ne by exact Hk. rewrite decide_False by tauto. lia.
Qed.

Lemma count_in_update table k lvl k' f' :
  count_in (_update_quantity_table k lvl table) k' f'
  = count_in table k' f' + contribution k' f' (k, lvl).
Proof.
  unfold _update_quantity_table, contribution, level_truthy. cbn [fst snd].
  destruct lvl as [i|];
    [pose proof (level_key_not_total i);
     destruct (Z.eqb_spec i 0) as [->|Hi]; cbn [negb]|];
    rewrite ?count_in_increment;
    repeat match goal with
           | |- context [decide ?P] => destruct (decide P)
           end;
    try lia; exfalso;
    repeat match goal with
           | H : _ /\ _ |- _ => destruct H
           end;
    subst; try congruence; tauto.
Qed.

(** After a run every count is the number of elements that fed it. *)
Lemma count_in_accumulate es table k f :
  count_in (accumulate es table) k f = count_in table k f + tally k f es.
Proof.
  revert table. induction es as [|[k0 l0] es IH]; intros table; simpl; [lia|].
  rewrite IH. change (fst (k0, l0)) with k0. change (snd (k0, l0)) with l0.
  rewrite count_in_update. lia.
Qed.

Lemma tally_perm k f es1 es2 : Permutation es1 es2 -> tally k f es1 = tally k f es2.
Proof. intros H. induction H; simpl; lia. Qed.

Lemma keys_increment table k f :
  PyDict.keys (increment k f table)
  = if decide (k ∈ PyDict.keys table) then PyDict.keys table
    else PyDict.keys table ++ [k].
Proof. unfold increment. apply keys_set. Qed.

Lemma elem_keys_increment table k f k' :
  k' ∈ PyDict.keys (increment k f table) <-> k' ∈ PyDict.keys table \/ k' = k.
Proof.
  rewrite keys_increment. destruct (decide (k ∈ PyDict.keys table)) as [Hin|Hnin].
  - split; [auto|]. intros [H| ->]; assumption.
  - rewrite elem_of_app, list_elem_of_singleton. reflexivity.
Qed.

Lemma elem_keys_update table k lvl k' :
  k' ∈ PyDict.keys (_update_quantity_table k lvl table)
  <-> k' ∈ PyDict.keys table \/ k' = k.
Proof.
  unfold _update_quantity_table.
  destruct lvl as [i|]; [destruct (level_truthy (Some i))|];
    rewrite ?elem_keys_increment; tauto.
Qed.

Lemma elem_keys_accumulate es table k :
  k ∈ PyDict.keys (accumulate es table)
  <-> k ∈ PyDict.keys table \/ k ∈ map fst es.
Proof.
  revert table. induction es as [|e es IH]; intros table; simpl.
  - rewrite elem_of_nil. tauto.
  - rewrite IH, elem_keys_update, elem_of_cons. tauto.
Qed.

(** In a well-formed table a field is stored exactly when its count is not
    zero. *)
Lemma get_field_of_count table k inner f :
  wf_table table -> PyDict.get k table = Some inner ->
  PyDict.get f inner
  = if count_in table k f =? 0 then None else Some (count_in table k f).
Proof.
  intros Hwf Hk. unfold count_in. rewrite Hk.
  pose proof (inner_of_wf table k Hwf) as Hin.
  unfold PyDict.get_default in Hin at 1. rewrite Hk in Hin.
  unfold PyDict.get_default.
  destruct (PyDict.get f inner) as [v|] eqn:E; [|reflexivity].
  apply get_Some_elem in E. destruct Hin as [_ Hall].
  rewrite List.Forall_forall in Hall. apply list_elem_of_In in E.
  apply Hall in E as [_ E]. simpl in E.
  destruct (Z.eqb_spec v 0); [lia|reflexivity].
Qed.

End TableFacts.

(* ===================================================================== *)
(** * The order of strings *)
(* ===================================================================== *)

Section StringOrder.

Lemma string_compare_lt_trans (a : string) :
  forall b c : string,
    String.compare a b = Lt -> String.compare b c = Lt -> String.compare a c = Lt.
Proof.
  induction a as [|x a IH]; intros [|y b] [|z c]; simpl; try discriminate; auto.
  unfold Ascii.compare.
  destruct (N.compare_spec (N_of_ascii x) (N_of_ascii y)) as [E1|L1|G1];
    try discriminate;
    destruct (N.compare_spec (N_of_ascii y) (N_of_ascii z)) as [E2|L2|G2];
    try discriminate;
    destruct (N.compare_spec (N_of_ascii x) (N_of_ascii z)) as [E3|L3|G3];
    try lia; auto.
  apply IH.
Qed.

Lemma string_compare_refl (a : string) : String.compare a a = Eq.
Proof.
  induction a as [|x a IH]; simpl; [reflexivity|].
  unfold Ascii.compare. rewrite N.compare_refl. exact IH.
Qed.

Lemma string_ltb_trans (a b c : string) :
  String.ltb a b = true -> String.ltb b c = true -> String.ltb a c = true.
Proof.
  unfold String.ltb. intros H1 H2.
  destruct (String.compare a b) eqn:E1; try discriminate.
  destruct (String.compare b c) eqn:E2; try discriminate.
  rewrite (string_compare_lt_trans _ _ _ E1 E2). reflexivity.
Qed.

Lemma string_ltb_irrefl (a : string) : String.ltb a a = false.
Proof. unfold String.ltb. rewrite string_compare_refl. reflexivity. Qed.

Lemma string_ltb_leb (a b : string) : String.ltb a b = true -> String.leb a b = true.
Proof. unfold String.ltb, String.leb. destruct (String.compare a b); auto. Qed.

Lemma string_leb_total (a b : string) :
  String.ltb a b = false -> String.leb b a = true.
Proof.
  unfold String.ltb, String.leb. rewrite (String.compare_antisym b a).
  destruct (String.compare a b); simpl; auto.
Qed.

Lemma string_ltb_total (a b : string) :
  String.ltb a b = false -> a <> b -> String.ltb b a = true.
Proof.
  unfold String.ltb. rewrite (String.compare_antisym b a).
  destruct (String.compare a b) eqn:E; simpl; auto; try discriminate.
  intros _ Hne. apply String.compare_eq_iff in E. contradiction.
Qed.

Lemma string_leb_trans (a b c : string) :
  String.leb a b = true -> String.leb b c = true -> String.leb a c = true.
Proof.
  unfold String.leb. intros H1 H2.
  destruct (String.compare a b) eqn:E1; try discriminate.
  - apply String.compare_eq_iff in E1. subst. exact H2.
  - destruct (String.compare b c) eqn:E2; try discriminate.
    + apply String.compare_eq_iff in E2. subst. rewrite E1. reflexivity.
    + rewrite (string_compare_lt_trans _ _ _ E1 E2). reflexivity.
Qed.

End StringOrder.

(* ===================================================================== *)
(** * Rendering the quantity table *)
(* ===================================================================== *)

Section RenderFacts.
Import Py IFCProcessor Reference.
Implicit Types (table : list (string * list (string * Z))) (inner : list (string * Z)).

Lemma add_level_quantity_total (acc : list (Z * Z)) (v : Z) :
  add_level_quantity (Some acc) ("total_count", v) = Some acc.
Proof. reflexivity. Qed.

Lemma add_level_quantity_level (acc : list (Z * Z)) (i v : Z) :
  add_level_quantity (Some acc) (level_key i, v) = Some (PyDict.set i v acc).
Proof.
  unfold add_level_quantity.
  cbn -[startswith endswith split py_int level_key].
  destruct (level_key_is_level_field i) as [-> ->].
  cbn -[split py_int level_key].
  rewrite split_level_key.
  cbn -[py_int]. rewrite py_int_str_of_Z. reflexivity.
Qed.

(** The level quantities of a row map [i] to what the accumulator stores
    under [level_<i>_count]. *)
Lemma level_quantities_fold inner :
  wf_inner inner ->
  forall acc : list (Z * Z),
    exists lq,
      fold_left add_level_quantity inner (Some acc) = Some lq
      /\ forall i, PyDict.get i lq
                   = match PyDict.get (level_key i) inner with
                     | Some v => Some v
                     | None => PyDict.get i acc
                     end.
Proof.
  intros [Hnd Hall]. unfold PyDict.keys in Hnd.
  induction inner as [|[f v] inner IH]; intros acc; cbn [fold_left].
  - exists acc. auto.
  - simpl in Hnd. apply NoDup_cons in Hnd as [Hf Hnd].
    apply Forall_cons in Hall as [[Hok _] Hall]. simpl in Hok, Hf.
    destruct Hok as [->|[j ->]].
    + rewrite add_level_quantity_total.
      destruct (IH Hnd Hall acc) as (lq & E & Hlq).
      exists lq. split; [exact E|]. intros i. rewrite Hlq.
      cbn [PyDict.get].
      rewrite decide_False by apply level_key_not_total. reflexivity.
    + rewrite add_level_quantity_level.
      destruct (IH Hnd Hall (PyDict.set j v acc)) as (lq & E & Hlq).
      exists lq. split; [exact E|]. intros i. rewrite Hlq.
      cbn [PyDict.get].
      destruct (decide (level_key i = level_key j)) as [Eij|Nij].
      * apply level_key_inj in Eij. subst i.
        assert (Hnone : PyDict.get (level_key j) inner = None)
          by (apply get_None_keys; exact Hf).
        rewrite Hnone. apply get_set_eq.
      * destruct (PyDict.get (level_key i) inner); [reflexivity|].
        apply get_set_ne. intros ->. apply Nij. reflexivity.
Qed.

Lemma row_of_wf (k : string) inner :
  wf_inner inner ->
  exists row,
    row_of (k, inner) = Some row
    /\ row_element_key row = k
    /\ element_type row = List.hd EmptyString (split "_" k)
    /\ unit_of_measure row
       = PyDict.get_default (List.hd EmptyString (split "_" k)) "units" UNIT_MAPPINGS
    /\ total_quantity row = PyDict.get_default "total_count" 0%Z inner
    /\ forall i, PyDict.get i (level_quantities row) = PyDict.get (level_key i) inner.
Proof.
  intros Hwf. destruct (level_quantities_fold inner Hwf []) as (lq & E & Hlq).
  unfold row_of. rewrite E. simpl.
  eexists. split; [reflexivity|]. simpl. repeat split.
  intros i. rewrite Hlq. destruct (PyDict.get (level_key i) inner); reflexivity.
Qed.

Lemma rows_of_wf table :
  Forall (fun kv => wf_inner (snd kv)) table ->
  exists rows,
    mapM row_of table = Some rows
    /\ Forall2 (fun item row => row_of item = Some row) table rows.
Proof.
  intros Hall.
  assert (H : exists rows, Forall2 (fun item row => row_of item = Some row) table rows).
  { induction Hall as [|[k inner] table Hx _ IH].
    - exists []. constructor.
    - destruct IH as (rows & IH).
      destruct (row_of_wf k inner Hx) as (row & E & _).
      exists (row :: rows). constructor; assumption. }
  destruct H as (rows & H). exists rows. split; [|exact H].
  apply mapM_Some_2, H.
Qed.

(** Rendering a well-formed table returns: nothing is raised. *)
Lemma generate_wf (st : State) :
  wf_table (quantity_table st) ->
  exists rows,
    Forall2 (fun item row => row_of item = Some row) (quantity_table st) rows
    /\ generate_quantity_table_data st
       = Some {| table_data := py_sorted String.ltb element_type rows;
                 levels := match quantity_table st with
                           | [] => PyDict.values (levels_data st)
                           | _ => py_sorted flt elevation (PyDict.values (levels_data st))
                           end |}.
Proof.
  intros [_ Hall]. destruct (rows_of_wf _ Hall) as (rows & E & HF).
  exists rows. split; [exact HF|].
  unfold generate_quantity_table_data.
  destruct (quantity_table st) as [|kv table] eqn:Ht.
  - inversion HF. reflexivity.
  - rewrite E. reflexivity.
Qed.

(** ** The run over the products *)

Lemma get_element_level_cache (st1 st2 : State) (p : Ifc.Product) :
  levels_data st1 = levels_data st2 ->
  _get_element_level st1 p = _get_element_level st2 p.
Proof.
  intros E. unfold _get_element_level, _find_closest_level. rewrite E. reflexivity.
Qed.

Lemma process_fold (products : list Ifc.Product) :
  forall (done : list Element) (st0 st : State),
    levels_data st = levels_data st0 ->
    let r := fold_left
               (fun acc element =>
                  let '(processed_elements, st) := acc in
                  let '(element_data, st') := _process_single_element st element in
                  (processed_elements ++ [element_data], st'))
               products (done, st) in
    levels_data (snd r) = levels_data st0
    /\ quantity_table (snd r)
       = accumulate (map (key_and_level st0) products) (quantity_table st)
    /\ map (fun e => (element_key e, level_id e)) (fst r)
       = map (fun e => (element_key e, level_id e)) done
         ++ map (key_and_level st0) products.
Proof.
  induction products as [|p products IH]; intros done st0 st Hl; simpl.
  - rewrite app_nil_r. auto.
  - specialize (IH (done ++ [fst (_process_single_element st p)]) st0
                   (snd (_process_single_element st p)) Hl).
    simpl in IH. destruct IH as (H1 & H2 & H3).
    unfold _process_single_element in *. simpl in *.
    rewrite (get_element_level_cache st st0 p Hl) in *.
    split; [exact H1|]. split; [exact H2|].
    rewrite H3. rewrite map_app. simpl. rewrite <- app_assoc. reflexivity.
Qed.

Lemma process_elements_spec (f : Ifc.File) (st : State) :
  levels_data (snd (process_elements f st)) = levels_data st
  /\ quantity_table (snd (process_elements f st))
     = accumulate
         (map (key_and_level st) (List.filter is_relevant (Ifc.IfcProduct f)))
         (quantity_table st)
  /\ map (fun e => (element_key e, level_id e)) (fst (process_elements f st))
     = map (key_and_level st) (List.filter is_relevant (Ifc.IfcProduct f)).
Proof.
  exact (process_fold (List.filter is_relevant (Ifc.IfcProduct f)) [] st st eq_refl).
Qed.

End RenderFacts.

Section RenderedRows.
Import Py IFCProcessor Reference.
Implicit Types (table : list (string * list (string * Z))) (rows : list Row).

Local Open Scope Z_scope.

Lemma elem_get {K V : Type} `{EqDecision K} (d : list (K * V)) (k : K) (v : V) :
  NoDup (PyDict.keys d) -> (k, v) ∈ d -> PyDict.get k d = Some v.
Proof.
  unfold PyDict.keys. induction d as [|[k' v'] d IH]; simpl; intros Hnd Hin.
  - apply elem_of_nil in Hin. contradiction.
  - apply NoDup_cons in Hnd as [Hk Hnd].
    apply elem_of_cons in Hin as [[= -> ->]|Hin].
    + rewrite decide_True by reflexivity. reflexivity.
    + destruct (decide (k = k')) as [->|_]; [|apply IH; assumption].
      exfalso. apply Hk. apply (list_elem_of_fmap_2 fst _ _ Hin).
Qed.

Lemma keys_get {K V : Type} `{EqDecision K} (d : list (K * V)) (k : K) :
  k ∈ PyDict.keys d -> exists v, PyDict.get k d = Some v.
Proof.
  intros Hk. destruct (PyDict.get k d) as [v|] eqn:E; [eauto|].
  apply get_None_keys in E. contradiction.
Qed.

Lemma rows_keys table rows :
  Forall2 (fun item row => row_of item = Some row) table rows ->
  Forall (fun kv => wf_inner (snd kv)) table ->
  map row_element_key rows = PyDict.keys table.
Proof.
  intros HF. induction HF as [|[k inner] row table rows E HF IH]; intros Hwf.
  - reflexivity.
  - apply Forall_cons in Hwf as [Hx Hwf]. simpl.
    destruct (row_of_wf k inner Hx) as (row' & E' & Hk & _).
    rewrite E in E'. injection E' as <-. rewrite Hk, IH by exact Hwf. reflexivity.
Qed.

Lemma rows_match table rows :
  wf_table table ->
  Forall2 (fun item row => row_of item = Some row) table rows ->
  Forall (row_matches table) rows.
Proof.
  intros Hwf HF. apply List.Forall_forall. intros row Hrow.
  apply list_elem_of_In in Hrow.
  destruct (proj1 (list_elem_of_lookup _ _) Hrow) as [n Hn].
  destruct (Forall2_lookup_r _ _ _ _ _ HF Hn) as ([k inner] & Hitem & E).
  apply list_elem_of_lookup_2 in Hitem.
  pose proof Hwf as [Hnd Hall].
  assert (Hin : wf_inner inner).
  { rewrite List.Forall_forall in Hall. apply (Hall (k, inner)).
    apply list_elem_of_In. exact Hitem. }
  pose proof (elem_get _ _ _ Hnd Hitem) as Hget.
  destruct (row_of_wf k inner Hin) as (row' & E' & Hk & Ht & Hu & Htot & Hlq).
  rewrite E in E'. injection E' as <-.
  unfold row_matches. rewrite Hk. repeat split.
  - apply (list_elem_of_fmap_2 fst _ _ Hitem).
  - exact Ht.
  - rewrite Hu, Ht. reflexivity.
  - rewrite Htot. unfold count_in. rewrite Hget. reflexivity.
  - intros i. rewrite Hlq. apply (get_field_of_count table k inner); assumption.
Qed.

Lemma sorted_rows_by_type rows :
  sorted_by_type (py_sorted String.ltb element_type rows).
Proof.
  apply (py_sorted_ascending String.ltb element_type String.leb (fun _ => True)).
  - intros a b _ _. apply string_leb_total.
  - apply string_ltb_leb.
  - apply string_leb_trans.
  - apply List.Forall_forall. auto.
Qed.

(** Two well-formed tables with the same keys and the same counts render
    the same rows. *)
Lemma same_rows_of_counts table1 table2 rows1 rows2 :
  wf_table table1 -> wf_table table2 ->
  Forall2 (fun item row => row_of item = Some row) table1 rows1 ->
  Forall2 (fun item row => row_of item = Some row) table2 rows2 ->
  (forall k, k ∈ PyDict.keys table1 <-> k ∈ PyDict.keys table2) ->
  (forall k f, count_in table1 k f = count_in table2 k f) ->
  same_rows (py_sorted String.ltb element_type rows1)
            (py_sorted String.ltb element_type rows2).
Proof.
  intros Hwf1 Hwf2 HF1 HF2 Hkeys Hcount.
  pose proof (rows_keys _ _ HF1 (proj2 Hwf1)) as K1.
  pose proof (rows_keys _ _ HF2 (proj2 Hwf2)) as K2.
  pose proof (rows_match _ _ Hwf1 HF1) as M1.
  pose proof (rows_match _ _ Hwf2 HF2) as M2.
  assert (P1 := py_sorted_perm String.ltb element_type rows1).
  assert (P2 := py_sorted_perm String.ltb element_type rows2).
  assert (Hperm : Permutation (PyDict.keys table1) (PyDict.keys table2)).
  { apply NoDup_Permutation; [apply Hwf1|apply Hwf2|exact Hkeys]. }
  assert (Hsame : forall r1 r2,
             row_matches table1 r1 -> row_matches table2 r2 ->
             row_element_key r1 = row_element_key r2 -> same_row r1 r2).
  { intros r1 r2 (_ & T1 & U1 & Q1 & L1) (_ & T2 & U2 & Q2 & L2) E.
    unfold same_row. rewrite E in T1, Q1, L1.
    assert (ET : element_type r1 = element_type r2) by congruence.
    repeat split.
    - exact E.
    - exact ET.
    - rewrite U1, U2, ET. reflexivity.
    - rewrite Q1, Q2. apply Hcount.
    - intros i. rewrite L1, L2, Hcount. reflexivity. }
  assert (Hfind : forall (ta tb : list (string * list (string * Z))) ra rb r,
             map row_element_key ra = PyDict.keys ta ->
             map row_element_key rb = PyDict.keys tb ->
             (forall k, k ∈ PyDict.keys ta -> k ∈ PyDict.keys tb) ->
             r ∈ ra -> exists r', r' ∈ rb /\ row_element_key r = row_element_key r').
  { intros ta tb ra rb r Ka Kb Hsub Hr.
    assert (Hk : row_element_key r ∈ PyDict.keys tb).
    { apply Hsub. rewrite <- Ka. apply (list_elem_of_fmap_2 row_element_key _ _ Hr). }
    rewrite <- Kb in Hk. apply list_elem_of_fmap in Hk as (r' & E & Hr'). eauto. }
  unfold same_rows.
  split; [rewrite <- P1, K1; apply Hwf1|].
  split; [rewrite <- P2, K2; apply Hwf2|].
  split.
  { rewrite <- P1, <- P2.
    rewrite <- (length_map row_element_key rows1), <- (length_map row_element_key rows2).
    rewrite K1, K2. apply Permutation_length, Hperm. }
  rewrite List.Forall_forall in M1, M2.
  split; apply List.Forall_forall; intros r Hr; apply List.Exists_exists;
    apply list_elem_of_In in Hr.
  - rewrite <- P1 in Hr.
    destruct (Hfind table1 table2 rows1 rows2 r K1 K2 (fun k => proj1 (Hkeys k)) Hr)
      as (r' & Hr' & E).
    exists r'. split; [apply list_elem_of_In; rewrite <- P2; exact Hr'|].
    apply Hsame; [apply M1|apply M2|exact E]; apply list_elem_of_In; assumption.
  - rewrite <- P2 in Hr.
    destruct (Hfind table2 table1 rows2 rows1 r K2 K1 (fun k => proj2 (Hkeys k)) Hr)
      as (r' & Hr' & E).
    exists r'. split; [apply list_elem_of_In; rewrite <- P1; exact Hr'|].
    apply Hsame; [apply M1|apply M2|symmetry; exact E];
      apply list_elem_of_In; assumption.
Qed.

End RenderedRows.

(* ===================================================================== *)
(** * Claims about the quantity table *)
(* ===================================================================== *)

Section TableClaims.
Import Py IFCProcessor Reference.
Implicit Types (table : list (string * list (string * Z))).

Local Open Scope Z_scope.

Lemma increment_empty (k f : string) : increment k f [] = [(k, [(f, 1)])].
Proof. reflexivity. Qed.

Lemma increment_head (k f : string) (inner : list (string * Z)) table :
  increment k f ((k, inner) :: table)
  = (k, PyDict.set f (PyDict.get_default f 0 inner + 1) inner) :: table.
Proof.
  unfold increment, PyDict.get_default. simpl.
  rewrite !decide_True by reflexivity. reflexivity.
Qed.

(** C4.  One accumulation step adds exactly 1 to
    [table[key]["total_count"]] and, when a level id is present, exactly 1
    to [table[key]["level_<id>_count"]]; every other count is unchanged.
    The level id is the one [_process_single_element] passes, the result of
    [_get_element_level]: [None] or the id of a building storey, an entity
    instance of the model, and such ids are not 0; so the level id is never
    0 when neither the containing storey nor a cached level has the id 0.
    Accumulating a key K at levels 1, 1, 2 and rendering gives one row, for
    K, with total_quantity 3 and level_quantities {1: 2, 2: 1}. *)
Theorem update_quantity_table_counts (key : string) (lvl : option Z) table :
  lvl <> Some 0 ->
  count_in (_update_quantity_table key lvl table) key "total_count"
  = count_in table key "total_count" + 1
  /\ (forall i : Z,
        lvl = Some i ->
        count_in (_update_quantity_table key lvl table) key (level_key i)
        = count_in table key (level_key i) + 1)
  /\ (forall k' f' : string,
        k' <> key
        \/ (f' <> "total_count" /\ forall i : Z, lvl = Some i -> f' <> level_key i) ->
        count_in (_update_quantity_table key lvl table) k' f'
        = count_in table k' f')
  /\ (forall (st : State) (element : Ifc.Product),
        (forall i : Z, Ifc.get_container element = Ifc.Container true i -> i <> 0) ->
        Forall (fun level => lv_id level <> 0) (PyDict.values (levels_data st)) ->
        _get_element_level st element <> Some 0
        /\ quantity_table (snd (_process_single_element st element))
           = _update_quantity_table
               (element_key (fst (_process_single_element st element)))
               (_get_element_level st element) (quantity_table st))
  /\ (forall K : string,
        exists row,
          generate_quantity_table_data
            {| levels_data := [];
               quantity_table := accumulate [(K, Some 1); (K, Some 1); (K, Some 2)] [] |}
          = Some {| table_data := [row]; levels := [] |}
          /\ row_element_key row = K
          /\ total_quantity row = 3
          /\ level_quantities row = [(1, 2); (2, 1)]).
Proof.
  intros Hlvl.
  split.
  { rewrite count_in_update.
    unfold contribution. cbn [fst snd].
    destruct lvl as [i|]; [pose proof (level_key_not_total i)|];
      repeat match goal with
             | |- context [decide ?P] => destruct (decide P)
             end;
      try lia; exfalso;
      repeat match goal with
             | H : _ /\ _ |- _ => destruct H
             end;
      try congruence; tauto. }
  split.
  { intros i ->. rewrite count_in_update.
    unfold contribution. cbn [fst snd].
    pose proof (level_key_not_total i).
    assert (i <> 0) by congruence.
    repeat match goal with
           | |- context [decide ?P] => destruct (decide P)
           end;
      try lia; exfalso;
      repeat match goal with
             | H : _ /\ _ |- _ => destruct H
             end;
      try congruence; tauto. }
  split.
  { intros k' f' Hother. rewrite count_in_update.
    unfold contribution. cbn [fst snd].
    destruct (decide (key = k')) as [<-|]; [|lia].
    destruct Hother as [Hk|[Hf Hi]]; [congruence|].
    destruct (decide (f' = "total_count")); [congruence|].
    destruct lvl as [i|]; [|lia].
    specialize (Hi i eq_refl).
    destruct (decide (i <> 0 /\ f' = level_key i)) as [[_ E]|]; [congruence|lia]. }
  split.
  { intros st element Hc Hl. split; [|reflexivity].
    unfold _get_element_level.
    destruct (Ifc.get_container element) as [| |[] i] eqn:C;
      try (intros [= ->]; exact (Hc 0 eq_refl eq_refl));
      (destruct (Ifc.ObjectPlacement element) as [| | |z]; try discriminate;
       destruct (levels_data st) as [|kv d] eqn:Hd;
       [unfold _find_closest_level; rewrite Hd; discriminate|];
       destruct (find_closest_level_nonempty st z)
         as (pre & best & post & E & -> & _); [rewrite Hd; discriminate|];
       rewrite Hd in E; rewrite E in Hl; apply Forall_app in Hl as [_ Hl];
       apply Forall_cons in Hl as [Hb _]; congruence). }
  intros K. unfold accumulate. simpl.
  unfold _update_quantity_table. simpl.
  rewrite increment_empty. rewrite !increment_head. simpl.
  eexists. split; [reflexivity|]. simpl. auto.
Qed.

Lemma update_quantity_table_counts_witness :
  Some 1 <> Some 0
  /\ count_in (_update_quantity_table "IfcWall_default" (Some 1) [])
              "IfcWall_default" (level_key 1)
     = count_in [] "IfcWall_default" (level_key 1) + 1.
Proof.
  assert (H : Some 1 <> Some 0) by discriminate.
  split; [exact H|].
  exact (proj1 (proj2 (update_quantity_table_counts "IfcWall_default" (Some 1) [] H))
               1 eq_refl).
Defined.

(** ** Reachable states *)

Lemma reachable_inv (f : Ifc.File) (st : State) :
  reachable f st ->
  wf_table (quantity_table st)
  /\ (levels_data st = []
      \/ levels_data st = cache_levels (fst (get_building_levels f init))).
Proof.
  induction 1 as [|st _ [IHw IHl]|st _ [IHw IHl]].
  - split; [apply wf_empty|left; reflexivity].
  - split; [exact IHw|right; reflexivity].
  - destruct (process_elements_spec f st) as (Hl & Ht & _).
    rewrite Hl, Ht. split; [apply wf_accumulate, IHw|exact IHl].
Qed.

Lemma sorted_levels_not_nan (f : Ifc.File) (st : State) :
  Forall (fun s => isnan (_get_level_elevation s) = false) (Ifc.IfcBuildingStorey f) ->
  Forall (fun l => isnan (elevation l) = false) (fst (get_building_levels f st)).
Proof.
  intros H. rewrite <- (sorted_levels_perm f st).
  induction H; simpl; constructor; auto.
Qed.

(** C7, as stated, fails when a storey's elevation is NaN: after
    [get_building_levels] on a storey at NaN and a storey at 0.0, the
    rendering of the empty accumulator lists the two levels in that order,
    which is not ascending ([nan <= 0.0] is false). *)
Lemma nan_elevation_levels_unsorted :
  exists q,
    generate_quantity_table_data
      (snd (get_building_levels (example_file storeys_with_nan []) init)) = Some q
    /\ table_data q = []
    /\ map lv_id (levels q) = [31; 32]
    /\ map elevation (levels q) = [nan; zero]
    /\ ~ sorted_by_elevation (levels q).
Proof.
  eexists. split; [vm_compute; reflexivity|]. simpl.
  repeat split. intros H. inversion H as [|a l _ Hall]; subst.
  inversion Hall as [|b l' Hab _]; subst. vm_compute in Hab. discriminate.
Qed.

(** C7, amended.  With an empty accumulator the rendering returns an empty
    [table_data] and the cached level list, whatever the cache holds, and
    raises nothing.  In every state a processor reaches on a file whose
    storeys have distinct ids and no NaN elevation, the rendering returns,
    and the levels of the payload are sorted by elevation ascending, the
    accumulator empty or not. *)
Theorem generated_levels_sorted (f : Ifc.File) (st : State) :
  NoDup (map Ifc.id (Ifc.IfcBuildingStorey f)) ->
  Forall (fun s => isnan (_get_level_elevation s) = false) (Ifc.IfcBuildingStorey f) ->
  reachable f st ->
  (forall cache : list (Z * Level),
     generate_quantity_table_data {| levels_data := cache; quantity_table := [] |}
     = Some {| table_data := []; levels := PyDict.values cache |})
  /\ exists q,
       generate_quantity_table_data st = Some q
       /\ sorted_by_elevation (levels q)
       /\ match quantity_table st with
          | [] => table_data q = [] /\ levels q = PyDict.values (levels_data st)
          | _ :: _ => True
          end.
Proof.
  intros Hnd Hnan Hreach. split; [reflexivity|].
  destruct (reachable_inv f st Hreach) as [Hwf Hlev].
  destruct (generate_wf st Hwf) as (rows & HF & E).
  eexists. split; [exact E|]. simpl.
  assert (Hvals : PyDict.values (levels_data st) = []
                  \/ PyDict.values (levels_data st) = fst (get_building_levels f init)).
  { destruct Hlev as [->| ->]; [left; reflexivity|right].
    apply cache_values_distinct, sorted_levels_NoDup, Hnd. }
  assert (Hsorted : sorted_by_elevation (PyDict.values (levels_data st))).
  { destruct Hvals as [->| ->]; [constructor|].
    apply sorted_levels_ascending, Hnan. }
  split.
  - destruct (quantity_table st); [exact Hsorted|].
    apply (py_sorted_ascending flt elevation fle (fun e => isnan e = false)).
    + intros a b Ha Hb Hab. apply fle_total; assumption.
    + apply flt_fle.
    + apply fle_trans.
    + destruct Hvals as [->| ->]; [constructor|].
      apply sorted_levels_not_nan, Hnan.
  - destruct (quantity_table st) eqn:Ht; [|exact I].
    inversion HF; subst. split; reflexivity.
Qed.

Lemma generated_levels_sorted_witness :
  exists q,
    generate_quantity_table_data
      (snd (process_elements (example_file three_storeys wall_door_wall)
              (snd (get_building_levels (example_file three_storeys wall_door_wall) init))))
    = Some q
    /\ sorted_by_elevation (levels q).
Proof.
  destruct (generated_levels_sorted
              (example_file three_storeys wall_door_wall)
              (snd (process_elements (example_file three_storeys wall_door_wall)
                      (snd (get_building_levels
                              (example_file three_storeys wall_door_wall) init)))))
    as (_ & q & E & Hs & _).
  - apply (bool_decide_unpack _). vm_compute. exact I.
  - repeat constructor.
  - apply reach_elements, reach_levels, reach_init.
  - exists q. split; [exact E|exact Hs].
Defined.

End TableClaims.

Section PipelineClaims.
Import Py IFCProcessor Reference.

Lemma process_ifc_file_table (f : Ifc.File) :
  option_map res_quantity_table (process_ifc_file f) = run_table f.
Proof.
  unfold process_ifc_file, run_table.
  destruct (get_building_levels f init) as [levels st1]. simpl.
  destruct (process_elements f st1) as [elements st2]. simpl.
  destruct (generate_quantity_table_data st2); reflexivity.
Qed.

Lemma run_table_ext (f1 f2 : Ifc.File) :
  Ifc.IfcBuildingStorey f1 = Ifc.IfcBuildingStorey f2 ->
  Ifc.IfcProduct f1 = Ifc.IfcProduct f2 ->
  run_table f1 = run_table f2.
Proof.
  intros Hs Hp. unfold run_table, process_elements, get_building_levels.
  rewrite Hs, Hp. reflexivity.
Qed.

(** The table of a run, before rendering: the accumulation of the keys and
    levels of the relevant products, in enumeration order. *)
Lemma run_state (f : Ifc.File) :
  let st1 := snd (get_building_levels f init) in
  let st2 := snd (process_elements f st1) in
  levels_data st2 = levels_data st1
  /\ quantity_table st2
     = accumulate (map (key_and_level st1) (List.filter is_relevant (Ifc.IfcProduct f))) []
  /\ wf_table (quantity_table st2).
Proof.
  intros st1 st2.
  destruct (process_elements_spec f st1) as (Hl & Ht & _).
  split; [exact Hl|]. split; [exact Ht|].
  unfold st2. rewrite Ht. apply wf_accumulate, wf_empty.
Qed.

(** C8.  Two runs of the pipeline, each on a fresh processor, over the
    same storeys and the same products both return a quantity table; when
    the products are enumerated in the same order the two tables are
    identical, and when they are enumerated in different orders the tables
    still have the same rows (same key, type, unit, total and the same
    count at every level), each key in one row.  The rows of either table
    are sorted by element_type. *)
Theorem quantity_table_is_reproducible (f1 f2 : Ifc.File) :
  Ifc.IfcBuildingStorey f1 = Ifc.IfcBuildingStorey f2 ->
  Permutation (Ifc.IfcProduct f1) (Ifc.IfcProduct f2) ->
  exists r1 r2,
    process_ifc_file f1 = Some r1
    /\ process_ifc_file f2 = Some r2
    /\ sorted_by_type (table_data (res_quantity_table r1))
    /\ sorted_by_type (table_data (res_quantity_table r2))
    /\ same_rows (table_data (res_quantity_table r1))
                 (table_data (res_quantity_table r2))
    /\ (Ifc.IfcProduct f1 = Ifc.IfcProduct f2 ->
        res_quantity_table r1 = res_quantity_table r2).
Proof.
  intros Hs Hp.
  destruct (run_state f1) as (Hl1 & Ht1 & Hwf1).
  destruct (run_state f2) as (Hl2 & Ht2 & Hwf2).
  destruct (generate_wf _ Hwf1) as (rows1 & HF1 & E1).
  destruct (generate_wf _ Hwf2) as (rows2 & HF2 & E2).
  pose proof (process_ifc_file_table f1) as P1.
  pose proof (process_ifc_file_table f2) as P2.
  unfold run_table in P1, P2. rewrite E1 in P1. rewrite E2 in P2.
  destruct (process_ifc_file f1) as [r1|]; [|discriminate].
  destruct (process_ifc_file f2) as [r2|]; [|discriminate].
  simpl in P1, P2. injection P1 as Q1. injection P2 as Q2.
  exists r1, r2. split; [reflexivity|]. split; [reflexivity|].
  rewrite Q1, Q2. simpl.
  split; [apply sorted_rows_by_type|]. split; [apply sorted_rows_by_type|].
  assert (Hst : snd (get_building_levels f1 init) = snd (get_building_levels f2 init)).
  { unfold get_building_levels. rewrite Hs. reflexivity. }
  assert (Hpairs :
            Permutation
              (map (key_and_level (snd (get_building_levels f1 init)))
                   (List.filter is_relevant (Ifc.IfcProduct f1)))
              (map (key_and_level (snd (get_building_levels f2 init)))
                   (List.filter is_relevant (Ifc.IfcProduct f2)))).
  { rewrite Hst. apply Permutation_map, list_filter_perm, Hp. }
  split.
  - apply (same_rows_of_counts _ _ rows1 rows2 Hwf1 Hwf2 HF1 HF2).
    + intros k. rewrite Ht1, Ht2, !elem_keys_accumulate.
      rewrite (Permutation_map fst Hpairs). reflexivity.
    + intros k fld. rewrite Ht1, Ht2, !count_in_accumulate.
      rewrite (tally_perm k fld _ _ Hpairs). reflexivity.
  - intros Heq.
    pose proof (run_table_ext f1 f2 Hs Heq) as R.
    unfold run_table in R. rewrite E1, E2 in R.
    injection R as R1 R2. rewrite R1, R2. reflexivity.
Qed.

(** A second [process_elements] on the same processor object goes on
    accumulating: every count doubles.  (The pipeline never does this:
    [process_ifc_file] makes a processor of its own.) *)
Lemma process_elements_again_accumulates (f : Ifc.File) (k fld : string) :
  count_in
    (quantity_table
       (snd (process_elements f
               (snd (process_elements f (snd (get_building_levels f init)))))))
    k fld
  = (2 * count_in
           (quantity_table
              (snd (process_elements f (snd (get_building_levels f init)))))
           k fld)%Z.
Proof.
  destruct (process_elements_spec f (snd (get_building_levels f init)))
    as (Hl1 & Ht1 & _).
  destruct (process_elements_spec f
              (snd (process_elements f (snd (get_building_levels f init)))))
    as (_ & Ht2 & _).
  rewrite Ht2, count_in_accumulate.
  rewrite (map_ext (key_and_level _) (key_and_level (snd (get_building_levels f init)))).
  - rewrite Ht1, count_in_accumulate. unfold count_in. simpl. lia.
  - intros p. unfold key_and_level. f_equal.
    apply get_element_level_cache, Hl1.
Qed.

Lemma quantity_table_is_reproducible_witness :
  exists r1 r2,
    process_ifc_file (example_file three_storeys wall_door_wall) = Some r1
    /\ process_ifc_file (example_file three_storeys wall_wall_door) = Some r2
    /\ same_rows (table_data (res_quantity_table r1))
                 (table_data (res_quantity_table r2)).
Proof.
  destruct (quantity_table_is_reproducible
              (example_file three_storeys wall_door_wall)
              (example_file three_storeys wall_wall_door))
    as (r1 & r2 & E1 & E2 & _ & _ & H & _).
  - reflexivity.
  - simpl. unfold wall_door_wall, wall_wall_door.
    etransitivity; [apply perm_skip, perm_swap|]. apply perm_swap.
  - exists r1, r2. auto.
Defined.

End PipelineClaims.

(* ===================================================================== *)
(** * Element keys *)
(* ===================================================================== *)

Section KeyFacts.
Import Py IFCProcessor Reference.

Lemma filter_bool {A : Type} (f : A -> bool) (l : list A) :
  filter (fun x => f x = true) l = List.filter f l.
Proof.
  induction l as [|x l IH]; [reflexivity|].
  rewrite filter_cons. destruct (decide (f x = true)) as [E|E]; simpl.
  - rewrite E, IH. reflexivity.
  - apply not_true_is_false in E. rewrite E. exact IH.
Qed.

Lemma StronglySorted_list_filter {A : Type} (R : A -> A -> Prop) (f : A -> bool)
  (l : list A) :
  StronglySorted R l -> StronglySorted R (List.filter f l).
Proof.
  intros H. induction H as [|x l Hl IH Hx]; simpl; [constructor|].
  destruct (f x); [|exact IH].
  constructor; [exact IH|].
  rewrite List.Forall_forall in *. intros y Hy.
  apply Hx. apply List.filter_In in Hy. tauto.
Qed.

(** A strictly sorted list is determined by its items. *)
Lemma strictly_sorted_unique {A K : Type} (lt : K -> K -> bool) (key : A -> K)
  (l1 l2 : list A) :
  (forall a, lt a a = false) ->
  (forall a b c, lt a b = true -> lt b c = true -> lt a c = true) ->
  StronglySorted (fun a b => lt (key a) (key b) = true) l1 ->
  StronglySorted (fun a b => lt (key a) (key b) = true) l2 ->
  Permutation l1 l2 -> l1 = l2.
Proof.
  intros Hirr Htr H1. revert l2.
  induction H1 as [|x l1 Hl1 IH Hx]; intros l2 H2 Hp.
  - apply Permutation_nil in Hp. congruence.
  - destruct H2 as [|y l2 Hl2 Hy].
    + symmetry in Hp. apply Permutation_nil in Hp. discriminate.
    + assert (Exy : x = y).
      { assert (Hxin : x ∈ y :: l2) by (rewrite <- Hp; apply elem_of_cons; auto).
        assert (Hyin : y ∈ x :: l1) by (rewrite Hp; apply elem_of_cons; auto).
        apply elem_of_cons in Hxin as [E|Hxin]; [exact E|].
        apply elem_of_cons in Hyin as [E|Hyin]; [congruence|].
        rewrite List.Forall_forall in Hx, Hy.
        apply list_elem_of_In in Hxin, Hyin.
        pose proof (Htr _ _ _ (Hx _ Hyin) (Hy _ Hxin)) as C.
        rewrite Hirr in C. discriminate. }
      subst y. f_equal. apply IH; [exact Hl2|].
      exact (Permutation_cons_inv Hp).
Qed.

Lemma sorted_items_perm (d : gmap string pynum) :
  Permutation (sorted_items d) (map_to_list d).
Proof. symmetry. apply py_sorted_perm. Qed.

(** [sorted(dimensions.items())] is in strictly ascending order of names. *)
Lemma sorted_items_sorted (d : gmap string pynum) : sorted_by_name (sorted_items d).
Proof.
  assert (Hle : StronglySorted (fun a b => String.leb (fst a) (fst b) = true)
                               (sorted_items d)).
  { apply (py_sorted_ascending String.ltb fst String.leb (fun _ => True)).
    - intros a b _ _. apply string_leb_total.
    - apply string_ltb_leb.
    - apply string_leb_trans.
    - apply List.Forall_forall. auto. }
  assert (Hnd : NoDup (map fst (sorted_items d))).
  { rewrite (Permutation_map fst (sorted_items_perm d)).
    apply NoDup_fst_map_to_list. }
  unfold sorted_by_name.
  induction Hle as [|x l Hl IH Hx]; [constructor|].
  simpl in Hnd. apply NoDup_cons in Hnd as [Hxl Hnd].
  constructor; [apply IH, Hnd|].
  rewrite List.Forall_forall in *. intros y Hy.
  specialize (Hx y Hy).
  destruct (String.ltb (fst x) (fst y)) eqn:E; [reflexivity|].
  apply string_leb_total in E.
  pose proof (String.leb_antisym _ _ Hx E) as Eq.
  exfalso. apply Hxl. rewrite Eq.
  apply list_elem_of_fmap_2, list_elem_of_In, Hy.
Qed.

Lemma map_to_list_positive_part (d : gmap string pynum) :
  Permutation (map_to_list (positive_part d))
              (List.filter (fun kv => num_gt0 (snd kv)) (map_to_list d)).
Proof.
  unfold positive_part. rewrite map_filter_alt.
  rewrite map_to_list_to_map.
  - rewrite (filter_bool (fun kv => num_gt0 (snd kv))). reflexivity.
  - apply (NoDup_fmap_2_strong fst).
    + intros [k1 v1] [k2 v2] H1 H2 E. simpl in E. subst k2.
      apply list_elem_of_filter in H1 as [_ H1].
      apply list_elem_of_filter in H2 as [_ H2].
      apply elem_of_map_to_list in H1, H2. congruence.
    + apply NoDup_filter, NoDup_map_to_list.
Qed.

(** Dropping the non-positive entries after sorting, or before. *)
Lemma filter_sorted_items (d : gmap string pynum) :
  List.filter (fun kv => num_gt0 (snd kv)) (sorted_items d)
  = sorted_items (positive_part d).
Proof.
  apply (strictly_sorted_unique String.ltb fst).
  - apply string_ltb_irrefl.
  - apply string_ltb_trans.
  - apply StronglySorted_list_filter, sorted_items_sorted.
  - apply sorted_items_sorted.
  - rewrite (sorted_items_perm (positive_part d)), map_to_list_positive_part.
    apply list_filter_perm, sorted_items_perm.
Qed.

Lemma sorted_items_empty : sorted_items ∅ = [].
Proof. unfold sorted_items. rewrite map_to_list_empty. reflexivity. Qed.

Lemma sorted_items_nil (d : gmap string pynum) : sorted_items d = [] -> d = ∅.
Proof.
  intros E. pose proof (sorted_items_perm d) as P. rewrite E in P.
  apply Permutation_nil in P. apply map_to_list_empty_iff. exact P.
Qed.

Lemma create_element_key_derive (type : string) (d : gmap string pynum) :
  _create_element_key type d = derive type (positive_part d).
Proof.
  unfold _create_element_key, derive.
  destruct (bool_decide (d = ∅)) eqn:Hd.
  - apply bool_decide_eq_true in Hd. subst d.
    unfold positive_part. rewrite map_filter_empty.
    rewrite bool_decide_eq_true_2 by reflexivity. reflexivity.
  - rewrite filter_sorted_items.
    destruct (bool_decide (positive_part d = ∅)) eqn:Hp.
    + apply bool_decide_eq_true in Hp. rewrite Hp, sorted_items_empty. reflexivity.
    + apply bool_decide_eq_false in Hp.
      destruct (sorted_items (positive_part d)) as [|kv l] eqn:E.
      * apply sorted_items_nil in E. contradiction.
      * reflexivity.
Qed.

(** On a mapping of positive numbers, the mapping the specification's
    contract names, the key is the specification's. *)
Lemma create_element_key_positive (type : string) (d : gmap string pynum) :
  map_Forall (fun _ v => num_gt0 v = true) d ->
  _create_element_key type d = derive type d.
Proof.
  intros H. rewrite create_element_key_derive. f_equal.
  unfold positive_part. apply map_filter_id. intros k v Hk. apply (H k v Hk).
Qed.

End KeyFacts.

Section KeyClaims.
Import Py IFCProcessor Reference.

(** C3, as stated, fails on a mapping that is not empty and holds a value
    that is not positive: the entry is left out of the key, and a key with
    no entry left is ["{type}_default"].  (The caller produces such
    mappings: a property of 0.004 is rounded to 0.0.) *)
Lemma nonpositive_dimension_is_dropped :
  _create_element_key "IfcWall" {[ "Width" := NFloat zero ]} = "IfcWall_default"
  /\ derive "IfcWall" {[ "Width" := NFloat zero ]} = "IfcWall_Width:0.0"
  /\ _get_element_dimensions
       (with_psets (Ifc.Psets [("Pset_WallCommon", [("Width", Ifc.PFloat (lit 0.004))])])
                   (example_product 101 "IfcWall" Ifc.ContainerNone))
     = {[ "Width" := NFloat zero ]}
  /\ _create_element_key "IfcWall"
       (<["Width" := NFloat two]> {[ "Length" := NInt (-1) ]}) = "IfcWall_Width:2.0".
Proof. repeat split; vm_compute; reflexivity. Qed.

(** C3, amended.  For every type and every dimensions mapping the key is
    the specification's key of the strictly positive entries of the
    mapping: ["{type}_default"] when no value is positive (the empty mapping
    included), otherwise ["{type}_"] followed by the ["name:value"] pairs of
    the positive entries, in strictly ascending order of their names, joined
    by ["-"].  [derive("IfcWall", {"Width": 2.345, "Length": 1.0})] is
    ["IfcWall_Length:1.0-Width:2.345"], and the key of the empty mapping is
    ["{type}_default"] for every type. *)
Theorem create_element_key_of_positive_entries :
  (forall (type : string) (d : gmap string pynum),
     _create_element_key type d = derive type (positive_part d))
  /\ (forall d : gmap string pynum,
        sorted_by_name (sorted_items d)
        /\ Permutation (sorted_items d) (map_to_list d))
  /\ (forall type : string, _create_element_key type ∅ = type +:+ "_default")
  /\ _create_element_key "IfcWall"
       (<["Width" := NFloat (lit 2.345)]> {[ "Length" := NFloat one ]})
     = "IfcWall_Length:1.0-Width:2.345".
Proof.
  split; [exact create_element_key_derive|].
  split; [intros d; split; [apply sorted_items_sorted|apply sorted_items_perm]|].
  split; [reflexivity|].
  vm_compute. reflexivity.
Qed.

End KeyClaims.

(* ===================================================================== *)
(** * The merge of geometry records with element data *)
(* ===================================================================== *)

Section MergeFacts.
Import Py GeometryExtractor IFCProcessor Main Reference.

Lemma mapping_fold (es : list Element) :
  forall (m : gmap string (string * option Z)) (g : string),
    str_truthy g = true ->
    fold_left
      (fun m element =>
         if str_truthy (global_id element)
         then <[global_id element := (element_key element, level_id element)]> m
         else m)
      es m !! g
    = match last_with_id g es with
      | Some e => Some (element_key e, level_id e)
      | None => m !! g
      end.
Proof.
  induction es as [|e es IH]; intros m g Hg; simpl; [reflexivity|].
  rewrite IH by exact Hg.
  destruct (last_with_id g es) as [e'|]; [reflexivity|].
  destruct (decide (global_id e = g)) as [E|N].
  - rewrite E, Hg. apply lookup_insert_eq.
  - destruct (str_truthy (global_id e)); [|reflexivity].
    apply lookup_insert_ne, N.
Qed.

Lemma mapping_fold_falsy (es : list Element) :
  forall (m : gmap string (string * option Z)) (g : string),
    str_truthy g = false ->
    fold_left
      (fun m element =>
         if str_truthy (global_id element)
         then <[global_id element := (element_key element, level_id element)]> m
         else m)
      es m !! g
    = m !! g.
Proof.
  induction es as [|e es IH]; intros m g Hg; simpl; [reflexivity|].
  rewrite IH by exact Hg.
  destruct (str_truthy (global_id e)) eqn:T; [|reflexivity].
  apply lookup_insert_ne. intros E. congruence.
Qed.

(** The lookup holds, under every non-empty global id, the key and level
    of the last element with that id. *)
Lemma element_mapping_lookup (es : list Element) (g : string) :
  element_mapping es !! g
  = if str_truthy g
    then option_map (fun e => (element_key e, level_id e)) (last_with_id g es)
    else None.
Proof.
  unfold element_mapping. destruct (str_truthy g) eqn:Hg.
  - rewrite mapping_fold by exact Hg.
    destruct (last_with_id g es); [reflexivity|apply lookup_empty].
  - rewrite mapping_fold_falsy by exact Hg. apply lookup_empty.
Qed.

Lemma last_with_id_spec (g : string) (es : list Element) (e : Element) :
  last_with_id g es = Some e -> e ∈ es /\ global_id e = g.
Proof.
  induction es as [|x es IH]; simpl; [discriminate|].
  destruct (last_with_id g es) as [e'|].
  - intros [= ->]. destruct (IH eq_refl) as [H1 H2].
    split; [apply elem_of_cons; auto|exact H2].
  - destruct (decide (global_id x = g)); [|discriminate].
    intros [= ->]. split; [apply elem_of_cons; auto|assumption].
Qed.

Lemma last_with_id_None (g : string) (es : list Element) :
  last_with_id g es = None <-> Forall (fun e => global_id e <> g) es.
Proof.
  induction es as [|x es IH]; simpl.
  - split; [constructor|reflexivity].
  - rewrite Forall_cons. destruct (last_with_id g es) as [e'|].
    + split; [discriminate|]. intros [_ H]. apply IH in H. discriminate.
    + destruct (decide (global_id x = g)).
      * split; [discriminate|]. intros [H _]. contradiction.
      * split; [intros _; split; [assumption|apply IH; reflexivity]|reflexivity].
Qed.

(** [last_with_id] finds the element after which no element has the id. *)
Lemma last_with_id_last (g : string) (es : list Element) (e : Element) :
  last_with_id g es = Some e <->
  exists pre post,
    es = pre ++ e :: post
    /\ global_id e = g
    /\ Forall (fun e' => global_id e' <> g) post.
Proof.
  revert e. induction es as [|x es IH]; intros e; simpl.
  - split; [discriminate|]. intros (pre & post & E & _).
    destruct pre; discriminate.
  - destruct (last_with_id g es) as [e'|] eqn:L.
    + split.
      * intros [= ->]. destruct (proj1 (IH e) eq_refl) as (pre & post & -> & Hg & Hp).
        exists (x :: pre), post. auto.
      * intros (pre & post & E & Hg & Hp).
        destruct pre as [|y pre]; simpl in E; injection E as -> ->.
        -- apply last_with_id_None in Hp. congruence.
        -- apply (proj2 (IH e)). exists pre, post. auto.
    + apply last_with_id_None in L. split.
      * destruct (decide (global_id x = g)) as [Hx|]; [|discriminate].
        intros [= ->]. exists [], es. auto.
      * intros (pre & post & E & Hg & Hp).
        destruct pre as [|y pre]; simpl in E; injection E as -> ->.
        -- rewrite decide_True by exact Hg. reflexivity.
        -- exfalso. rewrite Forall_app, Forall_cons in L.
           destruct L as (_ & L & _). contradiction.
Qed.

Lemma enhance_element_lookup (m : gmap string (string * option Z))
  (r : gmap string pyval) :
  enhance_element m r !! "element_key"
  = Some (VStr (match mapping_lookup m (r !! "id") with
                | Some mapping => fst mapping
                | None => ifc_type_of r +:+ "_default"
                end))
  /\ enhance_element m r !! "level_id"
     = Some (match mapping_lookup m (r !! "id") with
             | Some mapping => level_val (snd mapping)
             | None => VNone
             end).
Proof.
  unfold enhance_element, ifc_type_of.
  destruct (mapping_lookup m (r !! "id")) as [mapping|].
  - split.
    + rewrite lookup_insert_ne by discriminate. apply lookup_insert_eq.
    + apply lookup_insert_eq.
  - split.
    + rewrite lookup_insert_ne by discriminate. apply lookup_insert_eq.
    + apply lookup_insert_eq.
Qed.

Lemma enhance_element_frame (m : gmap string (string * option Z))
  (r : gmap string pyval) (k : string) :
  k <> "element_key" -> k <> "level_id" -> enhance_element m r !! k = r !! k.
Proof.
  intros H1 H2. unfold enhance_element.
  destruct (mapping_lookup m (r !! "id")) as [mapping|];
    rewrite !lookup_insert_ne by congruence; reflexivity.
Qed.

Lemma enhance_element_dom (m : gmap string (string * option Z))
  (r : gmap string pyval) :
  dom (enhance_element m r) = {["level_id"; "element_key"]} ∪ dom r.
Proof.
  unfold enhance_element.
  destruct (mapping_lookup m (r !! "id")) as [mapping|];
    rewrite !dom_insert_L, (assoc_L (∪)); reflexivity.
Qed.

Lemma Forall2_map_same {A B : Type} (P : A -> B -> Prop) (f : A -> B) (l : list A) :
  (forall x, P x (f x)) -> Forall2 P l (map f l).
Proof. intros H. induction l; simpl; constructor; auto. Qed.

End MergeFacts.

Section MergeClaims.
Import Py GeometryExtractor IFCProcessor Main Reference.

(** C6.  The lookup built from the processing pipeline's elements holds
    exactly the non-empty global ids of the elements, each with the key and
    the level id of the last element that has it.  For every geometry
    record, in order: if its id is present in the lookup, the enhanced
    record has the element_key and the level_id found there, which are those
    of that element; if its id is absent (or the record has no id, or one
    that is not a string), the enhanced record has element_key
    ["{ifcType}_default"] and level_id [None].  (A record whose id is a dict
    cannot be looked up at all; the records of the geometry pipeline have a
    string id.) *)
Theorem enhance_attaches_key_and_level
  (geometry_data : GeometryData) (es : list Element) :
  (forall g : string,
     element_mapping es !! g
     = if str_truthy g
       then option_map (fun e => (element_key e, level_id e)) (last_with_id g es)
       else None)
  /\ (forall (g : string) (e : Element),
        last_with_id g es = Some e <->
        exists pre post,
          es = pre ++ e :: post
          /\ global_id e = g
          /\ Forall (fun e' => global_id e' <> g) post)
  /\ Forall2
       (fun r r' =>
          let absent :=
            r' !! "element_key" = Some (VStr (ifc_type_of r +:+ "_default"))
            /\ r' !! "level_id" = Some VNone
            /\ forall t : string,
                 r !! "ifcType" = Some (VStr t) ->
                 r' !! "element_key" = Some (VStr (t +:+ "_default")) in
          match r !! "id" with
          | Some (VStr g) =>
              match element_mapping es !! g with
              | Some found =>
                  r' !! "element_key" = Some (VStr (fst found))
                  /\ r' !! "level_id" = Some (level_val (snd found))
                  /\ exists e,
                       last_with_id g es = Some e
                       /\ found = (element_key e, level_id e)
              | None => absent
              end
          | Some (VBBox _) => True
          | Some VNone | Some (VInt _) | None => absent
          end)
       (elements geometry_data)
       (elements (_enhance_geometry_with_element_data geometry_data es)).
Proof.
  split; [apply element_mapping_lookup|].
  split; [intros g e; apply last_with_id_last|].
  unfold _enhance_geometry_with_element_data. simpl.
  apply Forall2_map_same. intros r.
  destruct (enhance_element_lookup (element_mapping es) r) as [Hk Hl].
  assert (Habsent :
            mapping_lookup (element_mapping es) (r !! "id") = None ->
            enhance_element (element_mapping es) r !! "element_key"
            = Some (VStr (ifc_type_of r +:+ "_default"))
            /\ enhance_element (element_mapping es) r !! "level_id" = Some VNone
            /\ forall t : string,
                 r !! "ifcType" = Some (VStr t) ->
                 enhance_element (element_mapping es) r !! "element_key"
                 = Some (VStr (t +:+ "_default"))).
  { intros E. rewrite E in Hk, Hl. split; [exact Hk|]. split; [exact Hl|].
    intros t Ht. rewrite Hk. unfold ifc_type_of. rewrite Ht. reflexivity. }
  destruct (r !! "id") as [[|g|z|box]|] eqn:Hid; cbn zeta;
    try (apply Habsent; reflexivity); [|exact I].
  cbn [mapping_lookup] in Hk, Hl, Habsent.
  destruct (element_mapping es !! g) as [found|] eqn:E;
    [|apply Habsent; reflexivity].
  split; [exact Hk|]. split; [exact Hl|].
  rewrite element_mapping_lookup in E.
  destruct (str_truthy g); [|discriminate].
  destruct (last_with_id g es) as [e|]; [|discriminate].
  injection E as <-. exists e. split; reflexivity.
Qed.

(** C10.  The merge changes nothing of the payload but the records, and of
    a record nothing but the two fields it sets: ['type'], ['totalElements']
    and ['metadata'] of the payload are unchanged, the records are as many
    and in the same order, and in every record every field other than
    element_key and level_id (type, id, name, boundingBox and ifcType among
    them) keeps its value; the fields of an enhanced record are those of
    the record and the two new ones. *)
Theorem enhance_changes_only_key_and_level
  (geometry_data : GeometryData) (es : list Element) :
  gd_type (_enhance_geometry_with_element_data geometry_data es)
  = gd_type geometry_data
  /\ totalElements (_enhance_geometry_with_element_data geometry_data es)
     = totalElements geometry_data
  /\ metadata (_enhance_geometry_with_element_data geometry_data es)
     = metadata geometry_data
  /\ length (elements (_enhance_geometry_with_element_data geometry_data es))
     = length (elements geometry_data)
  /\ Forall2
       (fun r r' =>
          (forall k : string,
             k <> "element_key" -> k <> "level_id" -> r' !! k = r !! k)
          /\ r' !! "type" = r !! "type"
          /\ r' !! "id" = r !! "id"
          /\ r' !! "name" = r !! "name"
          /\ r' !! "boundingBox" = r !! "boundingBox"
          /\ r' !! "ifcType" = r !! "ifcType"
          /\ dom r' = {["level_id"; "element_key"]} ∪ dom r)
       (elements geometry_data)
       (elements (_enhance_geometry_with_element_data geometry_data es)).
Proof.
  unfold _enhance_geometry_with_element_data. simpl.
  repeat split; try reflexivity.
  - apply length_map.
  - apply Forall2_map_same. intros r.
    split; [intros k; apply enhance_element_frame|].
    repeat split;
      first [apply enhance_element_frame; discriminate | apply enhance_element_dom].
Qed.

End MergeClaims.

(* ===================================================================== *)
(** * A worked example: both pipelines and the merge on one model *)
(* ===================================================================== *)

Section WorkedExample.
Import Py GeometryExtractor IFCProcessor Main Reference.

(** The wall is in both pipelines: its record gets its key and its level.
    The opening is in the geometry pipeline only: its record gets the
    default key and no level.  The door has no shape: it is in the quantity
    table and has no record. *)
Example merge_wall_opening_door :
  option_map
    (fun r =>
       map (fun g => (g !! "id", g !! "element_key", g !! "level_id"))
           (elements
              (_enhance_geometry_with_element_data
                 (extract_simple_geometry (example_file three_storeys wall_opening_door))
                 (res_elements r))))
    (process_ifc_file (example_file three_storeys wall_opening_door))
  = Some [(Some (VStr "0wall"), Some (VStr "IfcWall_Height:3-Width:0.2"),
           Some (VInt 11));
          (Some (VStr "1opening"), Some (VStr "IfcOpeningElement_default"),
           Some VNone)]
  /\ option_map
       (fun r =>
          map (fun row => (row_element_key row, total_quantity row, level_quantities row))
              (table_data (res_quantity_table r)))
       (process_ifc_file (example_file three_storeys wall_opening_door))
     = Some [("IfcDoor_default", 1%Z, [(12%Z, 1%Z)]);
             ("IfcWall_Height:3-Width:0.2", 1%Z, [(11%Z, 1%Z)])].
Proof. split; vm_compute; reflexivity. Qed.

End WorkedExample.

(* ===================================================================== *)
(** * Further properties of the bounding-box builder *)
(* ===================================================================== *)

Section BoundingBoxFurther.
Import Np GeometryExtractor Reference Notions.

Lemma length_flatten (rows : list vec3) :
  length (flatten rows) = (3 * length rows)%nat.
Proof.
  induction rows as [|[[x y] z] rows IH]; [reflexivity|].
  unfold flatten in *. simpl. simpl in IH. rewrite IH. lia.
Qed.

Lemma reshape3_bad_length (flat : list float) :
  (length flat mod 3 <> 0)%nat -> reshape3 flat = None.
Proof.
  intros H. destruct (reshape3 flat) as [rows|] eqn:E; [|reflexivity].
  apply reshape3_inv in E. subst flat. exfalso. apply H.
  rewrite length_flatten, Nat.mul_comm. apply Nat.Div0.mod_mul.
Qed.

Lemma default_bbox_valid : _is_valid_geometry _default_bbox = true.
Proof. vm_compute. reflexivity. Qed.

(** X1.  A coordinate array that numpy cannot reshape to rows of three, or an
    empty one, does not make the product fail or be skipped: its box is the
    default box, the default box passes the validity check, and the loop of
    [extract_simple_geometry] appends the record of the product with that
    box. *)
Theorem malformed_vertices_get_default_box (verts : list float) :
  (length verts mod 3 <> 0)%nat \/ verts = [] ->
  _calculate_bounding_box verts = _default_bbox
  /\ _is_valid_geometry (_calculate_bounding_box verts) = true
  /\ forall (product : Ifc.Product) (elements : list (gmap string pyval))
            (total_processed : Z) (element_type_counts : list (string * Z)),
       Ifc.create_shape product = Ifc.Shape verts ->
       extract_product (elements, total_processed, element_type_counts) product
       = (elements ++ [element_data product _default_bbox],
          (total_processed + 1)%Z,
          PyDict.set (Ifc.is_a product)
            (PyDict.get_default (Ifc.is_a product) 0%Z element_type_counts + 1)%Z
            element_type_counts).
Proof.
  intros H.
  assert (E : _calculate_bounding_box verts = _default_bbox).
  { destruct H as [H| ->]; [|reflexivity].
    apply calculate_bounding_box_malformed, reshape3_bad_length, H. }
  split; [exact E|]. split; [rewrite E; apply default_bbox_valid|].
  intros product elements total_processed element_type_counts Hshape.
  unfold extract_product. rewrite Hshape, E, default_bbox_valid. reflexivity.
Qed.

Lemma malformed_vertices_get_default_box_witness :
  _calculate_bounding_box [one; two; three; six] = _default_bbox.
Proof.
  apply (malformed_vertices_get_default_box [one; two; three; six]).
  left. simpl. lia.
Defined.

(** ** The box encloses the vertices *)

(** X2.  For a non-empty vertex sequence without NaN coordinates, every vertex,
    with its Y and Z swapped, lies between the 'min' and the 'max' of the
    box on each axis, and each coordinate of 'min' and of 'max' is the
    coordinate of some vertex on that axis: the box is the tightest
    axis-aligned box around the swapped vertices. *)
Theorem bounding_box_encloses_vertices (V : list vec3) :
  V <> [] -> Forall vnumber V ->
  Forall (fun v => within (bmin (_calculate_bounding_box (flatten V)))
                          (swap12 v)
                          (bmax (_calculate_bounding_box (flatten V)))) V
  /\ Forall (fun axis : vec3 -> float =>
               In (axis (bmin (_calculate_bounding_box (flatten V))))
                  (map (fun v => axis (swap12 v)) V)
               /\ In (axis (bmax (_calculate_bounding_box (flatten V))))
                     (map (fun v => axis (swap12 v)) V))
            [axis0; axis1; axis2].
Proof.
  intros Hne HV. rewrite calculate_bounding_box_flatten.
  destruct V as [|v vs]; [congruence|]. clear Hne.
  unfold box_by_axis. cbn [map bmin bmax].
  assert (A0 : forall w, vnumber w -> isnan (axis0 (swap12 w)) = false)
    by (intros [[x y] z] H; apply H).
  assert (A1 : forall w, vnumber w -> isnan (axis1 (swap12 w)) = false)
    by (intros [[x y] z] H; apply H).
  assert (A2 : forall w, vnumber w -> isnan (axis2 (swap12 w)) = false)
    by (intros [[x y] z] H; apply H).
  destruct (build_axis_bounds axis0 v vs A0 HV) as (B0 & L0 & G0).
  destruct (build_axis_bounds axis1 v vs A1 HV) as (B1 & L1 & G1).
  destruct (build_axis_bounds axis2 v vs A2 HV) as (B2 & L2 & G2).
  split.
  - rewrite List.Forall_forall in *. intros w Hw.
    unfold within. repeat apply List.Forall_cons; try apply List.Forall_nil;
      cbn [axis0 axis1 axis2 fst snd]; [apply B0|apply B1|apply B2]; exact Hw.
  - repeat apply List.Forall_cons; try apply List.Forall_nil;
      cbn [axis0 axis1 axis2 fst snd]; split; assumption.
Qed.

Lemma bounding_box_encloses_vertices_witness :
  Forall (fun v => within (bmin (_calculate_bounding_box (flatten cube_0_123)))
                          (swap12 v)
                          (bmax (_calculate_bounding_box (flatten cube_0_123))))
         cube_0_123.
Proof.
  apply (bounding_box_encloses_vertices cube_0_123).
  - discriminate.
  - repeat apply List.Forall_cons; try apply List.Forall_nil;
      repeat split; reflexivity.
Defined.

(** ** What the validity check rejects *)

Lemma fge_threshold_not_nan (s : float) :
  isnan s = true \/ fge s MIN_SIZE_THRESHOLD = true ->
  fge s MIN_SIZE_THRESHOLD = negb (isnan s).
Proof.
  intros [H|H].
  - destruct s; try discriminate. reflexivity.
  - rewrite H. destruct s; try reflexivity. discriminate.
Qed.

(** X3.  The validity check never rejects a box of the builder for being small
    (the clamp has seen to that): on every coordinate array, malformed ones
    included, it answers false exactly when a component of the size is a
    NaN. *)
Theorem validity_check_rejects_only_nan (verts : list float) :
  _is_valid_geometry (_calculate_bounding_box verts)
  = negb (existsb isnan (vec_to_list (size (_calculate_bounding_box verts)))).
Proof.
  pose proof (calculate_bounding_box_nan_or_valid verts) as H.
  unfold _is_valid_geometry.
  destruct (size (_calculate_bounding_box verts)) as [[s0 s1] s2].
  cbn [vec_to_list] in *.
  apply Forall_cons in H as [H0 H]. apply Forall_cons in H as [H1 H].
  apply Forall_cons in H as [H2 _].
  cbn [forallb existsb].
  rewrite (fge_threshold_not_nan _ H0), (fge_threshold_not_nan _ H1),
    (fge_threshold_not_nan _ H2).
  destruct (isnan s0), (isnan s1), (isnan s2); reflexivity.
Qed.

End BoundingBoxFurther.

(* ===================================================================== *)
(** * Counting dicts *)
(* ===================================================================== *)

Section CounterFacts.
Import Notions.
Context {K : Type} `{EqDecision K}.
Implicit Types (d : list (K * Z)) (k : K).

Local Open Scope Z_scope.

(** [d[k] = d.get(k, 0) + 1] adds one to the sum of the counts. *)
Lemma sum_values_bump d k :
  sum_values (PyDict.set k (PyDict.get_default k 0 d + 1) d) = sum_values d + 1.
Proof.
  unfold sum_values, PyDict.get_default.
  induction d as [|[k' v'] d IH]; simpl; [lia|].
  destruct (decide (k = k')) as [->|Hne]; simpl; [lia|].
  rewrite IH. lia.
Qed.

(** It adds one to the count of [k] and leaves the other counts. *)
Lemma get_default_bump d k k' :
  PyDict.get_default k' 0 (PyDict.set k (PyDict.get_default k 0 d + 1) d)
  = PyDict.get_default k' 0 d + (if decide (k = k') then 1 else 0).
Proof.
  unfold PyDict.get_default at 1 3.
  destruct (decide (k = k')) as [<-|Hne].
  - rewrite get_set_eq. reflexivity.
  - rewrite get_set_ne by exact Hne. lia.
Qed.

Lemma positive_bump d k :
  Forall (fun kv => 1 <= snd kv) d ->
  Forall (fun kv => 1 <= snd kv) (PyDict.set k (PyDict.get_default k 0 d + 1) d).
Proof.
  intros H. apply Forall_set; [exact H|]. simpl.
  unfold PyDict.get_default. destruct (PyDict.get k d) as [v|] eqn:E; [|lia].
  apply get_Some_elem in E. rewrite List.Forall_forall in H.
  apply list_elem_of_In in E. apply H in E. simpl in E. lia.
Qed.

End CounterFacts.

(* ===================================================================== *)
(** * The geometry payload *)
(* ===================================================================== *)

Section PayloadFacts.
Import Np GeometryExtractor Reference Notions.

Local Open Scope Z_scope.

Lemma omap_cons {A B : Type} (f : A -> option B) (x : A) (l : list A) :
  omap f (x :: l) = match f x with Some y => y :: omap f l | None => omap f l end.
Proof. reflexivity. Qed.

Lemma ifc_type_of_element_data (product : Ifc.Product) (bbox : BoundingBox) :
  ifc_type_of (element_data product bbox) = Ifc.is_a product.
Proof. reflexivity. Qed.

(** The loop over the products with a representation, as a pass over all
    products. *)
Lemma extract_fold (products : list Ifc.Product) :
  forall (elements : list (gmap string pyval)) (n : Z) (counts : list (string * Z)),
    fold_left extract_product
      (filter (fun p => Ifc.Representation p = true) products) (elements, n, counts)
    = (elements ++ omap extracted_record products,
       n + Z.of_nat (length (omap extracted_record products)),
       fold_left count_record (omap extracted_record products) counts).
Proof.
  induction products as [|p products IH]; intros elements n counts.
  - simpl. rewrite app_nil_r. f_equal. f_equal. lia.
  - rewrite filter_cons, omap_cons.
    destruct (Ifc.Representation p) eqn:R.
    + assert (Hp : extracted_record p
                   = match Ifc.create_shape p with
                     | Ifc.Shape verts =>
                         if _is_valid_geometry (_calculate_bounding_box verts)
                         then Some (element_data p (_calculate_bounding_box verts))
                         else None
                     | Ifc.ShapeRaises | Ifc.ShapeEmpty => None
                     end)
        by (unfold extracted_record; rewrite R; reflexivity).
      rewrite Hp, decide_True by reflexivity. cbn [fold_left].
      unfold extract_product at 2.
      destruct (Ifc.create_shape p) as [| |verts]; try apply IH.
      destruct (_is_valid_geometry (_calculate_bounding_box verts)); cbn [negb].
      * rewrite IH. cbn [length fold_left]. rewrite <- app_assoc.
        unfold count_record at 3. rewrite ifc_type_of_element_data.
        f_equal. f_equal. lia.
      * apply IH.
    + assert (Hp : extracted_record p = None)
        by (unfold extracted_record; rewrite R; reflexivity).
      rewrite Hp, decide_False by discriminate. apply IH.
Qed.

Lemma extracted_length_le (products : list Ifc.Product) :
  (length (omap extracted_record products)
   <= length (filter (fun p => Ifc.Representation p = true) products))%nat.
Proof.
  induction products as [|p products IH]; [reflexivity|].
  rewrite filter_cons, omap_cons. unfold extracted_record at 1.
  destruct (Ifc.Representation p) eqn:R.
  - rewrite decide_True by reflexivity.
    destruct (Ifc.create_shape p) as [| |verts]; simpl; try lia.
    destruct (_is_valid_geometry _); simpl; lia.
  - rewrite decide_False by discriminate. exact IH.
Qed.

Lemma filter_has_ifc_type (t : string) (l : list Ifc.Product) :
  List.filter (fun r => bool_decide (ifc_type_of r = t)) (omap extracted_record l)
  = List.filter (has_ifc_type t) (omap extracted_record l).
Proof.
  induction l as [|p l IH]; [reflexivity|]. rewrite omap_cons.
  destruct (extracted_record p) as [r|] eqn:Hr; [|exact IH].
  cbn [List.filter]. rewrite IH.
  unfold extracted_record in Hr.
  destruct (Ifc.Representation p); [|discriminate].
  destruct (Ifc.create_shape p) as [| |verts]; try discriminate.
  destruct (_is_valid_geometry _); [|discriminate].
  injection Hr as <-. reflexivity.
Qed.

Lemma count_record_fold (recs : list (gmap string pyval)) :
  forall counts : list (string * Z),
    NoDup (PyDict.keys counts) ->
    Forall (fun kv => 1 <= snd kv) counts ->
    let counts' := fold_left count_record recs counts in
    NoDup (PyDict.keys counts')
    /\ Forall (fun kv => 1 <= snd kv) counts'
    /\ sum_values counts' = sum_values counts + Z.of_nat (length recs)
    /\ forall t : string,
         PyDict.get_default t 0 counts'
         = PyDict.get_default t 0 counts
           + count_if (fun r => bool_decide (ifc_type_of r = t)) recs.
Proof.
  induction recs as [|r recs IH]; intros counts Hnd Hpos; cbn [fold_left].
  - repeat split; try assumption; [simpl; lia|].
    intros t. unfold count_if. simpl. lia.
  - destruct (IH (count_record counts r)) as (H1 & H2 & H3 & H4).
    + apply NoDup_keys_set, Hnd.
    + apply positive_bump, Hpos.
    + repeat split; try assumption.
      * rewrite H3. unfold count_record. rewrite sum_values_bump.
        cbn [length]. lia.
      * intros t. rewrite H4. unfold count_record at 1.
        rewrite get_default_bump. unfold count_if. cbn [List.filter].
        destruct (decide (ifc_type_of r = t)) as [E|N].
        -- rewrite bool_decide_eq_true_2 by exact E. cbn [length]. lia.
        -- rewrite bool_decide_eq_false_2 by exact N. lia.
Qed.

(** X4.  The payload lists one record per product that has a representation, a
    shape with geometry and a box that passes the validity check, in the
    order of the file; a product that is skipped, or whose shape raises,
    changes nothing for the others. *)
Theorem extract_simple_geometry_elements (f : Ifc.File) :
  elements (extract_simple_geometry f) = omap extracted_record (Ifc.IfcProduct f)
  /\ Forall2 (fun product r =>
                r !! "id" = Some (VStr (Ifc.GlobalId product))
                /\ r !! "ifcType" = Some (VStr (Ifc.is_a product))
                /\ exists verts,
                     Ifc.create_shape product = Ifc.Shape verts
                     /\ r !! "boundingBox" = Some (VBBox (_calculate_bounding_box verts)))
             (List.filter (fun p => bool_decide (is_Some (extracted_record p)))
                          (Ifc.IfcProduct f))
             (elements (extract_simple_geometry f)).
Proof.
  assert (E : elements (extract_simple_geometry f)
              = omap extracted_record (Ifc.IfcProduct f)).
  { unfold extract_simple_geometry. rewrite extract_fold. reflexivity. }
  split; [exact E|]. rewrite E. clear E.
  induction (Ifc.IfcProduct f) as [|p products IH]; [constructor|].
  rewrite omap_cons. cbn [List.filter].
  destruct (extracted_record p) as [r|] eqn:Hr.
  - rewrite bool_decide_eq_true_2 by eauto. constructor; [|exact IH].
    unfold extracted_record in Hr.
    destruct (Ifc.Representation p); [|discriminate].
    destruct (Ifc.create_shape p) as [| |verts]; try discriminate.
    destruct (_is_valid_geometry _); [|discriminate].
    injection Hr as <-. repeat split. exists verts. split; reflexivity.
  - rewrite bool_decide_eq_false_2 by (intros [x Hx]; discriminate). exact IH.
Qed.

(** X5.  The counts of the payload agree with its records: ['totalElements'] and
    ['processed'] are both the number of records, at most ['withGeometry'],
    itself at most ['totalInFile']; ['elementTypes'] holds, for every IFC
    type, the number of records of that type (no entry for a type without
    record, no type twice), so its counts add up to the number of records. *)
Theorem extract_simple_geometry_counts (f : Ifc.File) :
  totalElements (extract_simple_geometry f)
  = Z.of_nat (length (elements (extract_simple_geometry f)))
  /\ processed (metadata (extract_simple_geometry f))
     = totalElements (extract_simple_geometry f)
  /\ processed (metadata (extract_simple_geometry f))
     <= withGeometry (metadata (extract_simple_geometry f))
  /\ withGeometry (metadata (extract_simple_geometry f))
     <= totalInFile (metadata (extract_simple_geometry f))
  /\ totalInFile (metadata (extract_simple_geometry f))
     = Z.of_nat (length (Ifc.IfcProduct f))
  /\ NoDup (PyDict.keys (elementTypes (metadata (extract_simple_geometry f))))
  /\ Forall (fun kv => 1 <= snd kv)
            (elementTypes (metadata (extract_simple_geometry f)))
  /\ sum_values (elementTypes (metadata (extract_simple_geometry f)))
     = totalElements (extract_simple_geometry f)
  /\ forall t : string,
       PyDict.get_default t 0 (elementTypes (metadata (extract_simple_geometry f)))
       = count_if (has_ifc_type t) (elements (extract_simple_geometry f)).
Proof.
  unfold extract_simple_geometry. rewrite extract_fold. cbn.
  destruct (count_record_fold (omap extracted_record (Ifc.IfcProduct f)) [])
    as (H1 & H2 & H3 & H4); [constructor|constructor|].
  split; [reflexivity|]. split; [reflexivity|].
  split; [apply inj_le, extracted_length_le|].
  split; [apply inj_le, length_filter|].
  split; [reflexivity|].
  split; [exact H1|]. split; [exact H2|]. split; [exact H3|].
  intros t. rewrite H4. unfold PyDict.get_default. simpl.
  unfold count_if.
  rewrite filter_has_ifc_type. reflexivity.
Qed.

End PayloadFacts.

(* ===================================================================== *)
(** * Stability of [sorted] *)
(* ===================================================================== *)

Section SortStability.
Import Reference.
Context {A K : Type} (lt le : K -> K -> bool) (key : A -> K) (ok : K -> Prop).
Hypothesis le_total : forall a b, ok a -> ok b -> lt a b = false -> le b a = true.
Hypothesis lt_le : forall a b, lt a b = true -> le a b = true.
Hypothesis le_trans : forall a b c, le a b = true -> le b c = true -> le a c = true.
Hypothesis lt_le_trans : forall a b c, lt a b = true -> le b c = true -> lt a c = true.
Hypothesis le_not_lt : forall a b, le a b = true -> lt b a = false.

(** A class of items no two of which are strictly ordered. *)
Context (P : A -> bool).
Hypothesis P_class : forall a b, P a = true -> P b = true -> lt (key a) (key b) = false.

Lemma filter_none (l : list A) :
  Forall (fun z => P z = false) l -> List.filter P l = [].
Proof.
  intros H. induction H as [|z l Hz _ IH]; simpl; [reflexivity|].
  rewrite Hz. exact IH.
Qed.

Lemma binary_insert_filter_out (a : list A) (x : A) :
  P x = false ->
  List.filter P (Py.binary_insert lt key a x) = List.filter P a.
Proof.
  intros Hx. unfold Py.binary_insert.
  set (k := Py.bisect lt key (length a) x a 0 (length a)).
  rewrite List.filter_app. cbn [List.filter]. rewrite Hx.
  rewrite <- List.filter_app, take_drop. reflexivity.
Qed.

Lemma binary_insert_filter_in (a : list A) (x : A) :
  ascending le key a -> P x = true ->
  List.filter P (Py.binary_insert lt key a x) = List.filter P a ++ [x].
Proof.
  intros Ha Hx. unfold Py.binary_insert.
  destruct (bisect_split_all lt key
              (fun _ => True) (fun z => lt (key x) (key z) = true) x a)
    as [_ HR].
  - intros p y Hy E. rewrite (drop_S _ _ _ Hy).
    destruct (ascending_lookup key le a p y Ha Hy) as [_ H].
    constructor; [exact E|].
    eapply Forall_impl; [exact H|]. intros z Hz. simpl in Hz.
    exact (lt_le_trans _ _ _ E Hz).
  - intros p y _ _. apply Forall_forall. trivial.
  - set (k := Py.bisect lt key (length a) x a 0 (length a)) in *.
    assert (Hnone : List.filter P (drop k a) = []).
    { apply filter_none. eapply Forall_impl; [exact HR|].
      intros z Hz. simpl in Hz. destruct (P z) eqn:Pz; [|reflexivity].
      rewrite (P_class x z Hx Pz) in Hz. discriminate. }
    assert (Ea : List.filter P a = List.filter P (take k a)).
    { rewrite <- (take_drop k a) at 1.
      rewrite List.filter_app, Hnone, app_nil_r. reflexivity. }
    rewrite Ea, List.filter_app. cbn [List.filter]. rewrite Hx, Hnone.
    reflexivity.
Qed.

(** A descending run has at most one item of the class, so that reversing
    it keeps the items of the class in their order. *)
Lemma descending_run_chain (l : list A) :
  forall prev : A,
    StronglySorted (fun a b => lt (key b) (key a) = true)
                   (prev :: fst (Py.descending_run lt key prev l)).
Proof.
  induction l as [|x r IH]; intros prev; simpl; [repeat constructor|].
  destruct (lt (key x) (key prev)) eqn:E; [|repeat constructor].
  specialize (IH x).
  destruct (Py.descending_run lt key x r) as [run rest]. cbn [fst] in *.
  constructor; [exact IH|].
  constructor; [exact E|].
  inversion IH as [|? ? _ Hall]; subst.
  eapply Forall_impl; [exact Hall|]. intros z Hz. simpl in Hz.
  exact (lt_le_trans _ _ _ Hz (lt_le _ _ E)).
Qed.

Lemma filter_chain_rev (l : list A) :
  StronglySorted (fun a b => lt (key b) (key a) = true) l ->
  List.filter P (rev l) = List.filter P l.
Proof.
  intros H. rewrite List.filter_rev.
  induction H as [|z l _ IH Hall]; [reflexivity|].
  cbn [List.filter]. destruct (P z) eqn:Pz; [|exact IH].
  rewrite filter_none; [reflexivity|].
  eapply Forall_impl; [exact Hall|]. intros w Hw. simpl in Hw.
  destruct (P w) eqn:Pw; [|reflexivity].
  rewrite (P_class w z Pw Pz) in Hw. discriminate.
Qed.

Lemma count_run_stable (l : list A) :
  List.filter P (fst (Py.count_run lt key l) ++ snd (Py.count_run lt key l))
  = List.filter P l.
Proof.
  destruct l as [|x [|y r]]; [reflexivity..|].
  unfold Py.count_run. destruct (lt (key y) (key x)) eqn:E.
  - pose proof (descending_run_app lt key r y) as H.
    pose proof (descending_run_chain r y) as C.
    destruct (Py.descending_run lt key y r) as [run rest]. cbn [fst snd] in *.
    rewrite List.filter_app, filter_chain_rev.
    + rewrite <- List.filter_app, <- H. reflexivity.
    + constructor; [exact C|]. constructor; [exact E|].
      inversion C as [|? ? _ Hall]; subst.
      eapply Forall_impl; [exact Hall|]. intros z Hz. simpl in Hz.
      exact (lt_le_trans _ _ _ Hz (lt_le _ _ E)).
  - pose proof (ascending_run_app lt key r y) as H.
    destruct (Py.ascending_run lt key y r) as [run rest]. cbn [fst snd] in *.
    rewrite <- H. reflexivity.
Qed.

Lemma fold_binary_insert_stable (rest : list A) :
  forall run : list A,
    Forall (fun y => ok (key y)) rest -> Forall (fun y => ok (key y)) run ->
    ascending le key run ->
    List.filter P (fold_left (Py.binary_insert lt key) rest run)
    = List.filter P run ++ List.filter P rest.
Proof.
  induction rest as [|x rest IH]; intros run Hrest Hrun Hs; simpl.
  - rewrite app_nil_r. reflexivity.
  - apply Forall_cons in Hrest as [Hx Hrest].
    rewrite IH.
    + destruct (P x) eqn:Px.
      * rewrite binary_insert_filter_in by assumption.
        rewrite <- app_assoc. reflexivity.
      * rewrite binary_insert_filter_out by assumption. reflexivity.
    + exact Hrest.
    + rewrite <- binary_insert_perm. constructor; assumption.
    + apply (binary_insert_ascending lt key le ok); assumption.
Qed.

(** Sorting keeps the items of such a class in the order they had. *)
Lemma py_sorted_stable (l : list A) :
  Forall (fun y => ok (key y)) l ->
  List.filter P (Py.py_sorted lt key l) = List.filter P l.
Proof.
  intros Hl. unfold Py.py_sorted.
  pose proof (count_run_ascending lt key le ok le_total lt_le le_trans l Hl) as Hs.
  destruct (count_run_ok lt key _ l Hl) as [H1 H2].
  pose proof (count_run_stable l) as Hc.
  destruct (Py.count_run lt key l) as [run rest]. cbn [fst snd] in *.
  rewrite fold_binary_insert_stable by assumption.
  rewrite <- List.filter_app. exact Hc.
Qed.

(** ** Sorting a sorted list *)

Lemma ascending_run_all (l : list A) :
  forall prev : A,
    ascending le key (prev :: l) -> Py.ascending_run lt key prev l = (l, []).
Proof.
  induction l as [|x r IH]; intros prev H; simpl; [reflexivity|].
  inversion H as [|? ? Hs Hall]; subst.
  apply Forall_cons in Hall as [Hx _].
  rewrite (le_not_lt _ _ Hx), (IH x Hs). reflexivity.
Qed.

(** A list in ascending order is returned as it is. *)
Lemma py_sorted_ascending_id (l : list A) :
  ascending le key l -> Py.py_sorted lt key l = l.
Proof.
  intros H. unfold Py.py_sorted.
  destruct l as [|x [|y r]]; [reflexivity..|].
  unfold Py.count_run.
  inversion H as [|? ? Hs Hall]; subst.
  apply Forall_cons in Hall as [Hy _].
  rewrite (le_not_lt _ _ Hy), (ascending_run_all r y Hs). reflexivity.
Qed.

End SortStability.

Section Float64Equality.

Lemma feq_spec (x y : float) :
  feq x y = true <-> fle x y = true /\ fle y x = true.
Proof.
  unfold feq, fle, SFeqb, SFleb, SFcompare.
  destruct x as [sx|sx| |sx mx ex], y as [sy|sy| |sy my ey]; simpl;
    try destruct sx; try destruct sy; simpl;
    try (split; [intros; try discriminate; split; reflexivity
                | intros [? ?]; try discriminate; reflexivity]);
    change (Pos.compare_cont Eq mx my) with (Pos.compare mx my);
    change (Pos.compare_cont Eq my mx) with (Pos.compare my mx);
    rewrite (Z.compare_antisym ex ey), (Pos.compare_antisym mx my);
    destruct (Z.compare ex ey), (Pos.compare mx my); simpl;
    (split; [intros; try discriminate; split; reflexivity
            | intros [? ?]; try discriminate; reflexivity]).
Qed.

Lemma feq_class (e a b : float) :
  feq a e = true -> feq b e = true -> flt a b = false.
Proof.
  rewrite !feq_spec. intros [H1 H2] [H3 H4]. float_order.
Qed.

Lemma flt_fle_trans (a b c : float) :
  flt a b = true -> fle b c = true -> flt a c = true.
Proof. intros. float_order. Qed.

Lemma fle_not_flt (a b : float) : fle a b = true -> flt b a = false.
Proof. intros. float_order. Qed.

End Float64Equality.

(* ===================================================================== *)
(** * Further properties of the levels *)
(* ===================================================================== *)

Section LevelsFurther.
Import Py IFCProcessor Reference Notions.

(** X8.  When no elevation is a NaN, [get_building_levels] returns one level
    per storey, in ascending order of elevation, the levels of equal
    elevation in the order of their storeys in the file (the sort is
    stable), and leaves the quantity table alone. *)
Theorem get_building_levels_sorts_stably (f : Ifc.File) (st : State) :
  Forall (fun s => isnan (_get_level_elevation s) = false) (Ifc.IfcBuildingStorey f) ->
  Permutation (map level_of_storey (Ifc.IfcBuildingStorey f))
              (fst (get_building_levels f st))
  /\ length (fst (get_building_levels f st)) = length (Ifc.IfcBuildingStorey f)
  /\ sorted_by_elevation (fst (get_building_levels f st))
  /\ (forall e : float,
        List.filter (fun l => feq (elevation l) e) (fst (get_building_levels f st))
        = List.filter (fun l => feq (elevation l) e)
                      (map level_of_storey (Ifc.IfcBuildingStorey f)))
  /\ quantity_table (snd (get_building_levels f st)) = quantity_table st.
Proof.
  intros Hnan.
  split; [apply sorted_levels_perm|].
  split.
  { rewrite <- (Permutation_length (sorted_levels_perm f st)). apply length_map. }
  split; [apply sorted_levels_ascending, Hnan|].
  split; [|reflexivity].
  intros e. rewrite get_building_levels_fst.
  apply (py_sorted_stable flt fle elevation (fun x => isnan x = false)).
  - intros a b Ha Hb Hab. apply fle_total; assumption.
  - apply flt_fle.
  - apply fle_trans.
  - apply flt_fle_trans.
  - intros a b. apply (feq_class e).
  - clear -Hnan. induction Hnan; simpl; constructor; auto.
Qed.

Lemma get_building_levels_sorts_stably_witness :
  map lv_id (fst (get_building_levels
                    (example_file (storeys_with_unplaced ++ three_storeys) []) init))
  = [23; 22; 11; 21; 12; 13]%Z
  /\ List.filter (fun l => feq (elevation l) zero)
       (fst (get_building_levels
               (example_file (storeys_with_unplaced ++ three_storeys) []) init))
     = List.filter (fun l => feq (elevation l) zero)
         (map level_of_storey (storeys_with_unplaced ++ three_storeys)).
Proof.
  split; [vm_compute; reflexivity|].
  apply (get_building_levels_sorts_stably
           (example_file (storeys_with_unplaced ++ three_storeys) []) init).
  repeat apply List.Forall_cons; try apply List.Forall_nil; reflexivity.
Defined.

(** ** The cache *)

Lemma cache_fold_get (levels : list Level) :
  forall (d : list (Z * Level)) (i : Z),
    PyDict.get i (fold_left (fun d level => PyDict.set (lv_id level) level d) levels d)
    = match last_level i levels with
      | Some l => Some l
      | None => PyDict.get i d
      end.
Proof.
  induction levels as [|l levels IH]; intros d i; simpl; [reflexivity|].
  rewrite IH. destruct (last_level i levels) as [l'|]; [reflexivity|].
  destruct (decide (lv_id l = i)) as [<-|N].
  - apply get_set_eq.
  - apply get_set_ne, N.
Qed.

Lemma last_level_Some (i : Z) (levels : list Level) (l : Level) :
  last_level i levels = Some l -> l ∈ levels /\ lv_id l = i.
Proof.
  induction levels as [|x levels IH]; simpl; [discriminate|].
  destruct (last_level i levels) as [l'|].
  - intros [= ->]. destruct (IH eq_refl) as [H1 H2].
    split; [apply elem_of_cons; auto|exact H2].
  - destruct (decide (lv_id x = i)); [|discriminate].
    intros [= ->]. split; [apply elem_of_cons; auto|assumption].
Qed.

Lemma last_level_None (i : Z) (levels : list Level) :
  last_level i levels = None <-> i ∉ map lv_id levels.
Proof.
  induction levels as [|x levels IH]; simpl.
  - split; [intros _; apply not_elem_of_nil|reflexivity].
  - rewrite not_elem_of_cons. destruct (last_level i levels) as [l'|].
    + split; [discriminate|]. intros [_ H]. apply IH in H. discriminate.
    + destruct (decide (lv_id x = i)) as [E|N].
      * split; [discriminate|]. intros [H _]. congruence.
      * split; [|reflexivity]. intros _. split; [congruence|].
        apply IH. reflexivity.
Qed.

Lemma cache_levels_keys (levels : list Level) (i : Z) :
  i ∈ PyDict.keys (cache_levels levels) <-> i ∈ map lv_id levels.
Proof.
  unfold cache_levels.
  destruct (decide (i ∈ map lv_id levels)) as [Hin|Hnin].
  - split; [auto|intros _].
    destruct (PyDict.get i (fold_left (fun d level => PyDict.set (lv_id level) level d)
                                      levels [])) as [l|] eqn:E.
    + apply get_Some_elem in E. apply (list_elem_of_fmap_2 fst _ _ E).
    + rewrite cache_fold_get in E.
      destruct (last_level i levels) as [l|] eqn:L; [discriminate|].
      apply last_level_None in L. contradiction.
  - split; [|contradiction]. intros Hk. exfalso.
    apply keys_get in Hk as [l E]. rewrite cache_fold_get in E.
    apply last_level_None in Hnin. rewrite Hnin in E. discriminate.
Qed.

Lemma cache_levels_wf (levels : list Level) :
  forall d : list (Z * Level),
    NoDup (PyDict.keys d) -> Forall (fun kv => lv_id (snd kv) = fst kv) d ->
    NoDup (PyDict.keys (fold_left (fun d level => PyDict.set (lv_id level) level d)
                                  levels d))
    /\ Forall (fun kv => lv_id (snd kv) = fst kv)
              (fold_left (fun d level => PyDict.set (lv_id level) level d) levels d).
Proof.
  induction levels as [|l levels IH]; intros d Hnd Hall; simpl; [auto|].
  apply IH; [apply NoDup_keys_set, Hnd|].
  apply Forall_set; [exact Hall|reflexivity].
Qed.

Lemma storey_ids_of_levels (f : Ifc.File) (st : State) (i : Z) :
  i ∈ map lv_id (fst (get_building_levels f st))
  <-> i ∈ map Ifc.id (Ifc.IfcBuildingStorey f).
Proof.
  rewrite <- (Permutation_map lv_id (sorted_levels_perm f st)).
  rewrite lv_id_level_of_storey. reflexivity.
Qed.

(** X9.  The cache [levels_data] that [get_building_levels] leaves: looking up
    an id gives the last level of the sorted list that has this id, so the
    ids of the cache are those of the storeys, each once, every cached level
    is stored under its own id, and when the storeys have distinct ids each
    storey's level is found under the storey's id. *)
Theorem level_cache_lookup (f : Ifc.File) (st : State) :
  (forall i : Z,
     PyDict.get i (levels_data (snd (get_building_levels f st)))
     = last_level i (fst (get_building_levels f st)))
  /\ (forall i : Z,
        i ∈ PyDict.keys (levels_data (snd (get_building_levels f st)))
        <-> i ∈ map Ifc.id (Ifc.IfcBuildingStorey f))
  /\ NoDup (PyDict.keys (levels_data (snd (get_building_levels f st))))
  /\ Forall (fun kv => lv_id (snd kv) = fst kv)
            (levels_data (snd (get_building_levels f st)))
  /\ (NoDup (map Ifc.id (Ifc.IfcBuildingStorey f)) ->
      forall storey : Ifc.Product,
        storey ∈ Ifc.IfcBuildingStorey f ->
        PyDict.get (Ifc.id storey) (levels_data (snd (get_building_levels f st)))
        = Some (level_of_storey storey)).
Proof.
  rewrite get_building_levels_cache.
  split.
  { intros i. unfold cache_levels. rewrite cache_fold_get.
    destruct (last_level i _); reflexivity. }
  split.
  { intros i. rewrite cache_levels_keys. apply storey_ids_of_levels. }
  destruct (cache_levels_wf (fst (get_building_levels f st)) [])
    as [H1 H2]; [constructor|constructor|].
  split; [exact H1|]. split; [exact H2|].
  intros Hnd storey Hin.
  rewrite cache_levels_distinct by (apply sorted_levels_NoDup, Hnd).
  apply (get_of_distinct lv_id (fst (get_building_levels f st)) (level_of_storey storey)).
  - apply sorted_levels_NoDup, Hnd.
  - rewrite <- (sorted_levels_perm f st). apply list_elem_of_fmap_2. exact Hin.
Qed.

(** ** The level of an element *)

Lemma cache_nonempty (f : Ifc.File) (st : State) :
  Ifc.IfcBuildingStorey f <> [] ->
  levels_data (snd (get_building_levels f st)) <> [].
Proof.
  intros Hne Hnil.
  destruct (Ifc.IfcBuildingStorey f) as [|s storeys] eqn:Hs; [congruence|].
  assert (Hk : Ifc.id s ∈ PyDict.keys (levels_data (snd (get_building_levels f st)))).
  { rewrite get_building_levels_cache, cache_levels_keys, storey_ids_of_levels, Hs.
    simpl. apply elem_of_cons. auto. }
  rewrite Hnil in Hk. apply elem_of_nil in Hk. exact Hk.
Qed.

Lemma find_closest_level_None (st : State) (z : float) :
  _find_closest_level st z = None <-> levels_data st = [].
Proof.
  split.
  - intros H. destruct (levels_data st) as [|kv d] eqn:Hd; [reflexivity|].
    destruct (find_closest_level_nonempty st z) as (pre & best & post & _ & E & _).
    + rewrite Hd. discriminate.
    + congruence.
  - intros H. unfold _find_closest_level. rewrite H. reflexivity.
Qed.

Lemma find_closest_level_Some (st : State) (z : float) (i : Z) :
  _find_closest_level st z = Some i ->
  exists level, level ∈ PyDict.values (levels_data st) /\ lv_id level = i.
Proof.
  intros H. destruct (levels_data st) as [|kv d] eqn:Hd.
  - unfold _find_closest_level in H. rewrite Hd in H. discriminate.
  - destruct (find_closest_level_nonempty st z) as (pre & best & post & E & R & _).
    + rewrite Hd. discriminate.
    + rewrite Hd in E. exists best. split.
      * rewrite E. apply elem_of_app. right. apply elem_of_cons. auto.
      * congruence.
Qed.

(** X10.  The level of an element: the storey that contains it, whether or not
    that storey is cached; else the nearest cached level to the Z of its
    placement; else none.  It is [None] exactly when no storey contains the
    element and its placement does not resolve or no level is cached; a
    level found by placement is a cached level; and after
    [get_building_levels] on a file with a storey, every element whose
    placement resolves has a level. *)
Theorem get_element_level_cases (st : State) (element : Ifc.Product) :
  match containing_storey element, placement_z element with
  | Some container_id, _ => _get_element_level st element = Some container_id
  | None, Some z => _get_element_level st element = _find_closest_level st z
  | None, None => _get_element_level st element = None
  end
  /\ (_get_element_level st element = None <->
      containing_storey element = None
      /\ (placement_z element = None \/ levels_data st = []))
  /\ (forall i : Z,
        _get_element_level st element = Some i ->
        containing_storey element = Some i
        \/ exists level, level ∈ PyDict.values (levels_data st) /\ lv_id level = i)
  /\ (forall (f : Ifc.File) (st0 : State) (z : float),
        Ifc.IfcBuildingStorey f <> [] ->
        placement_z element = Some z ->
        is_Some (_get_element_level (snd (get_building_levels f st0)) element)).
Proof.
  assert (Hc : match containing_storey element, placement_z element with
               | Some container_id, _ => _get_element_level st element = Some container_id
               | None, Some z => _get_element_level st element = _find_closest_level st z
               | None, None => _get_element_level st element = None
               end).
  { unfold containing_storey, placement_z, _get_element_level.
    destruct (Ifc.get_container element) as [| |[] cid];
      destruct (Ifc.ObjectPlacement element); reflexivity. }
  assert (Hc' : forall st',
             _get_element_level st' element
             = match containing_storey element, placement_z element with
               | Some container_id, _ => Some container_id
               | None, Some z => _find_closest_level st' z
               | None, None => None
               end).
  { intros st'. unfold containing_storey, placement_z, _get_element_level.
    destruct (Ifc.get_container element) as [| |[] cid];
      destruct (Ifc.ObjectPlacement element); reflexivity. }
  split; [exact Hc|]. split; [|split].
  - rewrite Hc'.
    destruct (containing_storey element) as [cid|].
    + split; [discriminate|intros [H _]; discriminate].
    + destruct (placement_z element) as [z|].
      * rewrite find_closest_level_None. split.
        -- intros H. split; [reflexivity|right; exact H].
        -- intros [_ [H|H]]; [discriminate|exact H].
      * split; [intros _; split; [reflexivity|left; reflexivity]|reflexivity].
  - intros i. rewrite Hc'.
    destruct (containing_storey element) as [cid|].
    + intros [= ->]. left. reflexivity.
    + destruct (placement_z element) as [z|]; [|discriminate].
      intros H. right. apply (find_closest_level_Some st z), H.
  - intros f st0 z Hne Hz. rewrite Hc', Hz.
    destruct (containing_storey element) as [cid|]; [eauto|].
    destruct (_find_closest_level (snd (get_building_levels f st0)) z) as [i|] eqn:E;
      [eauto|].
    apply find_closest_level_None in E. exfalso.
    exact (cache_nonempty f st0 Hne E).
Qed.

End LevelsFurther.

(* ===================================================================== *)
(** * The dimensions of an element *)
(* ===================================================================== *)

Section DimensionFacts.
Import Py IFCProcessor Reference Notions.

Local Open Scope Z_scope.

(** Rounding with sign [false] gives a number that is not negative. *)
Lemma binary_round_aux_nonneg (mx ex : Z) (lx : location) :
  0 <= mx -> fle zero (binary_round_aux prec emax false mx ex lx) = true.
Proof.
  intros Hm. pose proof (binary_round_aux_not_nan false mx ex lx Hm) as Hn.
  unfold binary_round_aux in *.
  destruct (shr_fexp prec emax mx ex lx) as [mrs' e'].
  destruct (shr_fexp prec emax _ e' loc_Exact) as [mrs'' e''].
  destruct (shr_m mrs'') as [|p|p]; [reflexivity| |discriminate].
  destruct (e'' <=? emax - prec); reflexivity.
Qed.

Lemma fdiv_positive_nonneg (m n : positive) (e1 e2 : Z) :
  fle zero (fdiv (S754_finite false m e1) (S754_finite false n e2)) = true.
Proof.
  unfold fdiv, SFdiv.
  destruct (SFdiv_core_binary prec emax (Z.pos m) e1 (Z.pos n) e2) as [[mz ez] lz] eqn:E.
  apply binary_round_aux_nonneg.
  unfold SFdiv_core_binary in E.
  set (s := e1 - e2 - _) in E.
  set (m' := match s with Z.pos _ => Z.shiftl (Z.pos m) s | 0 => Z.pos m | Z.neg _ => 0 end) in E.
  assert (Hm' : 0 <= m').
  { unfold m'. destruct s; try lia. apply Z.shiftl_nonneg. lia. }
  pose proof (Z_div_mod m' (Z.pos n) eq_refl) as H.
  destruct (Z.div_eucl m' (Z.pos n)) as [q r]. injection E as <- _ _.
  nia.
Qed.

Lemma round2_nonneg (x : float) : fgt x zero = true -> fle zero (round2 x) = true.
Proof.
  destruct x as [s|[]| |[] m e]; try discriminate; intros _; try reflexivity.
  unfold round2.
  destruct (round_half_even_div _ _) as [|n|n]; try reflexivity.
  apply fdiv_positive_nonneg.
Qed.

Lemma rounded_dimension_stored (pv : Ifc.PropValue) (v : pynum) :
  rounded_dimension pv = Some v -> stored_dimension v.
Proof.
  destruct pv as [z|x|b|]; simpl; try discriminate.
  - destruct (Z.ltb_spec 0 z); [|discriminate]. intros [= <-]. simpl. lia.
  - destruct (fgt x zero) eqn:E; [|discriminate]. intros [= <-].
    simpl. apply round2_nonneg, E.
  - destruct b; [|discriminate]. intros [= <-]. simpl. lia.
Qed.

Lemma fold_add_dimension (props : list (string * Ifc.PropValue)) :
  forall (d : gmap string pynum) (k : string),
    fold_left add_dimension props d !! k
    = match last_recorded k props with
      | Some v => Some v
      | None => d !! k
      end.
Proof.
  induction props as [|[name value] props IH]; intros d k; simpl; [reflexivity|].
  rewrite IH. destruct (last_recorded k props) as [v|]; [reflexivity|].
  destruct (decide (name = k)) as [->|N].
  - destruct (bool_decide (k ∈ dimension_props)); [|reflexivity].
    destruct (rounded_dimension value) as [v|]; [|reflexivity].
    apply lookup_insert_eq.
  - destruct (bool_decide (name ∈ dimension_props)); [|reflexivity].
    destruct (rounded_dimension value) as [v|]; [|reflexivity].
    apply lookup_insert_ne, N.
Qed.

Lemma fold_psets (psets : list (string * list (string * Ifc.PropValue))) :
  forall d : gmap string pynum,
    fold_left (fun dimensions pset => fold_left add_dimension (snd pset) dimensions)
              psets d
    = fold_left add_dimension (concat (map snd psets)) d.
Proof.
  induction psets as [|pset psets IH]; intros d; simpl; [reflexivity|].
  rewrite fold_left_app. apply IH.
Qed.

Lemma last_recorded_Some (k : string) (props : list (string * Ifc.PropValue))
  (v : pynum) :
  last_recorded k props = Some v ->
  k ∈ dimension_props
  /\ exists pv, (k, pv) ∈ props /\ rounded_dimension pv = Some v.
Proof.
  induction props as [|[name value] props IH]; simpl; [discriminate|].
  destruct (last_recorded k props) as [v'|].
  - intros [= ->]. destruct (IH eq_refl) as (H1 & pv & H2 & H3).
    split; [exact H1|]. exists pv. split; [apply elem_of_cons; auto|exact H3].
  - destruct (decide (name = k)) as [->|N]; [|discriminate].
    destruct (bool_decide (k ∈ dimension_props)) eqn:B; [|discriminate].
    apply bool_decide_eq_true in B. intros H. split; [exact B|].
    exists value. split; [apply elem_of_cons; auto|exact H].
Qed.

Lemma element_dimensions_lookup (element : Ifc.Product) (k : string) :
  _get_element_dimensions element !! k = last_recorded k (all_props element).
Proof.
  unfold _get_element_dimensions, all_props.
  destruct (Ifc.get_psets element) as [|psets]; [apply lookup_empty|].
  rewrite fold_psets, fold_add_dimension.
  destruct (last_recorded k _); [reflexivity|apply lookup_empty].
Qed.

Lemma element_dimensions_names (element : Ifc.Product) (k : string) (v : pynum) :
  _get_element_dimensions element !! k = Some v -> k ∈ dimension_props.
Proof.
  rewrite element_dimensions_lookup. intros H.
  apply (last_recorded_Some _ _ _ H).
Qed.

(** X12.  The dimensions of an element hold, under a name, the rounded value of
    the last property of that name, over all property sets in iteration
    order, that is a dimension ([Length], [Width], [Height], [Thickness],
    [Area], [Volume], [Depth]) with an [int] or [float] value greater than
    zero; a later property that does not qualify does not erase an earlier
    one.  So every name stored is a dimension name, and every value stored is
    a positive [int] or a float that is a number and at least 0.0 (rounding
    to two places can give 0.0), the rounded value of a property of that
    name. *)
Theorem element_dimensions_last_recorded (element : Ifc.Product) :
  (forall k : string,
     _get_element_dimensions element !! k = last_recorded k (all_props element))
  /\ map_Forall
       (fun k v =>
          k ∈ dimension_props
          /\ stored_dimension v
          /\ exists pv, (k, pv) ∈ all_props element /\ rounded_dimension pv = Some v)
       (_get_element_dimensions element).
Proof.
  pose proof (element_dimensions_lookup element) as H.
  split; [exact H|].
  intros k v Hk. rewrite H in Hk.
  destruct (last_recorded_Some _ _ _ Hk) as (H1 & pv & H2 & H3).
  split; [exact H1|]. split; [exact (rounded_dimension_stored _ _ H3)|].
  exists pv. auto.
Qed.

End DimensionFacts.

(* ===================================================================== *)
(** * The processed elements and the table built from them *)
(* ===================================================================== *)

Section ElementsFacts.
Import Py IFCProcessor Reference Notions.

Local Open Scope Z_scope.

(** The record of an element depends on the processor only through the
    level cache. *)
Lemma process_single_element_cache (st st0 : State) (p : Ifc.Product) :
  levels_data st = levels_data st0 ->
  fst (_process_single_element st p) = fst (_process_single_element st0 p).
Proof.
  intros Hl. unfold _process_single_element. simpl.
  rewrite (get_element_level_cache st st0 p Hl). reflexivity.
Qed.

Lemma process_fold_records (products : list Ifc.Product) :
  forall (done : list Element) (st0 st : State),
    levels_data st = levels_data st0 ->
    fst (fold_left
           (fun acc element =>
              let '(processed_elements, st) := acc in
              let '(element_data, st') := _process_single_element st element in
              (processed_elements ++ [element_data], st'))
           products (done, st))
    = done ++ map (fun p => fst (_process_single_element st0 p)) products.
Proof.
  induction products as [|p products IH]; intros done st0 st Hl; simpl.
  - rewrite app_nil_r. reflexivity.
  - specialize (IH (done ++ [fst (_process_single_element st p)]) st0
                   (snd (_process_single_element st p)) Hl).
    simpl in IH. rewrite IH. rewrite <- app_assoc. simpl.
    f_equal. f_equal.
    exact (process_single_element_cache st st0 p Hl).
Qed.

Lemma process_elements_fst (f : Ifc.File) (st : State) :
  fst (process_elements f st)
  = map (fun p => fst (_process_single_element st p))
        (List.filter is_relevant (Ifc.IfcProduct f)).
Proof.
  exact (process_fold_records (List.filter is_relevant (Ifc.IfcProduct f)) [] st st eq_refl).
Qed.

Lemma process_elements_table (f : Ifc.File) (st : State) :
  quantity_table (snd (process_elements f st))
  = accumulate (map key_level (fst (process_elements f st))) (quantity_table st).
Proof.
  destruct (process_elements_spec f st) as (_ & Ht & He).
  rewrite Ht. unfold key_level. rewrite He. reflexivity.
Qed.

(** X15.  [process_elements] returns one record per product that has a
    representation and a relevant type, in the order of the file; the
    record of a product depends on that product and on the level cache only,
    not on the products processed before it; its type is a relevant type;
    and the level cache is left as it was. *)
Theorem process_elements_records (f : Ifc.File) (st : State) :
  fst (process_elements f st)
  = map (fun p => fst (_process_single_element st p))
        (List.filter is_relevant (Ifc.IfcProduct f))
  /\ Forall2 (fun p e =>
                el_id e = Ifc.id p /\ global_id e = Ifc.GlobalId p
                /\ el_type e = Ifc.is_a p
                /\ level_id e = _get_element_level st p
                /\ dimensions e = _get_element_dimensions p
                /\ element_key e
                   = _create_element_key (Ifc.is_a p) (_get_element_dimensions p))
             (List.filter is_relevant (Ifc.IfcProduct f))
             (fst (process_elements f st))
  /\ Forall (fun e => el_type e ∈ RELEVANT_ELEMENT_TYPES) (fst (process_elements f st))
  /\ levels_data (snd (process_elements f st)) = levels_data st.
Proof.
  split; [apply process_elements_fst|]. rewrite process_elements_fst.
  split; [|split].
  - apply Forall2_map_same. intros p. simpl. auto 10.
  - apply List.Forall_forall. intros e He. apply List.in_map_iff in He as (p & <- & Hp).
    apply List.filter_In in Hp as [_ Hp]. unfold is_relevant in Hp.
    apply andb_true_iff in Hp as [_ Hp]. apply bool_decide_eq_true in Hp. exact Hp.
  - apply (process_elements_spec f st).
Qed.

Lemma process_ifc_file_unfold (f : Ifc.File) :
  process_ifc_file f
  = option_map
      (fun q =>
         {| res_levels := fst (get_building_levels f init);
            res_elements := fst (process_elements f (snd (get_building_levels f init)));
            res_quantity_table := q;
            res_project_info := get_project_info f |})
      (run_table f).
Proof.
  unfold process_ifc_file, run_table.
  destruct (get_building_levels f init) as [levels st1]. simpl.
  destruct (process_elements f st1) as [elements st2]. simpl.
  destruct (generate_quantity_table_data st2); reflexivity.
Qed.

(** The result of the pipeline, spelled out: it is returned for every
    file. *)
Lemma process_ifc_file_result (f : Ifc.File) :
  exists rows,
    Forall2 (fun item row => row_of item = Some row)
            (accumulate
               (map key_level
                    (fst (process_elements f (snd (get_building_levels f init))))) [])
            rows
    /\ wf_table
         (accumulate
            (map key_level
                 (fst (process_elements f (snd (get_building_levels f init))))) [])
    /\ process_ifc_file f
       = Some {| res_levels := fst (get_building_levels f init);
                 res_elements :=
                   fst (process_elements f (snd (get_building_levels f init)));
                 res_quantity_table :=
                   {| table_data := py_sorted String.ltb element_type rows;
                      levels :=
                        match accumulate
                                (map key_level
                                   (fst (process_elements f
                                           (snd (get_building_levels f init))))) [] with
                        | [] => PyDict.values
                                  (cache_levels (fst (get_building_levels f init)))
                        | _ => py_sorted flt elevation
                                 (PyDict.values
                                    (cache_levels (fst (get_building_levels f init))))
                        end |};
                 res_project_info := get_project_info f |}.
Proof.
  pose proof (process_elements_table f (snd (get_building_levels f init))) as Ht.
  change (quantity_table (snd (get_building_levels f init))) with (@nil (string * list (string * Z))) in Ht.
  destruct (run_state f) as (Hl & _ & Hwf).
  destruct (generate_wf _ Hwf) as (rows & HF & E).
  rewrite Ht in HF, Hwf, E. rewrite Hl in E.
  exists rows. split; [exact HF|]. split; [exact Hwf|].
  rewrite process_ifc_file_unfold. unfold run_table. rewrite E. reflexivity.
Qed.

End ElementsFacts.

(* ===================================================================== *)
(** * What the rows of the quantity table count *)
(* ===================================================================== *)

Section CountFacts.
Import Py IFCProcessor Reference Notions.
Implicit Types (table : list (string * list (string * Z))) (es : list Element).

Local Open Scope Z_scope.

Lemma count_if_cons {A : Type} (f : A -> bool) (x : A) (l : list A) :
  count_if f (x :: l) = (if f x then 1 else 0) + count_if f l.
Proof.
  unfold count_if. simpl. destruct (f x); simpl; lia.
Qed.

Lemma count_if_nonneg {A : Type} (f : A -> bool) (l : list A) : 0 <= count_if f l.
Proof. unfold count_if. lia. Qed.

Lemma count_if_split {A : Type} (f g : A -> bool) (l : list A) :
  count_if f l
  = count_if (fun x => f x && g x) l + count_if (fun x => f x && negb (g x)) l.
Proof.
  induction l as [|x l IH]; [reflexivity|].
  rewrite !count_if_cons, IH. destruct (f x), (g x); simpl; lia.
Qed.

Lemma count_if_pos {A : Type} (f : A -> bool) (l : list A) :
  0 < count_if f l <-> exists x, In x l /\ f x = true.
Proof.
  induction l as [|x l IH].
  - unfold count_if. simpl. split; [lia|intros (x & [] & _)].
  - rewrite count_if_cons. pose proof (count_if_nonneg f l). split.
    + intros H0. destruct (f x) eqn:E; [exists x; simpl; auto|].
      destruct (proj1 IH) as (y & Hy & Fy); [lia|]. exists y. simpl. auto.
    + intros (y & [<-|Hy] & Fy).
      * rewrite Fy. lia.
      * assert (0 < count_if f l) by (apply IH; eauto). destruct (f x); lia.
Qed.

(** The counts of a run, as numbers of elements. *)
Lemma tally_total (k : string) es :
  tally k "total_count" (map key_level es) = count_if (has_key k) es.
Proof.
  induction es as [|e es IH]; [reflexivity|].
  rewrite count_if_cons, <- IH. simpl. f_equal.
  unfold contribution, has_key, key_level. cbn [fst snd].
  destruct (decide (element_key e = k)) as [E|N].
  - rewrite bool_decide_eq_true_2 by exact E.
    rewrite decide_True by reflexivity.
    destruct (level_id e) as [i|]; [|lia].
    rewrite decide_False; [lia|].
    intros [_ C]. symmetry in C. exact (level_key_not_total i C).
  - rewrite bool_decide_eq_false_2 by exact N. reflexivity.
Qed.

Lemma tally_level (k : string) (i : Z) es :
  tally k (level_key i) (map key_level es)
  = count_if (fun e => has_key k e && counted_at i e) es.
Proof.
  induction es as [|e es IH]; [reflexivity|].
  rewrite count_if_cons, <- IH. simpl. f_equal.
  unfold contribution, has_key, counted_at, key_level, level_truthy. cbn [fst snd].
  destruct (decide (element_key e = k)) as [E|N].
  - rewrite bool_decide_eq_true_2 by exact E.
    rewrite decide_False by apply level_key_not_total.
    destruct (level_id e) as [j|]; [|reflexivity].
    destruct (decide (j = i)) as [->|Nj].
    + rewrite bool_decide_eq_true_2 by reflexivity.
      destruct (Z.eqb_spec i 0) as [->|Hi]; cbn [negb andb].
      * destruct (decide (0 <> 0 /\ level_key 0 = level_key 0)) as [[C _]|_];
          [congruence|reflexivity].
      * rewrite decide_True by tauto. reflexivity.
    + rewrite bool_decide_eq_false_2 by exact Nj.
      rewrite decide_False; [reflexivity|].
      intros [_ C]. apply level_key_inj in C. congruence.
  - rewrite bool_decide_eq_false_2 by exact N. reflexivity.
Qed.

Lemma counted_at_zero (e : Element) : counted_at 0 e = false.
Proof.
  unfold counted_at, level_truthy. destruct (level_id e) as [j|]; [|reflexivity].
  destruct (decide (j = 0)) as [->|N].
  - rewrite bool_decide_eq_true_2 by reflexivity. reflexivity.
  - rewrite bool_decide_eq_false_2 by exact N. reflexivity.
Qed.

Lemma count_at_zero (k : string) es :
  count_if (fun e => has_key k e && counted_at 0 e) es = 0.
Proof.
  induction es as [|e es IH]; [reflexivity|].
  rewrite count_if_cons, IH, counted_at_zero, andb_false_r. reflexivity.
Qed.

Lemma count_in_elements_total (k : string) es :
  count_in (accumulate (map key_level es) []) k "total_count" = count_if (has_key k) es.
Proof. rewrite count_in_accumulate, tally_total. reflexivity. Qed.

Lemma count_in_elements_level (k : string) (i : Z) es :
  count_in (accumulate (map key_level es) []) k (level_key i)
  = count_if (fun e => has_key k e && counted_at i e) es.
Proof. rewrite count_in_accumulate, tally_level. reflexivity. Qed.

Lemma keys_elements (k : string) es :
  k ∈ PyDict.keys (accumulate (map key_level es) []) <-> k ∈ map element_key es.
Proof.
  rewrite elem_keys_accumulate, map_map. simpl.
  rewrite elem_of_nil. tauto.
Qed.

End CountFacts.

Section CountClaims.
Import Py IFCProcessor Reference Notions.

Local Open Scope Z_scope.

(** X16.  The pipeline returns for every file, and its quantity table counts
    the processed elements: there is exactly one row per element key that
    occurs among the elements; the total of a row is the number of elements
    with its key; and its level quantities hold, under a level id [i] other
    than 0, the number of elements with its key whose level id is [i], for
    the ids with at least one such element and no others (the id 0 never has
    an entry). *)
Theorem quantity_table_counts_elements (f : Ifc.File) :
  exists r,
    process_ifc_file f = Some r
    /\ NoDup (map row_element_key (table_data (res_quantity_table r)))
    /\ (forall k : string,
          k ∈ map row_element_key (table_data (res_quantity_table r))
          <-> k ∈ map element_key (res_elements r))
    /\ Forall
         (fun row =>
            total_quantity row = count_if (has_key (row_element_key row)) (res_elements r)
            /\ (forall i : Z,
                  PyDict.get i (level_quantities row)
                  = if (count_if (fun e => has_key (row_element_key row) e
                                           && counted_at i e) (res_elements r) =? 0)
                    then None
                    else Some (count_if (fun e => has_key (row_element_key row) e
                                                  && counted_at i e) (res_elements r)))
            /\ PyDict.get 0 (level_quantities row) = None)
         (table_data (res_quantity_table r)).
Proof.
  destruct (process_ifc_file_result f) as (rows & HF & Hwf & E).
  eexists. split; [exact E|]. cbn [res_quantity_table res_elements table_data].
  set (es := fst (process_elements f (snd (get_building_levels f init)))) in *.
  pose proof (rows_keys _ _ HF (proj2 Hwf)) as HK.
  pose proof (rows_match _ _ Hwf HF) as HM.
  pose proof (py_sorted_perm String.ltb element_type rows) as HP.
  split; [rewrite <- HP, HK; apply Hwf|].
  split; [intros k; rewrite <- HP, HK; apply keys_elements|].
  rewrite <- HP. eapply Forall_impl; [exact HM|].
  intros row (_ & _ & _ & Ht & Hl). simpl.
  assert (Hall : forall i : Z,
             PyDict.get i (level_quantities row)
             = if (count_if (fun e => has_key (row_element_key row) e
                                      && counted_at i e) es =? 0)
               then None
               else Some (count_if (fun e => has_key (row_element_key row) e
                                             && counted_at i e) es)).
  { intros i. rewrite Hl, count_in_elements_level. reflexivity. }
  split; [rewrite Ht; apply count_in_elements_total|].
  split; [exact Hall|].
  rewrite Hall.
  assert (Hz : count_if (fun e => has_key (row_element_key row) e && counted_at 0 e) es = 0).
  { apply count_at_zero. }
  rewrite Hz. reflexivity.
Qed.

End CountClaims.

(* ===================================================================== *)
(** * Sums over the quantity table *)
(* ===================================================================== *)

Section SumFacts.
Import Py IFCProcessor Reference Notions.
Implicit Types (table : list (string * list (string * Z))) (inner : list (string * Z))
  (es : list Element).

Local Open Scope Z_scope.

Lemma sum_values_app {K : Type} (a b : list (K * Z)) :
  sum_values (a ++ b) = sum_values a + sum_values b.
Proof.
  unfold sum_values. induction a as [|[k v] a IH]; simpl; [reflexivity|].
  rewrite IH. lia.
Qed.

Lemma sum_values_bound {K : Type} (d : list (K * Z)) :
  Forall (fun kv => 1 <= snd kv) d ->
  0 <= sum_values d /\ Forall (fun kv => snd kv <= sum_values d) d.
Proof.
  unfold sum_values. induction 1 as [|[k v] d Hv _ [IH1 IH2]]; simpl.
  - split; [lia|constructor].
  - simpl in Hv. split; [lia|]. constructor; [simpl; lia|].
    eapply Forall_impl; [exact IH2|]. intros kv H. simpl in H. lia.
Qed.

Lemma get_default_absent {K V : Type} `{EqDecision K} (d : list (K * V)) (k : K)
  (default : V) :
  k ∉ PyDict.keys d -> PyDict.get_default k default d = default.
Proof.
  intros H. unfold PyDict.get_default.
  rewrite (proj2 (get_None_keys d k) H). reflexivity.
Qed.

(** The level quantities of a row, summed. *)
Lemma level_quantities_sum inner :
  wf_inner inner ->
  forall acc : list (Z * Z),
    NoDup (PyDict.keys acc) ->
    Forall (fun kv => 1 <= snd kv) acc ->
    (forall i, level_key i ∈ PyDict.keys inner -> i ∉ PyDict.keys acc) ->
    exists lq,
      fold_left add_level_quantity inner (Some acc) = Some lq
      /\ NoDup (PyDict.keys lq)
      /\ Forall (fun kv => 1 <= snd kv) lq
      /\ sum_values lq
         = sum_values acc + sum_values inner - PyDict.get_default "total_count" 0 inner.
Proof.
  intros [Hnd Hall]. unfold PyDict.keys in Hnd.
  induction inner as [|[f v] inner IH]; intros acc Hacc Hpos Hdis; cbn [fold_left].
  - exists acc. repeat split; try assumption.
    unfold sum_values, PyDict.get_default. simpl. lia.
  - simpl in Hnd. apply NoDup_cons in Hnd as [Hf Hnd].
    apply Forall_cons in Hall as [[Hok Hv] Hall]. simpl in Hok, Hf, Hv.
    destruct Hok as [->|[j ->]].
    + rewrite add_level_quantity_total.
      destruct (IH Hnd Hall acc Hacc Hpos) as (lq & E & H1 & H2 & H3).
      { intros i Hi. apply Hdis. simpl. apply elem_of_cons. auto. }
      exists lq. repeat split; try assumption.
      rewrite H3. rewrite (get_default_absent inner "total_count" 0 Hf).
      unfold sum_values, PyDict.get_default. simpl. lia.
    + rewrite add_level_quantity_level.
      assert (Hj : j ∉ PyDict.keys acc).
      { apply Hdis. simpl. apply elem_of_cons. auto. }
      rewrite (set_fresh acc j v Hj).
      destruct (IH Hnd Hall (acc ++ [(j, v)])) as (lq & E & H1 & H2 & H3).
      { unfold PyDict.keys. rewrite map_app. simpl. apply NoDup_app.
        split; [exact Hacc|]. split; [|apply NoDup_singleton].
        intros x Hx Hx'. apply list_elem_of_singleton in Hx'. subst x. contradiction. }
      { apply Forall_app. split; [exact Hpos|]. repeat constructor. exact Hv. }
      { intros i Hi. unfold PyDict.keys. rewrite map_app. simpl.
        intros Hin. apply elem_of_app in Hin as [Hin|Hin].
        - revert Hin. apply Hdis. simpl. apply elem_of_cons. auto.
        - apply list_elem_of_singleton in Hin. subst i. contradiction. }
      exists lq. repeat split; try assumption.
      rewrite H3, sum_values_app.
      unfold sum_values, PyDict.get_default. cbn [map fold_right snd PyDict.get].
      rewrite decide_False by (intros C; symmetry in C; exact (level_key_not_total j C)).
      lia.
Qed.

Lemma row_of_key (k : string) inner (row : Row) :
  row_of (k, inner) = Some row -> row_element_key row = k.
Proof.
  unfold row_of.
  destruct (fold_left add_level_quantity inner (Some [])) as [lq|]; simpl;
    [|discriminate].
  intros [= <-]. reflexivity.
Qed.

Lemma row_of_sums (k : string) inner :
  wf_inner inner ->
  exists row,
    row_of (k, inner) = Some row
    /\ total_quantity row = PyDict.get_default "total_count" 0 inner
    /\ NoDup (PyDict.keys (level_quantities row))
    /\ Forall (fun kv => 1 <= snd kv) (level_quantities row)
    /\ sum_values (level_quantities row)
       = sum_values inner - PyDict.get_default "total_count" 0 inner.
Proof.
  intros Hwf.
  destruct (level_quantities_sum inner Hwf []) as (lq & E & H1 & H2 & H3).
  - constructor.
  - constructor.
  - intros i _. apply not_elem_of_nil.
  - unfold row_of. rewrite E. simpl. eexists. split; [reflexivity|]. simpl.
    repeat split; assumption.
Qed.

(** The rows and the entries of the table they come from. *)
Lemma rows_entries table (rows : list Row) :
  NoDup (PyDict.keys table) ->
  Forall2 (fun item row => row_of item = Some row) table rows ->
  Forall (fun row =>
            exists inner,
              PyDict.get (row_element_key row) table = Some inner
              /\ row_of (row_element_key row, inner) = Some row) rows.
Proof.
  intros Hnd HF. apply List.Forall_forall. intros row Hrow.
  apply list_elem_of_In in Hrow.
  destruct (proj1 (list_elem_of_lookup _ _) Hrow) as [n Hn].
  destruct (Forall2_lookup_r _ _ _ _ _ HF Hn) as ([k inner] & Hitem & E).
  apply list_elem_of_lookup_2 in Hitem.
  rewrite (row_of_key _ _ _ E). exists inner.
  split; [apply elem_get; assumption|exact E].
Qed.

(** ** The sum of the counts of one key *)

Lemma get_default_set {V : Type} (d : list (string * V)) (k0 k : string)
  (v default : V) :
  PyDict.get_default k default (PyDict.set k0 v d)
  = if decide (k0 = k) then v else PyDict.get_default k default d.
Proof.
  unfold PyDict.get_default. destruct (decide (k0 = k)) as [<-|N].
  - rewrite get_set_eq. reflexivity.
  - rewrite get_set_ne by exact N. reflexivity.
Qed.

Lemma sum_inner_increment table (k0 f k : string) :
  sum_values (PyDict.get_default k [] (increment k0 f table))
  = sum_values (PyDict.get_default k [] table) + (if decide (k0 = k) then 1 else 0).
Proof.
  unfold increment. rewrite get_default_set.
  destruct (decide (k0 = k)) as [<-|N]; [|lia].
  apply sum_values_bump.
Qed.

Lemma sum_inner_update table (k0 : string) (lvl : option Z) (k : string) :
  sum_values (PyDict.get_default k [] (_update_quantity_table k0 lvl table))
  = sum_values (PyDict.get_default k [] table)
    + (if decide (k0 = k) then 1 + (if level_truthy lvl then 1 else 0) else 0).
Proof.
  unfold _update_quantity_table.
  destruct lvl as [i|]; [destruct (level_truthy (Some i)) eqn:T|];
    rewrite ?sum_inner_increment; cbn [level_truthy];
    destruct (decide (k0 = k)); cbn iota; lia.
Qed.

Lemma sum_inner_elements (k : string) es :
  forall table,
    sum_values (PyDict.get_default k [] (accumulate (map key_level es) table))
    = sum_values (PyDict.get_default k [] table)
      + count_if (has_key k) es
      + count_if (fun e => has_key k e && level_truthy (level_id e)) es.
Proof.
  induction es as [|e es IH]; intros table.
  - unfold count_if. simpl. lia.
  - cbn [map]. unfold accumulate in *. cbn [fold_left]. rewrite IH.
    rewrite !count_if_cons. unfold key_level. cbn [fst snd].
    rewrite sum_inner_update. unfold has_key.
    destruct (decide (element_key e = k)) as [E|N].
    + rewrite bool_decide_eq_true_2 by exact E.
      destruct (level_truthy (level_id e)); simpl; lia.
    + rewrite bool_decide_eq_false_2 by exact N. simpl. lia.
Qed.

(** ** The sum of one field over the keys *)

Lemma sum_counts_set table (k : string) inner (f : string) :
  sum_counts f (PyDict.set k inner table)
  = sum_counts f table + PyDict.get_default f 0 inner
    - PyDict.get_default f 0 (PyDict.get_default k [] table).
Proof.
  assert (Hcons : forall (k' : string) (inner' : list (string * Z)) t,
             PyDict.get_default k [] ((k', inner') :: t)
             = if decide (k = k') then inner' else PyDict.get_default k [] t).
  { intros k' inner' t. unfold PyDict.get_default. simpl.
    destruct (decide (k = k')); reflexivity. }
  unfold sum_counts. induction table as [|[k' inner'] table IH].
  - change (PyDict.get_default k [] []) with (@nil (string * Z)).
    change (PyDict.get_default f 0 []) with 0. simpl. lia.
  - rewrite Hcons. simpl.
    destruct (decide (k = k')) as [->|N]; simpl; [lia|].
    rewrite IH. lia.
Qed.

Lemma sum_counts_increment table (k f f' : string) :
  sum_counts f' (increment k f table)
  = sum_counts f' table + (if decide (f = f') then 1 else 0).
Proof.
  unfold increment. rewrite sum_counts_set, get_default_bump. lia.
Qed.

Lemma sum_counts_update table (k : string) (lvl : option Z) :
  sum_counts "total_count" (_update_quantity_table k lvl table)
  = sum_counts "total_count" table + 1.
Proof.
  unfold _update_quantity_table.
  destruct lvl as [i|]; [destruct (level_truthy (Some i))|];
    rewrite ?sum_counts_increment;
    rewrite ?(decide_False (P := level_key _ = "total_count"))
      by apply level_key_not_total;
    rewrite decide_True by reflexivity; lia.
Qed.

Lemma sum_counts_accumulate (pairs : list (string * option Z)) :
  forall table,
    sum_counts "total_count" (accumulate pairs table)
    = sum_counts "total_count" table + Z.of_nat (length pairs).
Proof.
  induction pairs as [|e pairs IH]; intros table; simpl; [lia|].
  unfold accumulate in IH. rewrite IH, sum_counts_update. lia.
Qed.

Lemma sum_totals_rows table (rows : list Row) :
  Forall (fun kv => wf_inner (snd kv)) table ->
  Forall2 (fun item row => row_of item = Some row) table rows ->
  sum_totals rows = sum_counts "total_count" table.
Proof.
  intros Hwf HF. unfold sum_totals, sum_counts.
  induction HF as [|[k inner] row table rows E HF IH]; [reflexivity|].
  apply Forall_cons in Hwf as [Hx Hwf]. simpl.
  rewrite IH by exact Hwf.
  destruct (row_of_wf k inner Hx) as (row' & E' & _ & _ & _ & Ht & _).
  rewrite E in E'. injection E' as <-. rewrite Ht. reflexivity.
Qed.

Lemma sum_counts_update_level table (k : string) (lvl : option Z) (i : Z) :
  sum_counts (level_key i) (_update_quantity_table k lvl table)
  = sum_counts (level_key i) table
    + (if match lvl with
          | Some j => bool_decide (j = i) && level_truthy lvl
          | None => false
          end then 1 else 0).
Proof.
  assert (Hnt : forall j, (if decide ("total_count" = level_key j) then 1 else 0) = 0).
  { intros j. rewrite decide_False; [reflexivity|].
    intros C. symmetry in C. exact (level_key_not_total j C). }
  unfold _update_quantity_table.
  destruct lvl as [j|]; [destruct (level_truthy (Some j)) eqn:T|];
    rewrite ?sum_counts_increment, ?Hnt, ?andb_false_r; cbn iota; try lia.
  destruct (decide (j = i)) as [->|N].
  - rewrite decide_True by reflexivity.
    rewrite bool_decide_eq_true_2 by reflexivity. cbn [andb]. lia.
  - rewrite decide_False by (intros C; apply level_key_inj in C; contradiction).
    rewrite bool_decide_eq_false_2 by exact N. cbn [andb]. lia.
Qed.

Lemma sum_counts_elements_level (i : Z) es :
  forall table,
    sum_counts (level_key i) (accumulate (map key_level es) table)
    = sum_counts (level_key i) table + count_if (counted_at i) es.
Proof.
  induction es as [|e es IH]; intros table.
  - unfold count_if. simpl. lia.
  - cbn [map]. unfold accumulate in *. cbn [fold_left]. rewrite IH.
    rewrite count_if_cons, sum_counts_update_level.
    unfold key_level, counted_at. cbn [fst snd]. lia.
Qed.

Lemma sum_at_level_rows (i : Z) table (rows : list Row) :
  Forall (fun kv => wf_inner (snd kv)) table ->
  Forall2 (fun item row => row_of item = Some row) table rows ->
  sum_at_level i rows = sum_counts (level_key i) table.
Proof.
  intros Hwf HF. unfold sum_at_level, sum_counts.
  induction HF as [|[k inner] row table rows E HF IH]; [reflexivity|].
  apply Forall_cons in Hwf as [Hx Hwf]. simpl.
  rewrite IH by exact Hwf.
  destruct (row_of_wf k inner Hx) as (row' & E' & _ & _ & _ & _ & Hl).
  rewrite E in E'. injection E' as <-.
  unfold PyDict.get_default. rewrite Hl. reflexivity.
Qed.

Lemma sum_at_level_perm (i : Z) (rows1 rows2 : list Row) :
  Permutation rows1 rows2 -> sum_at_level i rows1 = sum_at_level i rows2.
Proof.
  unfold sum_at_level. induction 1; simpl; lia.
Qed.

Lemma sum_totals_perm (rows1 rows2 : list Row) :
  Permutation rows1 rows2 -> sum_totals rows1 = sum_totals rows2.
Proof.
  unfold sum_totals. induction 1; simpl; lia.
Qed.

End SumFacts.

Section SumClaims.
Import Py IFCProcessor Reference Notions.

Local Open Scope Z_scope.

(** X17.  In every row of the table of the pipeline, the total is the sum of the
    level quantities plus the number of elements with the row's key that are
    counted at no level (no level id, or the id 0); so a total can exceed
    the sum over the levels, by exactly that number.  Every row has a total
    of at least 1, no level id twice, and every level quantity is at least 1
    and at most the total. *)
Theorem row_total_is_levels_plus_unassigned (f : Ifc.File) :
  exists r,
    process_ifc_file f = Some r
    /\ Forall
         (fun row =>
            total_quantity row
            = sum_values (level_quantities row)
              + count_if (fun e => has_key (row_element_key row) e && unassigned e)
                         (res_elements r)
            /\ 1 <= total_quantity row
            /\ NoDup (PyDict.keys (level_quantities row))
            /\ Forall (fun kv => 1 <= snd kv /\ snd kv <= total_quantity row)
                      (level_quantities row))
         (table_data (res_quantity_table r)).
Proof.
  destruct (process_ifc_file_result f) as (rows & HF & Hwf & E).
  eexists. split; [exact E|]. cbn [res_quantity_table res_elements table_data].
  set (es := fst (process_elements f (snd (get_building_levels f init)))) in *.
  rewrite <- (py_sorted_perm String.ltb element_type rows).
  eapply Forall_impl; [exact (rows_entries _ _ (proj1 Hwf) HF)|].
  intros row (inner & Hget & Hrow). simpl.
  set (k := row_element_key row) in *.
  assert (Hin : wf_inner inner).
  { pose proof (inner_of_wf _ k Hwf) as H. unfold PyDict.get_default in H.
    rewrite Hget in H. exact H. }
  destruct (row_of_sums k inner Hin) as (row' & E' & Ht & Hnd & Hpos & Hsum).
  rewrite Hrow in E'. injection E' as <-.
  assert (Htot : total_quantity row = count_if (has_key k) es).
  { rewrite Ht, <- count_in_elements_total. unfold count_in. rewrite Hget. reflexivity. }
  assert (Hlev : sum_values (level_quantities row)
                 = count_if (fun e => has_key k e && level_truthy (level_id e)) es).
  { rewrite Hsum, <- Ht, Htot.
    pose proof (sum_inner_elements k es []) as S.
    unfold PyDict.get_default in S at 1. rewrite Hget in S. rewrite S.
    unfold PyDict.get_default, sum_values. simpl. lia. }
  assert (Hsplit : count_if (has_key k) es
                   = count_if (fun e => has_key k e && level_truthy (level_id e)) es
                     + count_if (fun e => has_key k e && unassigned e) es).
  { apply (count_if_split (has_key k) (fun e => level_truthy (level_id e))). }
  assert (Hk : k ∈ map element_key es).
  { apply keys_elements. apply get_Some_elem in Hget.
    apply (list_elem_of_fmap_2 fst _ _ Hget). }
  assert (H1 : 1 <= count_if (has_key k) es).
  { assert (0 < count_if (has_key k) es); [|lia].
    apply count_if_pos. apply list_elem_of_fmap in Hk as (e & -> & He).
    exists e. split; [apply list_elem_of_In, He|].
    unfold has_key. apply bool_decide_eq_true_2. reflexivity. }
  split; [lia|]. split; [lia|]. split; [exact Hnd|].
  destruct (sum_values_bound _ Hpos) as [_ Hb].
  pose proof (count_if_nonneg (fun e => has_key k e && unassigned e) es) as Hu.
  rewrite List.Forall_forall in *. intros kv Hkv.
  specialize (Hpos kv Hkv). specialize (Hb kv Hkv). simpl in *. lia.
Qed.

(** X18.  Every processed element is counted once: the totals of the rows
    of the table of the pipeline add up to the number of elements it
    returns, which is the number of products with a representation and a
    relevant type; and for every level id, the quantities of the rows at
    that level add up to the number of elements counted at that level. *)
Theorem quantity_table_totals_add_up (f : Ifc.File) :
  exists r,
    process_ifc_file f = Some r
    /\ sum_totals (table_data (res_quantity_table r))
       = Z.of_nat (length (res_elements r))
    /\ length (res_elements r)
       = length (List.filter is_relevant (Ifc.IfcProduct f))
    /\ forall i : Z,
         sum_at_level i (table_data (res_quantity_table r))
         = count_if (counted_at i) (res_elements r).
Proof.
  destruct (process_ifc_file_result f) as (rows & HF & Hwf & E).
  eexists. split; [exact E|]. cbn [res_quantity_table res_elements table_data].
  split; [|split].
  - rewrite <- (sum_totals_perm _ _ (py_sorted_perm String.ltb element_type rows)).
    rewrite (sum_totals_rows _ _ (proj2 Hwf) HF).
    rewrite sum_counts_accumulate, length_map. reflexivity.
  - rewrite process_elements_fst. apply length_map.
  - intros i.
    rewrite <- (sum_at_level_perm i _ _ (py_sorted_perm String.ltb element_type rows)).
    rewrite (sum_at_level_rows i _ _ (proj2 Hwf) HF).
    rewrite sum_counts_elements_level. unfold sum_counts. simpl. lia.
Qed.

End SumClaims.

(* ===================================================================== *)
(** * The order and the types of the rows *)
(* ===================================================================== *)

Section RowOrderFacts.
Import Py IFCProcessor Reference Notions.
Implicit Types (table : list (string * list (string * Z))).

Lemma filter_absorb {A : Type} (f g : A -> bool) (l : list A) :
  (forall x, f x = true -> g x = true) ->
  List.filter f (List.filter g l) = List.filter f l.
Proof.
  intros H. induction l as [|x l IH]; [reflexivity|]. simpl.
  destruct (g x) eqn:G; simpl.
  - rewrite IH. reflexivity.
  - destruct (f x) eqn:F; [|exact IH].
    rewrite (H x F) in G. discriminate.
Qed.

Lemma filter_both {A : Type} (f g h : A -> bool) (l : list A) :
  (forall x, h x = g x && f x) ->
  List.filter h l = List.filter f (List.filter g l).
Proof.
  intros H. induction l as [|x l IH]; [reflexivity|]. simpl.
  rewrite H. destruct (g x); simpl; [destruct (f x)|]; rewrite IH; reflexivity.
Qed.

Lemma keys_update table (k : string) (lvl : option Z) :
  PyDict.keys (_update_quantity_table k lvl table)
  = if decide (k ∈ PyDict.keys table) then PyDict.keys table
    else PyDict.keys table ++ [k].
Proof.
  assert (H2 : forall f t, k ∈ PyDict.keys t ->
                 PyDict.keys (increment k f t) = PyDict.keys t).
  { intros f t Hk. rewrite keys_increment. rewrite decide_True by exact Hk. reflexivity. }
  assert (H1 : k ∈ PyDict.keys (increment k "total_count" table))
    by (apply elem_keys_increment; auto).
  unfold _update_quantity_table.
  destruct lvl as [i|]; [destruct (level_truthy (Some i))|];
    rewrite ?(H2 _ _ H1); apply keys_increment.
Qed.

(** The keys of the table are the keys of the elements, each at its first
    occurrence. *)
Lemma keys_accumulate_first (pairs : list (string * option Z)) :
  forall table,
    PyDict.keys (accumulate pairs table)
    = PyDict.keys table
      ++ List.filter (fun k => negb (bool_decide (k ∈ PyDict.keys table)))
                     (first_occurrences (map fst pairs)).
Proof.
  induction pairs as [|[k lvl] pairs IH]; intros table.
  - simpl. rewrite app_nil_r. reflexivity.
  - cbn [map fst first_occurrences]. unfold accumulate in *. cbn [fold_left fst snd].
    rewrite IH, keys_update. cbn [List.filter].
    destruct (decide (k ∈ PyDict.keys table)) as [Hin|Hnin].
    + rewrite bool_decide_eq_true_2 by exact Hin. cbn [negb].
      f_equal. symmetry. apply filter_absorb.
      intros x Hx. apply negb_true_iff, bool_decide_eq_false in Hx.
      apply negb_true_iff, bool_decide_eq_false_2. intros ->. contradiction.
    + rewrite bool_decide_eq_false_2 by exact Hnin. cbn [negb].
      rewrite <- app_assoc. cbn [app]. f_equal. f_equal.
      apply filter_both. intros x.
      destruct (decide (x = k)) as [->|N].
      * rewrite (bool_decide_eq_true_2 (k = k)) by reflexivity.
        rewrite bool_decide_eq_true_2; [reflexivity|].
        apply elem_of_app. right. apply list_elem_of_singleton. reflexivity.
      * rewrite (bool_decide_eq_false_2 (x = k)) by exact N. cbn [negb andb].
        f_equal. apply bool_decide_ext.
        rewrite elem_of_app, list_elem_of_singleton. tauto.
Qed.

Lemma filter_all {A : Type} (f : A -> bool) (l : list A) :
  (forall x, f x = true) -> List.filter f l = l.
Proof.
  intros H. induction l as [|x l IH]; [reflexivity|]. simpl.
  rewrite H, IH. reflexivity.
Qed.

Lemma keys_elements_first (es : list Element) :
  PyDict.keys (accumulate (map key_level es) [])
  = first_occurrences (map element_key es).
Proof.
  rewrite keys_accumulate_first, map_map. cbn [PyDict.keys map app].
  apply filter_all. intros x. apply negb_true_iff, bool_decide_eq_false_2.
  apply not_elem_of_nil.
Qed.

Lemma filter_map_keys (t : string) (rows : list Row) :
  Forall (fun row => element_type row = type_of_key (row_element_key row)) rows ->
  map row_element_key
      (List.filter (fun row => String.eqb (element_type row) t) rows)
  = List.filter (fun k => String.eqb (type_of_key k) t) (map row_element_key rows).
Proof.
  induction 1 as [|row rows Hr _ IH]; [reflexivity|]. simpl.
  rewrite Hr. destruct (String.eqb _ t); simpl; rewrite IH; reflexivity.
Qed.

Lemma string_ltb_leb_trans (a b c : string) :
  String.ltb a b = true -> String.leb b c = true -> String.ltb a c = true.
Proof.
  unfold String.ltb, String.leb. intros H1 H2.
  destruct (String.compare a b) eqn:E1; try discriminate.
  destruct (String.compare b c) eqn:E2; try discriminate.
  - apply String.compare_eq_iff in E2. subst. rewrite E1. reflexivity.
  - rewrite (string_compare_lt_trans _ _ _ E1 E2). reflexivity.
Qed.

(** The key of an element starts with its type and an underscore. *)
Lemma create_element_key_split (t : string) (d : gmap string pynum) :
  exists rest, _create_element_key t d = t +:+ String "_" rest.
Proof.
  unfold _create_element_key.
  destruct (bool_decide (d = ∅)); [exists "default"; reflexivity|].
  destruct (map _ _) as [|part parts]; [exists "default"; reflexivity|].
  eexists. reflexivity.
Qed.

Lemma type_of_create_element_key (t : string) (d : gmap string pynum) :
  no_char "_" t -> type_of_key (_create_element_key t d) = t.
Proof.
  intros Ht. destruct (create_element_key_split t d) as [rest ->].
  unfold type_of_key. rewrite split_app_sep by exact Ht. reflexivity.
Qed.

Lemma no_char_contains (c : ascii) (s : string) :
  contains_char c s = false -> no_char c s.
Proof.
  induction s as [|a s IH]; simpl; [auto|].
  intros H. apply orb_false_iff in H as [H1 H2].
  split; [apply Ascii.eqb_neq, H1|apply IH, H2].
Qed.

(** No relevant type has an underscore in its name, and each has a unit. *)
Lemma relevant_types_units (t : string) :
  t ∈ RELEVANT_ELEMENT_TYPES ->
  no_char "_" t /\ is_Some (PyDict.get t UNIT_MAPPINGS).
Proof.
  intros Ht.
  assert (H : forallb (fun t => negb (contains_char "_" t)
                                && match PyDict.get t UNIT_MAPPINGS with
                                   | Some _ => true
                                   | None => false
                                   end) RELEVANT_ELEMENT_TYPES = true)
    by (vm_compute; reflexivity).
  rewrite forallb_forall in H. apply list_elem_of_In in Ht.
  specialize (H t Ht). apply andb_true_iff in H as [H1 H2].
  split; [apply no_char_contains, negb_true_iff, H1|].
  destruct (PyDict.get t UNIT_MAPPINGS); [eauto|discriminate].
Qed.

End RowOrderFacts.

Section RowOrderClaims.
Import Py IFCProcessor Reference Notions.

(** X19.  The order of the rows of the table of the pipeline is determined: the
    rows are in ascending order of element type, and the rows of one
    element type are in the order in which their keys first occur among the
    processed elements. *)
Theorem rows_keep_first_seen_order (f : Ifc.File) :
  exists r,
    process_ifc_file f = Some r
    /\ sorted_by_type (table_data (res_quantity_table r))
    /\ forall t : string,
         map row_element_key
             (List.filter (fun row => String.eqb (element_type row) t)
                          (table_data (res_quantity_table r)))
         = List.filter (fun k => String.eqb (type_of_key k) t)
                       (first_occurrences (map element_key (res_elements r))).
Proof.
  destruct (process_ifc_file_result f) as (rows & HF & Hwf & E).
  eexists. split; [exact E|]. cbn [res_quantity_table res_elements table_data].
  split; [apply sorted_rows_by_type|].
  intros t.
  rewrite (py_sorted_stable String.ltb String.leb element_type (fun _ => True)).
  - rewrite filter_map_keys.
    + rewrite (rows_keys _ _ HF (proj2 Hwf)), keys_elements_first. reflexivity.
    + eapply Forall_impl; [exact (rows_match _ _ Hwf HF)|].
      intros row (_ & Ht & _). exact Ht.
  - intros a b _ _. apply string_leb_total.
  - apply string_ltb_leb.
  - apply string_leb_trans.
  - apply string_ltb_leb_trans.
  - intros a b Ha Hb. apply String.eqb_eq in Ha, Hb.
    rewrite Ha, Hb. apply string_ltb_irrefl.
  - apply List.Forall_forall. auto.
Qed.

(** X14.  The element type a row reads back from an element key is the type the
    key was made from, for every type without an underscore in its name and
    every dimensions mapping; so the row of such a key has that type and the
    unit mapped to it (["units"] when none is). *)
Theorem element_type_read_back_from_key (t : string) (d : gmap string pynum) :
  no_char "_" t ->
  type_of_key (_create_element_key t d) = t
  /\ forall inner : list (string * Z),
       wf_inner inner ->
       exists row,
         row_of (_create_element_key t d, inner) = Some row
         /\ row_element_key row = _create_element_key t d
         /\ element_type row = t
         /\ unit_of_measure row = PyDict.get_default t "units" UNIT_MAPPINGS.
Proof.
  intros Ht. pose proof (type_of_create_element_key t d Ht) as Hk.
  split; [exact Hk|]. intros inner Hin.
  destruct (row_of_wf (_create_element_key t d) inner Hin)
    as (row & E & H1 & H2 & H3 & _).
  exists row. unfold type_of_key in Hk. rewrite Hk in H2, H3. auto.
Qed.

Lemma element_type_read_back_from_key_witness :
  type_of_key
    (_create_element_key "IfcStairFlight"
       (<["Width" := NFloat (lit 2.345)]> {[ "Length" := NFloat one ]}))
  = "IfcStairFlight".
Proof.
  apply (element_type_read_back_from_key "IfcStairFlight").
  simpl. repeat split; discriminate.
Defined.

(** X20.  Every row of the table of the pipeline is the row of some processed
    element: its element type is that element's IFC type, a relevant type,
    and its unit is the unit mapped to that type; the fallback ["units"] is
    never used for want of a mapping. *)
Theorem rows_have_relevant_types_and_units (f : Ifc.File) :
  exists r,
    process_ifc_file f = Some r
    /\ Forall
         (fun row =>
            element_type row ∈ RELEVANT_ELEMENT_TYPES
            /\ PyDict.get (element_type row) UNIT_MAPPINGS = Some (unit_of_measure row)
            /\ exists e,
                 e ∈ res_elements r
                 /\ element_key e = row_element_key row
                 /\ el_type e = element_type row)
         (table_data (res_quantity_table r)).
Proof.
  destruct (process_ifc_file_result f) as (rows & HF & Hwf & E).
  eexists. split; [exact E|]. cbn [res_quantity_table res_elements table_data].
  rewrite <- (py_sorted_perm String.ltb element_type rows).
  eapply Forall_impl; [exact (rows_match _ _ Hwf HF)|].
  intros row (Hk & Ht & Hu & _). cbn beta.
  apply keys_elements in Hk. apply list_elem_of_fmap in Hk as (e & Hke & He).
  pose proof He as He'. rewrite process_elements_fst in He'.
  apply list_elem_of_fmap in He' as (p & Hp & Hin).
  apply list_elem_of_In, List.filter_In in Hin as [_ Hrel].
  unfold is_relevant in Hrel. apply andb_true_iff in Hrel as [_ Hrel].
  apply bool_decide_eq_true in Hrel.
  destruct (relevant_types_units _ Hrel) as [Hno [u Hget]].
  assert (Hty : element_type row = Ifc.is_a p).
  { rewrite Ht, Hke, Hp. simpl. apply (type_of_create_element_key _ _ Hno). }
  split; [rewrite Hty; exact Hrel|]. split.
  - rewrite Hu. unfold PyDict.get_default. rewrite Hty, Hget. reflexivity.
  - exists e. split; [exact He|]. split; [symmetry; exact Hke|].
    rewrite Hty, Hp. reflexivity.
Qed.

End RowOrderClaims.

(* ===================================================================== *)
(** * The levels of the result *)
(* ===================================================================== *)

Section ResultLevels.
Import Py IFCProcessor Reference Notions.

(** X21.  The result of the pipeline lists the levels twice, under ['levels']
    and under ['quantity_table']['levels'].  On a file whose storeys have
    distinct ids and no NaN elevation the two lists are the same, whether
    or not any element was processed: one level per storey, in ascending
    order of elevation. *)
Theorem result_levels_agree (f : Ifc.File) :
  NoDup (map Ifc.id (Ifc.IfcBuildingStorey f)) ->
  Forall (fun s => isnan (_get_level_elevation s) = false) (Ifc.IfcBuildingStorey f) ->
  exists r,
    process_ifc_file f = Some r
    /\ levels (res_quantity_table r) = res_levels r
    /\ sorted_by_elevation (res_levels r)
    /\ Permutation (map level_of_storey (Ifc.IfcBuildingStorey f)) (res_levels r).
Proof.
  intros Hnd Hnan.
  destruct (process_ifc_file_result f) as (rows & _ & _ & E).
  eexists. split; [exact E|]. cbn [res_quantity_table res_levels levels].
  pose proof (sorted_levels_ascending f init Hnan) as Hs.
  split; [|split; [exact Hs|apply sorted_levels_perm]].
  rewrite (cache_values_distinct _ (sorted_levels_NoDup f init Hnd)).
  destruct (accumulate _ _); [reflexivity|].
  apply (py_sorted_ascending_id flt fle elevation fle_not_flt). exact Hs.
Qed.

Lemma result_levels_agree_witness :
  exists r,
    process_ifc_file (example_file three_storeys wall_door_wall) = Some r
    /\ levels (res_quantity_table r) = res_levels r.
Proof.
  destruct (result_levels_agree (example_file three_storeys wall_door_wall))
    as (r & E & H & _).
  - apply (bool_decide_unpack _). vm_compute. exact I.
  - repeat apply List.Forall_cons; try apply List.Forall_nil; reflexivity.
  - exists r. split; [exact E|exact H].
Defined.

End ResultLevels.

(* ===================================================================== *)
(** * Further properties of the merge *)
(* ===================================================================== *)

Section MergeFurther.
Import Py GeometryExtractor IFCProcessor Main Reference Notions.

Lemma mapping_lookup_enhance (m m' : gmap string (string * option Z))
  (r : gmap string pyval) :
  mapping_lookup m' (enhance_element m r !! "id") = mapping_lookup m' (r !! "id").
Proof. rewrite enhance_element_frame by discriminate. reflexivity. Qed.

Lemma insert_pair_twice (r : gmap string pyval) (a b a' b' : pyval) :
  <["level_id" := a]> (<["element_key" := b]>
     (<["level_id" := a']> (<["element_key" := b']> r)))
  = <["level_id" := a]> (<["element_key" := b]> r).
Proof.
  apply map_eq. intros k.
  destruct (decide (k = "level_id")) as [->|N1].
  - rewrite !lookup_insert_eq. reflexivity.
  - rewrite !(lookup_insert_ne _ "level_id") by congruence.
    destruct (decide (k = "element_key")) as [->|N2].
    + rewrite !lookup_insert_eq. reflexivity.
    + rewrite !(lookup_insert_ne _ "element_key") by congruence.
      rewrite !(lookup_insert_ne _ "level_id") by congruence.
      rewrite !(lookup_insert_ne _ "element_key") by congruence. reflexivity.
Qed.

Lemma enhance_element_twice (m1 m2 : gmap string (string * option Z))
  (r : gmap string pyval) :
  enhance_element m2 (enhance_element m1 r) = enhance_element m2 r.
Proof.
  unfold enhance_element at 1 3.
  rewrite mapping_lookup_enhance.
  rewrite (enhance_element_frame m1 r "ifcType") by discriminate.
  unfold enhance_element.
  destruct (mapping_lookup m2 (r !! "id")), (mapping_lookup m1 (r !! "id"));
    apply insert_pair_twice.
Qed.

(** X23.  A merge overwrites what an earlier merge has set: merging with one
    list of elements and then with another gives what merging with the
    other alone gives.  In particular the merge is idempotent. *)
Theorem enhance_overwrites_earlier_merge
  (geometry_data : GeometryData) (es1 es2 : list Element) :
  _enhance_geometry_with_element_data
    (_enhance_geometry_with_element_data geometry_data es1) es2
  = _enhance_geometry_with_element_data geometry_data es2
  /\ _enhance_geometry_with_element_data
       (_enhance_geometry_with_element_data geometry_data es2) es2
     = _enhance_geometry_with_element_data geometry_data es2.
Proof.
  assert (H : forall es,
             _enhance_geometry_with_element_data
               (_enhance_geometry_with_element_data geometry_data es) es2
             = _enhance_geometry_with_element_data geometry_data es2).
  { intros es. unfold _enhance_geometry_with_element_data. simpl. f_equal.
    rewrite map_map. apply map_ext. intros r. apply enhance_element_twice. }
  split; apply H.
Qed.

(** ** The two pipelines on one file *)

Lemma last_with_id_unique (es : list Element) (e : Element) :
  NoDup (map global_id es) -> e ∈ es -> last_with_id (global_id e) es = Some e.
Proof.
  induction es as [|x es IH]; intros Hnd He.
  - apply elem_of_nil in He. contradiction.
  - simpl in Hnd. apply NoDup_cons in Hnd as [Hx Hnd]. simpl.
    apply elem_of_cons in He as [->|He].
    + assert (L : last_with_id (global_id x) es = None).
      { apply last_with_id_None. apply List.Forall_forall. intros y Hy E.
        apply Hx. rewrite <- E. apply list_elem_of_fmap_2, list_elem_of_In, Hy. }
      rewrite L. rewrite decide_True by reflexivity. reflexivity.
    + rewrite (IH Hnd He). reflexivity.
Qed.

Lemma NoDup_map_filter {A B : Type} (g : A -> B) (h : A -> bool) (l : list A) :
  NoDup (map g l) -> NoDup (map g (List.filter h l)).
Proof.
  induction l as [|x l IH]; simpl; intros H; [constructor|].
  apply NoDup_cons in H as [Hx H].
  destruct (h x); simpl; [|apply IH, H].
  apply NoDup_cons. split; [|apply IH, H].
  intros Hin. apply Hx. apply list_elem_of_fmap in Hin as (y & E & Hy).
  rewrite E. apply list_elem_of_fmap_2.
  apply list_elem_of_In, List.filter_In in Hy as [Hy _]. apply list_elem_of_In, Hy.
Qed.

Lemma NoDup_map_eq {A B : Type} (g : A -> B) (l : list A) (x y : A) :
  NoDup (map g l) -> x ∈ l -> y ∈ l -> g x = g y -> x = y.
Proof.
  induction l as [|z l IH]; simpl; intros Hnd Hx Hy E.
  - apply elem_of_nil in Hx. contradiction.
  - apply NoDup_cons in Hnd as [Hz Hnd].
    apply elem_of_cons in Hx as [->|Hx]; apply elem_of_cons in Hy as [->|Hy].
    + reflexivity.
    + exfalso. apply Hz. rewrite E. apply list_elem_of_fmap_2, Hy.
    + exfalso. apply Hz. rewrite <- E. apply list_elem_of_fmap_2, Hx.
    + apply IH; assumption.
Qed.

Lemma Forall2_filter_omap {A B C : Type} (g : A -> option B) (h : B -> C)
  (P : A -> C -> Prop) (l : list A) :
  (forall x y, x ∈ l -> g x = Some y -> P x (h y)) ->
  Forall2 P (List.filter (fun x => bool_decide (is_Some (g x))) l) (map h (omap g l)).
Proof.
  induction l as [|x l IH]; intros H; [constructor|].
  rewrite omap_cons. cbn [List.filter].
  assert (IH' : Forall2 P (List.filter (fun x => bool_decide (is_Some (g x))) l)
                        (map h (omap g l))).
  { apply IH. intros x' y Hx'. apply H. apply elem_of_cons. auto. }
  destruct (g x) as [y|] eqn:E.
  - rewrite bool_decide_eq_true_2 by eauto. simpl. constructor; [|exact IH'].
    apply H; [apply elem_of_cons; auto|exact E].
  - rewrite bool_decide_eq_false_2 by (intros [y Hy]; discriminate). exact IH'.
Qed.

(** The lookup of the merge, on the elements the processing pipeline
    returns for a file with distinct GlobalIds. *)
Lemma pipeline_mapping_lookup (f : Ifc.File) (st : State) (p : Ifc.Product) :
  NoDup (map Ifc.GlobalId (Ifc.IfcProduct f)) ->
  p ∈ Ifc.IfcProduct f ->
  element_mapping (fst (process_elements f st)) !! Ifc.GlobalId p
  = if is_relevant p && str_truthy (Ifc.GlobalId p)
    then Some (_create_element_key (Ifc.is_a p) (_get_element_dimensions p),
               _get_element_level st p)
    else None.
Proof.
  intros Hnd Hp. rewrite element_mapping_lookup, process_elements_fst.
  destruct (str_truthy (Ifc.GlobalId p)) eqn:T; [|rewrite andb_false_r; reflexivity].
  rewrite andb_true_r.
  set (es := map (fun q => fst (_process_single_element st q))
                 (List.filter is_relevant (Ifc.IfcProduct f))).
  assert (Hids : map global_id es
                 = map Ifc.GlobalId (List.filter is_relevant (Ifc.IfcProduct f))).
  { unfold es. rewrite map_map. reflexivity. }
  destruct (is_relevant p) eqn:R.
  - assert (He : fst (_process_single_element st p) ∈ es).
    { unfold es.
      apply (list_elem_of_fmap_2 (fun q => fst (_process_single_element st q))).
      apply list_elem_of_In, List.filter_In. split; [apply list_elem_of_In, Hp|exact R]. }
    change (Ifc.GlobalId p) with (global_id (fst (_process_single_element st p))).
    rewrite last_with_id_unique; [reflexivity| |exact He].
    rewrite Hids. apply NoDup_map_filter, Hnd.
  - assert (L : last_with_id (Ifc.GlobalId p) es = None).
    { apply last_with_id_None. apply List.Forall_forall. intros e He E.
      unfold es in He. apply List.in_map_iff in He as (q & <- & Hq).
      apply List.filter_In in Hq as [Hq Rq]. simpl in E.
      assert (q = p).
      { apply (NoDup_map_eq Ifc.GlobalId (Ifc.IfcProduct f)); try assumption.
        apply list_elem_of_In, Hq. }
      subst q. congruence. }
    rewrite L. reflexivity.
Qed.

(** X24.  Both pipelines run on one file whose products have distinct GlobalIds,
    and merged: the payload has one record per product with a
    representation, a shape and a valid box, in file order, with the
    product's GlobalId as its id.  The record of a product of a relevant
    type (with a non-empty GlobalId) carries the element key and the level
    the processing pipeline gave that product, and that key is the key of a
    row of the quantity table; the record of any other product carries the
    default key of its IFC type and no level. *)
Theorem merged_records_carry_pipeline_keys (f : Ifc.File) :
  NoDup (map Ifc.GlobalId (Ifc.IfcProduct f)) ->
  exists r,
    process_ifc_file f = Some r
    /\ Forall2
         (fun p r' =>
            r' !! "id" = Some (VStr (Ifc.GlobalId p))
            /\ r' !! "ifcType" = Some (VStr (Ifc.is_a p))
            /\ if is_relevant p && str_truthy (Ifc.GlobalId p)
               then r' !! "element_key"
                    = Some (VStr (_create_element_key (Ifc.is_a p)
                                    (_get_element_dimensions p)))
                    /\ r' !! "level_id"
                       = Some (level_val
                                 (_get_element_level
                                    (snd (get_building_levels f init)) p))
                    /\ _create_element_key (Ifc.is_a p) (_get_element_dimensions p)
                       ∈ map row_element_key (table_data (res_quantity_table r))
               else r' !! "element_key" = Some (VStr (Ifc.is_a p +:+ "_default"))
                    /\ r' !! "level_id" = Some VNone)
         (List.filter (fun p => bool_decide (is_Some (extracted_record p)))
                      (Ifc.IfcProduct f))
         (elements
            (_enhance_geometry_with_element_data (extract_simple_geometry f)
               (res_elements r))).
Proof.
  intros Hnd.
  destruct (process_ifc_file_result f) as (rows & HF & Hwf & E).
  eexists. split; [exact E|]. cbn [res_quantity_table res_elements table_data].
  set (st1 := snd (get_building_levels f init)) in *.
  set (es := fst (process_elements f st1)) in *.
  unfold _enhance_geometry_with_element_data. cbn [elements].
  assert (Hel : elements (extract_simple_geometry f)
                = omap extracted_record (Ifc.IfcProduct f)).
  { unfold extract_simple_geometry. rewrite extract_fold. reflexivity. }
  rewrite Hel.
  apply Forall2_filter_omap. intros p rec Hp Hrec.
  assert (Hid : rec !! "id" = Some (VStr (Ifc.GlobalId p))
                /\ rec !! "ifcType" = Some (VStr (Ifc.is_a p))).
  { unfold extracted_record in Hrec.
    destruct (Ifc.Representation p); [|discriminate].
    destruct (Ifc.create_shape p) as [| |verts]; try discriminate.
    destruct (_is_valid_geometry _); [|discriminate].
    injection Hrec as <-. split; reflexivity. }
  destruct Hid as [Hid Hty].
  split; [rewrite enhance_element_frame by discriminate; exact Hid|].
  split; [rewrite enhance_element_frame by discriminate; exact Hty|].
  destruct (enhance_element_lookup (element_mapping es) rec) as [Hk Hl].
  rewrite Hk, Hl, Hid. cbn [mapping_lookup].
  unfold es. rewrite (pipeline_mapping_lookup f st1 p Hnd Hp).
  destruct (is_relevant p && str_truthy (Ifc.GlobalId p)) eqn:R.
  - cbn [fst snd]. split; [reflexivity|]. split; [reflexivity|].
    rewrite <- (py_sorted_perm String.ltb element_type rows).
    rewrite (rows_keys _ _ HF (proj2 Hwf)). apply keys_elements.
    apply andb_true_iff in R as [R _].
    fold es. unfold es. rewrite process_elements_fst, map_map. simpl.
    apply (list_elem_of_fmap_2
             (fun q => _create_element_key (Ifc.is_a q) (_get_element_dimensions q))).
    apply list_elem_of_In, List.filter_In. split; [apply list_elem_of_In, Hp|exact R].
  - split; [|reflexivity]. unfold ifc_type_of. rewrite Hty. reflexivity.
Qed.

Lemma merged_records_carry_pipeline_keys_witness :
  exists r,
    process_ifc_file (example_file three_storeys wall_opening_door) = Some r
    /\ length (elements
                 (_enhance_geometry_with_element_data
                    (extract_simple_geometry (example_file three_storeys wall_opening_door))
                    (res_elements r))) = 2%nat.
Proof.
  destruct (merged_records_carry_pipeline_keys
              (example_file three_storeys wall_opening_door)) as (r & E & H).
  - apply (bool_decide_unpack _). vm_compute. exact I.
  - exists r. split; [exact E|].
    apply Forall2_length in H. rewrite <- H. vm_compute. reflexivity.
Defined.

End MergeFurther.

(* ===================================================================== *)
(** * The file-name check of the upload *)
(* ===================================================================== *)

Section AllowedFile.
Import Py Main Reference.

Lemma append_cons (c : ascii) (a b : string) :
  String c a +:+ b = String c (a +:+ b).
Proof. reflexivity. Qed.

Lemma rsplit1_no_sep (c : ascii) (s : string) :
  no_char c s -> rsplit1 c s = [s].
Proof.
  induction s as [|a s IH]; simpl; [reflexivity|].
  intros [Ha Hs]. rewrite (IH Hs).
  rewrite (proj2 (Ascii.eqb_neq a c) Ha). reflexivity.
Qed.

Lemma rsplit1_last (c : ascii) (stem ext : string) :
  no_char c ext -> rsplit1 c (stem +:+ String c ext) = [stem; ext].
Proof.
  intros Hext. induction stem as [|a stem IH].
  - simpl. rewrite (rsplit1_no_sep c ext Hext), Ascii.eqb_refl. reflexivity.
  - rewrite append_cons. cbn [rsplit1]. rewrite IH. reflexivity.
Qed.

Lemma contains_char_no_char (c : ascii) (s : string) :
  contains_char c s = false <-> no_char c s.
Proof.
  induction s as [|a s IH]; simpl; [tauto|].
  rewrite orb_false_iff, IH, Ascii.eqb_neq. reflexivity.
Qed.

Lemma contains_char_app (c : ascii) (stem ext : string) :
  contains_char c (stem +:+ String c ext) = true.
Proof.
  induction stem as [|a stem IH].
  - simpl. rewrite Ascii.eqb_refl. reflexivity.
  - rewrite append_cons. cbn [contains_char]. rewrite IH. apply orb_true_r.
Qed.

(** A string has no [c], or it is a stem, the last [c], and an extension. *)
Lemma last_char_split (c : ascii) (s : string) :
  no_char c s
  \/ exists stem ext, s = stem +:+ String c ext /\ no_char c ext.
Proof.
  induction s as [|a s IH]; [left; exact I|].
  destruct IH as [Hs|(stem & ext & -> & Hext)].
  - destruct (Ascii.eqb_spec a c) as [->|N].
    + right. exists EmptyString, s. auto.
    + left. split; assumption.
  - right. exists (String a stem), ext. auto.
Qed.

(** X25.  The file-name check never raises (the index 1 exists whenever the
    name has a dot).  A name without a dot is refused; a name with a dot is
    accepted exactly when what follows its last dot is ["ifc"] once put in
    lower case: the letters of the extension may be of either case, and
    nothing is asked of what stands before the last dot, which may be empty
    or hold more dots.  Every name is of one of the two forms. *)
Theorem is_allowed_file_by_last_extension :
  (forall filename : string, is_Some (is_allowed_file filename))
  /\ (forall filename : string,
        no_char "." filename -> is_allowed_file filename = Some false)
  /\ (forall stem ext : string,
        no_char "." ext ->
        is_allowed_file (stem +:+ String "." ext)
        = Some (bool_decide (lower ext = "ifc")))
  /\ (forall filename : string,
        no_char "." filename
        \/ exists stem ext,
             filename = stem +:+ String "." ext /\ no_char "." ext)
  /\ is_allowed_file "model.IFC" = Some true
  /\ is_allowed_file ".ifc" = Some true
  /\ is_allowed_file "model.ifc.bak" = Some false
  /\ is_allowed_file "ifc" = Some false.
Proof.
  assert (H1 : forall filename : string,
             no_char "." filename -> is_allowed_file filename = Some false).
  { intros filename H. unfold is_allowed_file.
    rewrite (proj2 (contains_char_no_char "." filename) H). reflexivity. }
  assert (H2 : forall stem ext : string,
             no_char "." ext ->
             is_allowed_file (stem +:+ String "." ext)
             = Some (bool_decide (lower ext = "ifc"))).
  { intros stem ext H. unfold is_allowed_file.
    rewrite contains_char_app, (rsplit1_last "." stem ext H). simpl.
    f_equal. apply bool_decide_ext. unfold ALLOWED_EXTENSIONS.
    rewrite list_elem_of_singleton. reflexivity. }
  split.
  { intros filename.
    destruct (last_char_split "." filename) as [H|(stem & ext & -> & H)].
    - rewrite (H1 _ H). eauto.
    - rewrite (H2 _ _ H). eauto. }
  split; [exact H1|]. split; [exact H2|].
  split; [apply last_char_split|].
  repeat split; vm_compute; reflexivity.
Qed.

End AllowedFile.

(* ===================================================================== *)
(** * Colours, units and relevant types *)
(* ===================================================================== *)

Section TypeTables.
Import Py GeometryExtractor IFCProcessor Reference.

(** X7.  The colour table of the geometry extractor and the unit table of the
    processor are keyed by the relevant element types, all 19 of them and no
    other: so [get_material_color] gives its fallback colour ['#999999']
    exactly for the types that are not relevant, and the unit lookup falls
    back to ['units'] for want of an entry exactly for those types. *)
Theorem type_tables_cover_relevant_types (t : string) :
  PyDict.keys MATERIAL_COLORS = RELEVANT_ELEMENT_TYPES
  /\ PyDict.keys UNIT_MAPPINGS = RELEVANT_ELEMENT_TYPES
  /\ NoDup RELEVANT_ELEMENT_TYPES
  /\ (get_material_color t = "#999999" <-> t ∉ RELEVANT_ELEMENT_TYPES)
  /\ (PyDict.get t UNIT_MAPPINGS = None <-> t ∉ RELEVANT_ELEMENT_TYPES)
  /\ (PyDict.get t MATERIAL_COLORS = None <-> t ∉ RELEVANT_ELEMENT_TYPES).
Proof.
  assert (K1 : PyDict.keys MATERIAL_COLORS = RELEVANT_ELEMENT_TYPES) by reflexivity.
  assert (K2 : PyDict.keys UNIT_MAPPINGS = RELEVANT_ELEMENT_TYPES) by reflexivity.
  split; [exact K1|]. split; [exact K2|].
  split; [apply (bool_decide_unpack _); vm_compute; exact I|].
  assert (G1 : PyDict.get t MATERIAL_COLORS = None <-> t ∉ RELEVANT_ELEMENT_TYPES).
  { rewrite <- K1. apply get_None_keys. }
  assert (G2 : PyDict.get t UNIT_MAPPINGS = None <-> t ∉ RELEVANT_ELEMENT_TYPES).
  { rewrite <- K2. apply get_None_keys. }
  split; [|split; assumption].
  split.
  - intros Hc Hin.
    assert (H : forallb (fun t => negb (String.eqb (get_material_color t) "#999999"))
                        RELEVANT_ELEMENT_TYPES = true) by (vm_compute; reflexivity).
    rewrite forallb_forall in H. apply list_elem_of_In in Hin.
    specialize (H t Hin). rewrite Hc in H. discriminate.
  - intros Hn. apply G1 in Hn. unfold get_material_color, PyDict.get_default.
    rewrite Hn. reflexivity.
Qed.

End TypeTables.

(* ===================================================================== *)
(** * The statistics of the geometry extractor *)
(* ===================================================================== *)

Section StatisticsFacts.
Import Py GeometryExtractor Reference Notions.

Local Open Scope Z_scope.

Lemma count_type_fold (products : list Ifc.Product) :
  forall counts : list (string * Z),
    NoDup (PyDict.keys counts) ->
    Forall (fun kv => 1 <= snd kv) counts ->
    let counts' := fold_left count_type products counts in
    NoDup (PyDict.keys counts')
    /\ Forall (fun kv => 1 <= snd kv) counts'
    /\ sum_values counts' = sum_values counts + Z.of_nat (length products)
    /\ forall t : string,
         PyDict.get_default t 0 counts'
         = PyDict.get_default t 0 counts
           + count_if (fun p => bool_decide (Ifc.is_a p = t)) products.
Proof.
  induction products as [|p products IH]; intros counts Hnd Hpos; cbn [fold_left].
  - repeat split; try assumption; [simpl; lia|].
    intros t. unfold count_if. simpl. lia.
  - destruct (IH (count_type counts p)) as (H1 & H2 & H3 & H4).
    + apply NoDup_keys_set, Hnd.
    + apply positive_bump, Hpos.
    + repeat split; try assumption.
      * rewrite H3. unfold count_type. rewrite sum_values_bump.
        cbn [length]. lia.
      * intros t. rewrite H4. unfold count_type at 1.
        rewrite get_default_bump, count_if_cons.
        destruct (decide (Ifc.is_a p = t)) as [E|N].
        -- rewrite bool_decide_eq_true_2 by exact E. lia.
        -- rewrite bool_decide_eq_false_2 by exact N. lia.
Qed.

Lemma int_truediv_Some (a b : Z) : b <> 0 -> is_Some (int_truediv a b).
Proof.
  intros Hb. unfold int_truediv. destruct a, b; try congruence; eauto.
Qed.

(** The records of the payload of one type, against the products with a
    representation of that type. *)
Lemma extracted_count_le (t : string) (products : list Ifc.Product) :
  count_if (has_ifc_type t) (omap extracted_record products)
  <= count_if (fun p => bool_decide (Ifc.is_a p = t))
              (filter (fun p => Ifc.Representation p = true) products).
Proof.
  induction products as [|p products IH]; [reflexivity|].
  rewrite omap_cons, filter_cons. unfold extracted_record at 1.
  destruct (Ifc.Representation p) eqn:R.
  - rewrite decide_True by reflexivity. rewrite count_if_cons.
    destruct (Ifc.create_shape p) as [| |verts];
      try (destruct (bool_decide (Ifc.is_a p = t)); lia).
    destruct (_is_valid_geometry _);
      [|destruct (bool_decide (Ifc.is_a p = t)); lia].
    rewrite count_if_cons.
    change (has_ifc_type t (element_data p (_calculate_bounding_box verts)))
      with (bool_decide (Ifc.is_a p = t)).
    destruct (bool_decide (Ifc.is_a p = t)); lia.
  - rewrite decide_False by discriminate. exact IH.
Qed.

(** X6.  [extract_geometry_statistics] never answers with an error (the
    division is guarded: a file without products has the percentage 0, an
    [int]), and its counts agree with the payload of
    [extract_simple_geometry] on the same file: the same number of products
    and of products with geometry, the same project name; its count of a
    type is the number of products of that type with a representation, at
    least the number of records of that type in the payload; and the counts
    add up to the number of products with geometry. *)
Theorem geometry_statistics_agree_with_payload (f : Ifc.File) :
  exists s,
    extract_geometry_statistics f = Some s
    /\ total_elements s = totalInFile (metadata (extract_simple_geometry f))
    /\ elements_with_geometry s = withGeometry (metadata (extract_simple_geometry f))
    /\ elements_with_geometry s <= total_elements s
    /\ project_name s = projectName (metadata (extract_simple_geometry f))
    /\ schema_version s = Ifc.schema f
    /\ NoDup (PyDict.keys (element_types s))
    /\ sum_values (element_types s) = elements_with_geometry s
    /\ (forall t : string,
          PyDict.get_default t 0 (element_types s)
          = count_if (fun p => bool_decide (Ifc.is_a p = t))
                     (filter (fun p => Ifc.Representation p = true) (Ifc.IfcProduct f))
          /\ PyDict.get_default t 0
               (elementTypes (metadata (extract_simple_geometry f)))
             <= PyDict.get_default t 0 (element_types s))
    /\ (Ifc.IfcProduct f = [] -> geometry_percentage s = NInt 0)
    /\ (Ifc.IfcProduct f <> [] ->
        exists x, geometry_percentage s = NFloat x).
Proof.
  destruct (count_type_fold
              (filter (fun p => Ifc.Representation p = true) (Ifc.IfcProduct f)) [])
    as (H1 & H2 & H3 & H4); [constructor|constructor|].
  assert (Hpct : exists pct,
             match Ifc.IfcProduct f with
             | [] => Some (NInt 0)
             | _ :: _ =>
                 q ← int_truediv
                       (Z.of_nat (length (filter (fun p => Ifc.Representation p = true)
                                                 (Ifc.IfcProduct f))))
                       (Z.of_nat (length (Ifc.IfcProduct f)));
                 Some (NFloat (round1 (fmul q hundred)))
             end = Some pct
             /\ (Ifc.IfcProduct f = [] -> pct = NInt 0)
             /\ (Ifc.IfcProduct f <> [] -> exists x, pct = NFloat x)).
  { destruct (Ifc.IfcProduct f) as [|p products] eqn:Hp.
    - exists (NInt 0). split; [reflexivity|]. split; [reflexivity|congruence].
    - destruct (int_truediv_Some
                  (Z.of_nat (length (filter (fun p => Ifc.Representation p = true)
                                            (p :: products))))
                  (Z.of_nat (length (p :: products)))) as [q Hq];
        [simpl; lia|].
      rewrite Hq. eexists. split; [reflexivity|]. split; [discriminate|eauto]. }
  destruct Hpct as (pct & Epct & Hz & Hnz).
  unfold extract_geometry_statistics. rewrite Epct. cbn [mbind option_bind].
  eexists. split; [reflexivity|]. cbn.
  unfold extract_simple_geometry. rewrite extract_fold. cbn.
  split; [reflexivity|]. split; [reflexivity|].
  split; [apply inj_le, length_filter|].
  split; [reflexivity|]. split; [reflexivity|].
  split; [exact H1|]. split; [exact H3|].
  split; [|split; assumption].
  intros t. pose proof (H4 t) as H4t.
  change (PyDict.get_default t 0 []) with 0 in H4t. rewrite H4t.
  split; [lia|].
  destruct (count_record_fold (omap extracted_record (Ifc.IfcProduct f)) [])
    as (_ & _ & _ & G4); [constructor|constructor|].
  pose proof (G4 t) as G4t.
  change (PyDict.get_default t 0 []) with 0 in G4t. rewrite G4t.
  pose proof (extracted_count_le t (Ifc.IfcProduct f)) as Hle.
  assert (Hsame : count_if (fun r => bool_decide (ifc_type_of r = t))
                           (omap extracted_record (Ifc.IfcProduct f))
                  = count_if (has_ifc_type t) (omap extracted_record (Ifc.IfcProduct f))).
  { unfold count_if. rewrite filter_has_ifc_type. reflexivity. }
  rewrite Hsame. lia.
Qed.

End StatisticsFacts.

(* ===================================================================== *)
(** * Names *)
(* ===================================================================== *)

Section NameFacts.
Import Py GeometryExtractor IFCProcessor Reference Notions.

Lemma str_or_nonempty (x : option string) (default : string) :
  default <> EmptyString -> str_or x default <> EmptyString.
Proof.
  intros Hd. unfold str_or. destruct x as [[|c s]|]; simpl; try exact Hd.
  discriminate.
Qed.

Lemma append_nonempty_r (a b : string) : b <> EmptyString -> a +:+ b <> EmptyString.
Proof.
  intros Hb. destruct a; simpl; [exact Hb|discriminate].
Qed.

Lemma default_name_nonempty (type : string) (i : Z) :
  type +:+ "_" +:+ str_of_Z i <> EmptyString.
Proof. apply append_nonempty_r. discriminate. Qed.

(** X22.  No name in the output is empty: a storey, an element, a geometry
    record or a project without name, or with an empty one, gets a name made
    up for it (["Level <id>"], ["<type>_<id>"], a project name).  The
    processing pipeline and the geometry pipeline give the same name to a
    product, its own when it has a non-empty one.  The two project names of
    a response agree unless the file has a project without a name, which the
    processor calls ["Unnamed Project"] and the geometry extractor
    ["IFC Project"]. *)
Theorem names_are_never_empty (f : Ifc.File) (st : State) :
  Forall (fun l => lv_name l <> EmptyString) (fst (get_building_levels f st))
  /\ Forall (fun e => el_name e <> EmptyString) (fst (process_elements f st))
  /\ Forall (fun r => exists n, r !! "name" = Some (VStr n) /\ n <> EmptyString)
            (elements (extract_simple_geometry f))
  /\ (forall (p : Ifc.Product) (bbox : BoundingBox),
        element_data p bbox !! "name"
        = Some (VStr (el_name (fst (_process_single_element st p))))
        /\ forall n, Ifc.Name p = Some n -> n <> EmptyString ->
                     el_name (fst (_process_single_element st p)) = n)
  /\ pi_name (get_project_info f) <> EmptyString
  /\ _get_project_name f <> EmptyString
  /\ (pi_name (get_project_info f) = _get_project_name f
      \/ (pi_name (get_project_info f) = "Unnamed Project"
          /\ _get_project_name f = "IFC Project"
          /\ exists project rest,
               Ifc.IfcProject f = project :: rest
               /\ str_or (Ifc.project_Name project) EmptyString = EmptyString)).
Proof.
  split.
  { rewrite <- (sorted_levels_perm f st). apply List.Forall_forall.
    intros l Hl. apply List.in_map_iff in Hl as (s & <- & _). simpl.
    apply str_or_nonempty. simpl. discriminate. }
  split.
  { rewrite process_elements_fst. apply List.Forall_forall.
    intros e He. apply List.in_map_iff in He as (p & <- & _). simpl.
    apply str_or_nonempty, default_name_nonempty. }
  split.
  { assert (E : elements (extract_simple_geometry f)
                = omap extracted_record (Ifc.IfcProduct f)).
    { unfold extract_simple_geometry. rewrite extract_fold. reflexivity. }
    rewrite E. clear E.
    induction (Ifc.IfcProduct f) as [|p l IH]; [constructor|]. rewrite omap_cons.
    destruct (extracted_record p) as [r|] eqn:Hr; [|exact IH].
    constructor; [|exact IH].
    unfold extracted_record in Hr.
    destruct (Ifc.Representation p); [|discriminate].
    destruct (Ifc.create_shape p) as [| |verts]; try discriminate.
    destruct (_is_valid_geometry _); [|discriminate].
    injection Hr as <-. eexists. split; [reflexivity|].
    apply str_or_nonempty, default_name_nonempty. }
  split.
  { intros p bbox. split; [reflexivity|].
    intros n Hn Hne. simpl. rewrite Hn. unfold str_or.
    destruct n; [congruence|reflexivity]. }
  unfold get_project_info, _get_project_name.
  destruct (Ifc.IfcProject f) as [|project rest]; simpl.
  { split; [discriminate|]. split; [discriminate|]. left. reflexivity. }
  split; [apply str_or_nonempty; discriminate|].
  split; [apply str_or_nonempty; discriminate|].
  destruct (Ifc.project_Name project) as [[|c s]|] eqn:Hname; simpl.
  - right. split; [reflexivity|]. split; [reflexivity|].
    exists project, rest. rewrite Hname. split; reflexivity.
  - left. reflexivity.
  - right. split; [reflexivity|]. split; [reflexivity|].
    exists project, rest. rewrite Hname. split; reflexivity.
Qed.

End NameFacts.

(* ===================================================================== *)
(** * The default key *)
(* ===================================================================== *)

Section DefaultKey.
Import Py IFCProcessor Reference Notions.

Lemma append_inj_r (a x y : string) : a +:+ x = a +:+ y -> x = y.
Proof.
  induction a as [|c a IH]; simpl; [auto|].
  intros [= H]. apply IH, H.
Qed.

Lemma contains_char_app_l (c : ascii) (a b : string) :
  contains_char c a = true -> contains_char c (a +:+ b) = true.
Proof.
  induction a as [|x a IH]; [discriminate|].
  rewrite append_cons. cbn [contains_char].
  intros H. apply orb_true_iff in H as [H|H].
  - rewrite H. reflexivity.
  - rewrite (IH H). apply orb_true_r.
Qed.

(** The joined pairs of a key that has any hold a colon. *)
Lemma joined_parts_colon (kv : string * pynum) (rest : list (string * pynum)) :
  contains_char ":" (join "-" (map dimension_part (kv :: rest))) = true.
Proof.
  assert (H : contains_char ":" (dimension_part kv) = true).
  { unfold dimension_part.
    change (fst kv +:+ ":" +:+ num_str (snd kv))
      with (fst kv +:+ String ":" (num_str (snd kv))).
    apply contains_char_app. }
  destruct rest as [|kv' rest]; [exact H|].
  change (join "-" (map dimension_part (kv :: kv' :: rest)))
    with (dimension_part kv +:+ "-" +:+ join "-" (map dimension_part (kv' :: rest))).
  apply contains_char_app_l, H.
Qed.

(** X13.  An element gets the default key of its type exactly when its
    dimensions hold no value greater than zero: a key made from dimensions
    is never the default key, whatever the names and the values. *)
Theorem default_key_iff_no_positive_dimension (t : string) (d : gmap string pynum) :
  _create_element_key t d = t +:+ "_default" <-> positive_part d = ∅.
Proof.
  rewrite create_element_key_derive. unfold derive.
  destruct (bool_decide (positive_part d = ∅)) eqn:B.
  - apply bool_decide_eq_true in B. tauto.
  - apply bool_decide_eq_false in B. split; [|contradiction].
    intros H. exfalso.
    change (t +:+ "_default") with (t +:+ String "_" "default") in H.
    change (t +:+ "_" +:+ join "-" (map dimension_part (sorted_items (positive_part d))))
      with (t +:+ String "_" (join "-" (map dimension_part
                                              (sorted_items (positive_part d))))) in H.
    apply append_inj_r in H. injection H as H.
    destruct (sorted_items (positive_part d)) as [|kv rest] eqn:E.
    + apply sorted_items_nil in E. contradiction.
    + pose proof (joined_parts_colon kv rest) as C. rewrite H in C. discriminate.
Qed.

End DefaultKey.

(* ===================================================================== *)
(** * Ties of the nearest-level search *)
(* ===================================================================== *)

Section NearestTies.
Import Py IFCProcessor Reference Notions.

Lemma ascending_split (pre post : list Level) (best : Level) :
  sorted_by_elevation (pre ++ best :: post) ->
  Forall (fun l => fle (elevation best) (elevation l) = true) post.
Proof.
  induction pre as [|x pre IH]; simpl; intros H.
  - inversion H as [|? ? _ Hall]; subst. exact Hall.
  - inversion H as [|? ? Hs _]; subst. apply IH, Hs.
Qed.

(** X11.  After [get_building_levels] on a file with a storey, distinct storey
    ids and no NaN elevation, the nearest-level search finds a level for
    every Z: no level is strictly nearer, and a level that is as near is not
    lower.  So an element half-way between two storeys is given the lower
    one. *)
Theorem nearest_level_ties_go_to_lower_level (f : Ifc.File) (st : State) (z : float) :
  NoDup (map Ifc.id (Ifc.IfcBuildingStorey f)) ->
  Forall (fun s => isnan (_get_level_elevation s) = false) (Ifc.IfcBuildingStorey f) ->
  Ifc.IfcBuildingStorey f <> [] ->
  exists best,
    _find_closest_level (snd (get_building_levels f st)) z = Some (lv_id best)
    /\ best ∈ fst (get_building_levels f st)
    /\ forall l,
         l ∈ fst (get_building_levels f st) ->
         flt (distance z l) (distance z best) = false
         /\ (fle (distance z l) (distance z best) = true ->
             fle (elevation best) (elevation l) = true).
Proof.
  intros Hnd Hnan Hne.
  destruct (find_closest_level_nonempty (snd (get_building_levels f st)) z)
    as (pre & best & post & E & R & Hpre & Hpost).
  { apply cache_nonempty, Hne. }
  rewrite get_building_levels_cache in E.
  rewrite (cache_values_distinct _ (sorted_levels_NoDup f st Hnd)) in E.
  pose proof (sorted_levels_ascending f st Hnan) as Hs. rewrite E in Hs.
  pose proof (sorted_levels_not_nan f st Hnan) as Hn. rewrite E in Hn.
  exists best. split; [exact R|]. rewrite E.
  split; [apply elem_of_app; right; apply elem_of_cons; auto|].
  intros l Hl. apply elem_of_app in Hl as [Hl|Hl].
  - rewrite List.Forall_forall in Hpre. apply list_elem_of_In in Hl.
    specialize (Hpre l Hl). split.
    + destruct (flt (distance z l) (distance z best)) eqn:F; [|reflexivity].
      apply flt_fle in F. congruence.
    + intros C. congruence.
  - apply elem_of_cons in Hl as [->|Hl].
    + split.
      * destruct (flt (distance z best) (distance z best)) eqn:F; [|reflexivity].
        pose proof (flt_not_fle _ _ F) as G. apply flt_fle in F. congruence.
      * intros _. apply fle_refl.
        apply Forall_app in Hn as [_ Hn]. apply Forall_cons in Hn as [Hn _]. exact Hn.
    + rewrite List.Forall_forall in Hpost. apply list_elem_of_In in Hl.
      split; [apply Hpost, Hl|]. intros _.
      pose proof (ascending_split pre post best Hs) as Ha.
      rewrite List.Forall_forall in Ha. apply Ha, Hl.
Qed.

Lemma nearest_level_ties_go_to_lower_level_witness :
  _find_closest_level
    (snd (get_building_levels (example_file three_storeys []) init)) (lit 1.5)
  = Some 11%Z
  /\ exists best,
       _find_closest_level
         (snd (get_building_levels (example_file three_storeys []) init)) (lit 1.5)
       = Some (lv_id best).
Proof.
  split; [vm_compute; reflexivity|].
  destruct (nearest_level_ties_go_to_lower_level
              (example_file three_storeys []) init (lit 1.5))
    as (best & E & _).
  - apply (bool_decide_unpack _). vm_compute. exact I.
  - repeat apply List.Forall_cons; try apply List.Forall_nil; reflexivity.
  - discriminate.
  - exists best. exact E.
Defined.

End NearestTies.

(* ===================================================================== *)
(** * The box and the order of the vertices *)
(* ===================================================================== *)

Section VertexOrder.
Import Np GeometryExtractor Reference Notions.

(** The least and the greatest of the same numbers in another order. *)
Lemma fold_minimum_perm (a a' : float) (l l' : list float) :
  Permutation (a :: l) (a' :: l') ->
  Forall (fun x => isnan x = false) (a :: l) ->
  same_number (fold_left minimum l a) (fold_left minimum l' a').
Proof.
  intros Hp Hn.
  assert (Hn' : Forall (fun x => isnan x = false) (a' :: l')).
  { rewrite List.Forall_forall in *. intros x Hx. apply Hn.
    apply (Permutation_in _ (Permutation_sym Hp)), Hx. }
  apply Forall_cons in Hn as [Ha Hl]. apply Forall_cons in Hn' as [Ha' Hl'].
  destruct (fold_minimum_least l a Ha Hl) as (_ & L1 & M1).
  destruct (fold_minimum_least l' a' Ha' Hl') as (_ & L2 & M2).
  rewrite List.Forall_forall in L1, L2.
  apply fle_antisym.
  - apply L1. apply (Permutation_in _ (Permutation_sym Hp)), M2.
  - apply L2. apply (Permutation_in _ Hp), M1.
Qed.

Lemma fold_maximum_perm (a a' : float) (l l' : list float) :
  Permutation (a :: l) (a' :: l') ->
  Forall (fun x => isnan x = false) (a :: l) ->
  same_number (fold_left maximum l a) (fold_left maximum l' a').
Proof.
  intros Hp Hn.
  assert (Hn' : Forall (fun x => isnan x = false) (a' :: l')).
  { rewrite List.Forall_forall in *. intros x Hx. apply Hn.
    apply (Permutation_in _ (Permutation_sym Hp)), Hx. }
  apply Forall_cons in Hn as [Ha Hl]. apply Forall_cons in Hn' as [Ha' Hl'].
  destruct (fold_maximum_greatest l a Ha Hl) as (_ & L1 & M1).
  destruct (fold_maximum_greatest l' a' Ha' Hl') as (_ & L2 & M2).
  rewrite List.Forall_forall in L1, L2.
  apply fle_antisym.
  - apply L2. apply (Permutation_in _ Hp), M1.
  - apply L1. apply (Permutation_in _ (Permutation_sym Hp)), M2.
Qed.

Lemma axis_perm (axis : vec3 -> float) (v v' : vec3) (vs vs' : list vec3) :
  Permutation (v :: vs) (v' :: vs') ->
  Permutation (axis (swap12 v) :: map axis (map swap12 vs))
              (axis (swap12 v') :: map axis (map swap12 vs')).
Proof.
  intros Hp.
  change (Permutation (map axis (map swap12 (v :: vs)))
                      (map axis (map swap12 (v' :: vs')))).
  apply Permutation_map, Permutation_map, Hp.
Qed.

Lemma axis_numbers_cons (axis : vec3 -> float) (v : vec3) (vs : list vec3) :
  (forall w, vnumber w -> isnan (axis (swap12 w)) = false) ->
  Forall vnumber (v :: vs) ->
  Forall (fun x => isnan x = false) (axis (swap12 v) :: map axis (map swap12 vs)).
Proof.
  intros Hax HV. apply Forall_cons in HV as [Hv HV].
  constructor; [apply Hax, Hv|]. rewrite map_map. apply axis_numbers; assumption.
Qed.

(** X26.  The box does not depend on the order in which the shape lists its
    vertices: for vertices without NaN coordinates, listed in two orders,
    the two boxes have the same numbers in 'min', 'max', 'center' and
    'size': every component of the one is equal to that of the other, or
    both are zeros (0.0 and -0.0 compare equal, and which of them a
    reduction returns depends on the order). *)
Theorem bounding_box_ignores_vertex_order (V V' : list vec3) :
  Permutation V V' -> Forall vnumber V ->
  same_box (_calculate_bounding_box (flatten V))
           (_calculate_bounding_box (flatten V')).
Proof.
  intros Hp HV. rewrite !calculate_bounding_box_flatten.
  destruct V as [|v vs], V' as [|v' vs'].
  - repeat split; repeat constructor; apply same_number_refl.
  - apply Permutation_nil in Hp. discriminate.
  - symmetry in Hp. apply Permutation_nil in Hp. discriminate.
  - unfold box_by_axis. cbn [map].
    assert (A0 : forall w, vnumber w -> isnan (axis0 (swap12 w)) = false)
      by (intros [[x y] z] H; apply H).
    assert (A1 : forall w, vnumber w -> isnan (axis1 (swap12 w)) = false)
      by (intros [[x y] z] H; apply H).
    assert (A2 : forall w, vnumber w -> isnan (axis2 (swap12 w)) = false)
      by (intros [[x y] z] H; apply H).
    assert (Lo : forall axis,
               (forall w, vnumber w -> isnan (axis (swap12 w)) = false) ->
               same_number (min_of (axis (swap12 v)) (map axis (map swap12 vs)))
                           (min_of (axis (swap12 v')) (map axis (map swap12 vs')))).
    { intros axis Hax. apply fold_minimum_perm;
        [apply axis_perm, Hp|apply axis_numbers_cons; assumption]. }
    assert (Hi : forall axis,
               (forall w, vnumber w -> isnan (axis (swap12 w)) = false) ->
               same_number (max_of (axis (swap12 v)) (map axis (map swap12 vs)))
                           (max_of (axis (swap12 v')) (map axis (map swap12 vs')))).
    { intros axis Hax. apply fold_maximum_perm;
        [apply axis_perm, Hp|apply axis_numbers_cons; assumption]. }
    unfold same_box, same_vec. cbn [bmin bmax center size].
    repeat split; repeat apply List.Forall_cons; try apply List.Forall_nil;
      cbn [axis0 axis1 axis2 fst snd];
      auto using half_same, clamp_same, fadd_same, fsub_same.
Qed.

Lemma bounding_box_ignores_vertex_order_witness :
  same_box (_calculate_bounding_box (flatten cube_0_123))
           (_calculate_bounding_box (flatten (rev cube_0_123))).
Proof.
  apply (bounding_box_ignores_vertex_order cube_0_123 (rev cube_0_123)).
  - apply Permutation_rev.
  - repeat apply List.Forall_cons; try apply List.Forall_nil;
      repeat split; reflexivity.
Defined.

End VertexOrder.

(* ===================================================================== *)
(** * The order of the dimensions in a key *)
(* ===================================================================== *)

Section KeyOrder.
Import Py IFCProcessor Reference Notions.

Lemma elem_of_items_in (d : gmap string pynum) (names : list string)
  (k : string) (v : pynum) :
  (k, v) ∈ omap (fun name => pair name <$> d !! name) names
  <-> k ∈ names /\ d !! k = Some v.
Proof.
  rewrite list_elem_of_omap. split.
  - intros (n & Hn & E). destruct (d !! n) as [w|] eqn:L; [|discriminate].
    simpl in E. injection E as <- <-. auto.
  - intros [Hk L]. exists k. split; [exact Hk|]. rewrite L. reflexivity.
Qed.

Lemma items_in_sorted (d : gmap string pynum) (names : list string) :
  StronglySorted (fun a b => String.ltb a b = true) names ->
  sorted_by_name (omap (fun name => pair name <$> d !! name) names).
Proof.
  intros H. induction H as [|n names Hs IH Hall]; [constructor|].
  rewrite omap_cons. destruct (d !! n) as [v|]; simpl; [|exact IH].
  constructor; [exact IH|].
  apply List.Forall_forall. intros [k w] Hkw. simpl.
  apply list_elem_of_In, elem_of_items_in in Hkw as [Hk _].
  rewrite List.Forall_forall in Hall. apply Hall, list_elem_of_In, Hk.
Qed.

Lemma sorted_by_name_NoDup (l : list (string * pynum)) :
  sorted_by_name l -> NoDup l.
Proof.
  induction 1 as [|x l Hs IH Hall]; [constructor|].
  apply NoDup_cons. split; [|exact IH].
  intros Hin. rewrite List.Forall_forall in Hall.
  apply list_elem_of_In in Hin. specialize (Hall x Hin).
  rewrite string_ltb_irrefl in Hall. discriminate.
Qed.

Lemma dimension_order_sorted :
  StronglySorted (fun a b => String.ltb a b = true) dimension_order.
Proof.
  unfold dimension_order.
  repeat (apply SSorted_cons;
          [|repeat apply List.Forall_cons; try apply List.Forall_nil; reflexivity]).
  apply SSorted_nil.
Qed.

Lemma dimension_order_props (k : string) :
  k ∈ dimension_props -> k ∈ dimension_order.
Proof.
  intros H. unfold dimension_props in H. unfold dimension_order.
  repeat (apply elem_of_cons in H as [->|H];
          [apply (bool_decide_unpack _); vm_compute; exact I|]).
  apply elem_of_nil in H. contradiction.
Qed.

(** The items of a mapping whose names are dimension names, sorted: the
    items in the fixed order of the names. *)
Lemma sorted_items_in_order (d : gmap string pynum) :
  map_Forall (fun k _ => k ∈ dimension_props) d ->
  sorted_items d = items_in_order d.
Proof.
  intros Hd. apply (strictly_sorted_unique String.ltb fst).
  - apply string_ltb_irrefl.
  - apply string_ltb_trans.
  - apply sorted_items_sorted.
  - apply items_in_sorted, dimension_order_sorted.
  - rewrite sorted_items_perm. apply NoDup_Permutation.
    + apply NoDup_map_to_list.
    + apply sorted_by_name_NoDup, items_in_sorted, dimension_order_sorted.
    + intros [k v]. rewrite elem_of_map_to_list. unfold items_in_order.
      rewrite elem_of_items_in. split; [|tauto].
      intros L. split; [|exact L]. apply dimension_order_props, (Hd k v L).
Qed.

(** X27.  The key of an element lists its dimensions in one fixed order,
    whatever the order of the properties in the file: Area, Depth, Height,
    Length, Thickness, Volume, Width, each present or not.  The sorted
    items of the dimensions of an element are its items taken in that
    order, and its key is the type, an underscore, and the ["name:value"]
    pairs of the values greater than zero in that order, joined by ["-"];
    the default key when there is none. *)
Theorem element_key_lists_dimensions_in_fixed_order
  (element : Ifc.Product) (t : string) :
  sorted_items (_get_element_dimensions element)
  = items_in_order (_get_element_dimensions element)
  /\ _create_element_key t (_get_element_dimensions element)
     = match List.filter (fun kv => num_gt0 (snd kv))
                         (items_in_order (_get_element_dimensions element)) with
       | [] => t +:+ "_default"
       | part :: parts => t +:+ "_" +:+ join "-" (map dimension_part (part :: parts))
       end.
Proof.
  assert (E : sorted_items (_get_element_dimensions element)
              = items_in_order (_get_element_dimensions element)).
  { apply sorted_items_in_order. intros k v L.
    exact (element_dimensions_names element k v L). }
  split; [exact E|].
  unfold _create_element_key. rewrite E.
  destruct (bool_decide (_get_element_dimensions element = ∅)) eqn:B.
  - apply bool_decide_eq_true in B. rewrite B. reflexivity.
  - destruct (List.filter _ _) as [|part parts]; reflexivity.
Qed.

End KeyOrder.
